(** * OfflineEbayMonitor: melt valuation, price memory, numismatic rules,
      prospect scoring and the hit engine, embedded from [src/a_materials].

    Conventions of the embedding.
    - A Python [float] is a primitive binary64 float ([PrimFloat.float]); the
      arithmetic operators are the IEEE operators, so every rounding of the
      source is reproduced bit for bit.  [round(x, n)] is [PyFloat.py_round].
    - A Python [int] is a [Z].
    - A Python [str] is a [string]; titles are read as ASCII text (the
      classes [\w], [\s], [\d] and [str.lower] are the ASCII ones).
    - A compiled pattern of the [re] module is a term of [Re.regex], run by a
      backtracking matcher with Python's priorities (leftmost start, greedy
      repetition, ordered alternation).
    - A [dict] keyed by strings is a [gmap string _]; in-place mutation is
      explicit state passing (the function returns the new store).
    - The wall clock ([time.time()], [now_ts()]) is an explicit argument. *)

From Stdlib Require Import ZArith Floats Bool Ascii String List Lia.
From Stdlib Require Import Sorting.Sorted Sorting.Permutation.
From stdpp Require Import base option list gmap strings pretty.

Set Warnings "-inexact-float".
Local Open Scope string_scope.
Local Open Scope Z_scope.

(* ===================================================================== *)
(** * Python floats                                                       *)
(* ===================================================================== *)

Module PyFloat.

(** Round-half-even of the rational [num / den] ([den > 0]) to an integer. *)
Definition rne_div (num den : Z) : Z :=
  let q := num / den in
  let r := num mod den in
  match (2 * r ?= den) with
  | Lt => q
  | Gt => q + 1
  | Eq => if Z.even q then q else q + 1
  end.

(** The binary64 float nearest to [num / den] (ties to even), with sign
    [s]; [num >= 0], [den > 0].  The quotient is taken with enough extra
    bits and a sticky bit, then rounded once by [binary_normalize]. *)
Definition nearest_float_of_ratio (s : bool) (num den : Z) : float :=
  if num =? 0 then (if s then PrimFloat.neg_zero else PrimFloat.zero)
  else
    let k := Z.max 0 (64 + Z.log2 den - Z.log2 num) in
    let q := (num * 2 ^ k) / den in
    let r := (num * 2 ^ k) mod den in
    let m := 2 * q + (if r =? 0 then 0 else 1) in
    let f := SF2Prim (binary_normalize prec emax m (- k - 1) false) in
    if s then (- f)%float else f.

(** [round(x, ndigits)] for [ndigits >= 0]: CPython prints [x] with
    [ndigits] decimals, correctly rounded (ties on the exact binary value go
    to even), and reads the decimal back as the nearest float.  Zeros,
    infinities and NaN are returned unchanged. *)
Definition py_round (x : float) (ndigits : Z) : float :=
  match Prim2SF x with
  | S754_finite s m e =>
      let scale := 10 ^ ndigits in
      let n := if 0 <=? e then Zpos m * 2 ^ e * scale
               else rne_div (Zpos m * scale) (2 ^ (- e)) in
      nearest_float_of_ratio s n scale
  | _ => x
  end.

(** [float(z)] for an [int] [z]: the nearest float. *)
Definition of_int (z : Z) : float :=
  SF2Prim (binary_normalize prec emax z 0 false).

(** [max(0.0, v)]: Python's [max] keeps its first argument unless a later
    one is strictly greater. *)
Definition max0 (v : float) : float :=
  if (0 <? v)%float then v else 0%float.

(** Truth value of a float: [x != 0.0] (NaN is true). *)
Definition truthy (x : float) : bool := negb (x =? 0)%float.

(** [x or d] for floats. *)
Definition or_default (x d : float) : float := if truthy x then x else d.

(** Floor of the exact value of a finite float; [None] for infinities and
    NaN, on which [int(...)] raises. *)
Definition floor_exact (x : float) : option Z :=
  match Prim2SF x with
  | S754_zero _ => Some 0
  | S754_finite s m e =>
      let n := if s then Zneg m else Zpos m in
      Some (if 0 <=? e then n * 2 ^ e else n / 2 ^ (- e))
  | _ => None
  end.

(** [int(x // 60)] for [x >= 0]: the floor of the exact quotient; [None]
    when [int] raises (infinite [x]). *)
Definition floordiv60_int (x : float) : option Z :=
  match Prim2SF x with
  | S754_zero _ => Some 0
  | S754_finite false m e =>
      Some (if 0 <=? e then (Zpos m * 2 ^ e) / 60
            else Zpos m / (60 * 2 ^ (- e)))
  | _ => None
  end.

End PyFloat.

(* ===================================================================== *)
(** * Python strings                                                      *)
(* ===================================================================== *)

Module PyStr.

Definition is_upper (c : ascii) : bool :=
  let n := nat_of_ascii c in (65 <=? n)%nat && (n <=? 90)%nat.
Definition is_lower (c : ascii) : bool :=
  let n := nat_of_ascii c in (97 <=? n)%nat && (n <=? 122)%nat.
Definition is_digit (c : ascii) : bool :=
  let n := nat_of_ascii c in (48 <=? n)%nat && (n <=? 57)%nat.
(** [str.isspace] on ASCII: TAB..CR, FS..US and the blank. *)
Definition is_space (c : ascii) : bool :=
  let n := nat_of_ascii c in
  ((9 <=? n)%nat && (n <=? 13)%nat) || ((28 <=? n)%nat && (n <=? 32)%nat).
(** [\w]: letters, digits and the underscore. *)
Definition is_word (c : ascii) : bool :=
  is_upper c || is_lower c || is_digit c || Ascii.eqb c "_"%char.

Definition lower_char (c : ascii) : ascii :=
  if is_upper c then ascii_of_nat (nat_of_ascii c + 32) else c.
Definition upper_char (c : ascii) : ascii :=
  if is_lower c then ascii_of_nat (nat_of_ascii c - 32) else c.

Fixpoint lower (s : string) : string :=
  match s with
  | EmptyString => EmptyString
  | String c s' => String (lower_char c) (lower s')
  end.

Fixpoint upper (s : string) : string :=
  match s with
  | EmptyString => EmptyString
  | String c s' => String (upper_char c) (upper s')
  end.

Fixpoint lstrip (s : string) : string :=
  match s with
  | String c s' => if is_space c then lstrip s' else s
  | EmptyString => EmptyString
  end.

Fixpoint rev_string (s acc : string) : string :=
  match s with
  | EmptyString => acc
  | String c s' => rev_string s' (String c acc)
  end.

Definition rstrip (s : string) : string :=
  rev_string (lstrip (rev_string s EmptyString)) EmptyString.

(** [s.strip()] *)
Definition strip (s : string) : string := rstrip (lstrip s).

(** [needle in hay] *)
Fixpoint contains (needle hay : string) : bool :=
  String.prefix needle hay ||
  match hay with
  | EmptyString => false
  | String _ hay' => contains needle hay'
  end.

(** [s.replace(" ", "")] *)
Fixpoint remove_blanks (s : string) : string :=
  match s with
  | EmptyString => EmptyString
  | String c s' =>
      if Ascii.eqb c " "%char then remove_blanks s' else String c (remove_blanks s')
  end.

(** Truth value of a string: non-empty. *)
Definition nonempty (s : string) : bool :=
  match s with EmptyString => false | _ => true end.

(** [s.replace(old, new)] for a non-empty [old]: the occurrences are taken
    from the left and do not overlap; [skip] counts the characters of an
    occurrence still to pass. *)
Fixpoint replace_from (old new : string) (skip : nat) (s : string) : string :=
  match s with
  | EmptyString => EmptyString
  | String c s' =>
      match skip with
      | S n => replace_from old new n s'
      | O =>
          if String.prefix old s
          then new +:+ replace_from old new (String.length old - 1) s'
          else String c (replace_from old new 0 s')
      end
  end.

Definition replace (old new s : string) : string := replace_from old new 0 s.

(** [int(s)] on a string of decimal digits. *)
Fixpoint int_of_digits (s : string) (acc : Z) : Z :=
  match s with
  | EmptyString => acc
  | String c s' => int_of_digits s' (10 * acc + (Z.of_nat (nat_of_ascii c) - 48))
  end.

(** [str(z)] / [f"{z}"] for an [int]. *)
Definition str_of_int (z : Z) : string := pretty z.

End PyStr.

(* ===================================================================== *)
(** * Python lists: [list.sort(key=...)]                                  *)
(* ===================================================================== *)

Module PyList.
Section Sort.
Context {A K : Type}.
Variable key : A -> K.
Variable lt : K -> K -> bool.     (* [<] on the keys *)

(** [list.sort] is stable and only asks [<] of the keys: an element is
    placed before the first element of the sorted rest whose key is not
    smaller than its own. *)
Fixpoint insert_by (x : A) (l : list A) : list A :=
  match l with
  | [] => [x]
  | y :: l' =>
      if lt (key y) (key x) then y :: insert_by x l'
      else x :: y :: l'
  end.

Fixpoint sort_by (l : list A) : list A :=
  match l with
  | [] => []
  | x :: l' => insert_by x (sort_by l')
  end.
End Sort.
End PyList.

(* ===================================================================== *)
(** * The [re] module: patterns and [re.search]                           *)
(* ===================================================================== *)

Module Re.

Inductive cls_item : Type :=
| CChar (c : ascii)          (* a literal member *)
| CRange (lo hi : ascii)     (* lo-hi *)
| CDigit                     (* \d *)
| CSpace.                    (* \s *)

Inductive regex : Type :=
| Eps
| Lit (c : ascii)            (* one literal character *)
| Dot                        (* . : any character but a newline *)
| Cls (items : list cls_item)(* [...] and the escapes \d, \s *)
| Bol                        (* ^ *)
| WordB                      (* \b *)
| Seq (r1 r2 : regex)
| Alt (r1 r2 : regex)        (* r1|r2, r1 tried first *)
| Star (r : regex)           (* r*, greedy *)
| Group (n : nat) (r : regex)(* the n-th capturing group *)
| NegLook (r : regex).       (* (?!r) *)

(** Derived forms, with the priorities of the backtracking engine. *)
Definition Opt (r : regex) : regex := Alt r Eps.          (* r?  *)
Definition Plus (r : regex) : regex := Seq r (Star r).    (* r+  *)
Fixpoint Times (n : nat) (r : regex) : regex :=           (* r{n} *)
  match n with O => Eps | S n' => Seq r (Times n' r) end.
Fixpoint UpTo (n : nat) (r : regex) : regex :=            (* r{0,n} *)
  match n with O => Eps | S n' => Opt (Seq r (UpTo n' r)) end.
Definition Range (lo hi : nat) (r : regex) : regex :=     (* r{lo,hi} *)
  Seq (Times lo r) (UpTo (hi - lo) r).
Fixpoint Str (s : string) : regex :=                      (* a literal word *)
  match s with
  | EmptyString => Eps
  | String c EmptyString => Lit c
  | String c s' => Seq (Lit c) (Str s')
  end.
Fixpoint Alts (rs : list regex) : regex :=                (* r1|r2|...|rn *)
  match rs with
  | [] => Eps
  | [r] => r
  | r :: rs' => Alt r (Alts rs')
  end.
Fixpoint Seqs (rs : list regex) : regex :=                (* r1 r2 ... rn *)
  match rs with
  | [] => Eps
  | [r] => r
  | r :: rs' => Seq r (Seqs rs')
  end.
Definition digit : regex := Cls [CDigit].                 (* \d *)
Definition space : regex := Cls [CSpace].                 (* \s *)

(** Where the matcher stands: the character just before the position
    ([None] at the start of the subject) and the text still to read. *)
Record cursor : Type := Cursor { before : option ascii; rest : string }.

Definition captures : Type := list (nat * string).

Definition in_item (x : ascii) (it : cls_item) : bool :=
  match it with
  | CChar c => Ascii.eqb c x
  | CRange lo hi =>
      (nat_of_ascii lo <=? nat_of_ascii x)%nat && (nat_of_ascii x <=? nat_of_ascii hi)%nat
  | CDigit => PyStr.is_digit x
  | CSpace => PyStr.is_space x
  end.

Definition in_cls (ic : bool) (items : list cls_item) (x : ascii) : bool :=
  existsb (in_item x) items
  || (ic && (existsb (in_item (PyStr.lower_char x)) items
             || existsb (in_item (PyStr.upper_char x)) items)).

Definition lit_eq (ic : bool) (c x : ascii) : bool :=
  if ic then Ascii.eqb (PyStr.lower_char c) (PyStr.lower_char x) else Ascii.eqb c x.

Definition word_before (c : cursor) : bool :=
  match before c with Some x => PyStr.is_word x | None => false end.
Definition word_after (c : cursor) : bool :=
  match rest c with String x _ => PyStr.is_word x | EmptyString => false end.

(** The text read between two cursors of the same subject. *)
Definition consumed (c c' : cursor) : string :=
  String.substring 0 (String.length (rest c) - String.length (rest c')) (rest c).

Fixpoint set_group (n : nat) (s : string) (caps : captures) : captures :=
  match caps with
  | [] => [(n, s)]
  | (m, t) :: caps' =>
      if (m =? n)%nat then (n, s) :: caps' else (m, t) :: set_group n s caps'
  end.

Fixpoint group (n : nat) (caps : captures) : option string :=
  match caps with
  | [] => None
  | (m, t) :: caps' => if (m =? n)%nat then Some t else group n caps'
  end.

(** One step of the matcher on a single character. *)
Definition step1 (ok : ascii -> bool) (c : cursor) (caps : captures)
    (k : cursor -> captures -> option captures) : option captures :=
  match rest c with
  | String x s' => if ok x then k (Cursor (Some x) s') caps else None
  | EmptyString => None
  end.

(** [run ic r c caps k]: match [r] at [c] and continue with [k]; the first
    success in backtracking order is returned.  [ic] is the flag [re.I]. *)
Fixpoint run (ic : bool) (r : regex) (c : cursor) (caps : captures)
    (k : cursor -> captures -> option captures) {struct r} : option captures :=
  match r with
  | Eps => k c caps
  | Lit a => step1 (lit_eq ic a) c caps k
  | Dot => step1 (fun x => negb (Ascii.eqb x "010"%char)) c caps k
  | Cls items => step1 (in_cls ic items) c caps k
  | Bol => match before c with None => k c caps | Some _ => None end
  | WordB => if xorb (word_before c) (word_after c) then k c caps else None
  | Seq r1 r2 => run ic r1 c caps (fun c' caps' => run ic r2 c' caps' k)
  | Alt r1 r2 =>
      match run ic r1 c caps k with
      | Some res => Some res
      | None => run ic r2 c caps k
      end
  | Star r' =>
      (fix loop (fuel : nat) (c : cursor) (caps : captures) {struct fuel}
         : option captures :=
         match fuel with
         | O => k c caps
         | S fuel' =>
             match run ic r' c caps
                     (fun c' caps' =>
                        if (String.length (rest c') <? String.length (rest c))%nat
                        then loop fuel' c' caps' else None) with
             | Some res => Some res
             | None => k c caps
             end
         end) (String.length (rest c)) c caps
  | Group n r' => run ic r' c caps (fun c' caps' => k c' (set_group n (consumed c c') caps'))
  | NegLook r' =>
      match run ic r' c caps (fun _ caps' => Some caps') with
      | Some _ => None
      | None => k c caps
      end
  end.

(** [re.match]-at-a-position, then [re.search]: the leftmost start wins. *)
Definition match_at (ic : bool) (r : regex) (c : cursor) : option captures :=
  run ic r c [] (fun _ caps => Some caps).

Fixpoint search_from (ic : bool) (r : regex) (prev : option ascii) (s : string)
    : option captures :=
  match match_at ic r (Cursor prev s) with
  | Some caps => Some caps
  | None =>
      match s with
      | EmptyString => None
      | String x s' => search_from ic r (Some x) s'
      end
  end.

(** A compiled pattern: the expression and its [re.I] flag. *)
Record pattern : Type := Pattern { ignore_case : bool; expr : regex }.

Definition search (p : pattern) (s : string) : option captures :=
  search_from (ignore_case p) (expr p) None s.

(** [bool(re.search(p, s))] *)
Definition found (p : pattern) (s : string) : bool :=
  match search p s with Some _ => true | None => false end.

(** [re.search(p, s).group(1)] *)
Definition search_group1 (p : pattern) (s : string) : option string :=
  match search p s with
  | Some caps => group 1 caps
  | None => None
  end.

End Re.

(* ===================================================================== *)
(** * config.py                                                           *)
(* ===================================================================== *)

(** The settings the core reads.  A setting read with
    [getattr(config, name, default)] whose assignment may be missing is an
    [option]: [None] is "attribute not defined". *)
Record Config : Type := {
  SPOT_PRICE : float;
  PAWN_PAYOUT_PCT : float;
  NUMISMATIC_PAYOUT_PCT : float;
  BID_OFFSET : float;
  MIN_MARGIN_PCT : float;
  PRICE_CAPTURE_ONLY_IF_BIDS : bool;
  PRICE_CAPTURE_BUMP_PCT : float;
  EMA_ALPHA : float;
  PRICE_CAPTURE_MAX_MINUTES : option float;
  (** [None]: not defined (the default 150.0 applies); [Some None]: defined
      as [None] (no cap). *)
  PROS_MAX_TOTAL : option (option float);
  PROS_MIN_DEALER_MARGIN_PCT : float;
  PROS_MIN_SCORE : Z;
  PROS_CAT3_MISPRICE_TOL_PCT : float;
  PROS_CAT3_MISPRICE_BONUS : Z;
  PROS_CAT3_REQUIRE_ENDING_SOON : bool;
  PROS_CAT3_MAX_MINUTES : Z;
  PROS_HARD_DISQUALIFY_KEYWORDS : list string;
  PROS_DISQUALIFY_KEYWORDS : list string;
  PROS_DISQUALIFY_REGEX : list Re.regex;
  PROS_HYPE_KEYWORDS : list string;
  PROS_UNDERDESCRIBED_KEYWORDS : list string;
  PROS_HIGH_GRADE_KEYWORDS : list string;
  PRICE_CAPTURE_DISQUALIFY_KEYWORDS : list string;
  PRICE_CAPTURE_DISQUALIFY_REGEX : list Re.regex
}.

Module ConfigValues.
Import Re.

(* r"\b(?:replica|copy|fantasy|reproduction)\b" *)
Definition pros_disqualify_regex_1 : regex :=
  Seqs [WordB; Alts [Str "replica"; Str "copy"; Str "fantasy"; Str "reproduction"]; WordB].

(* (?:coin|coins|pc|pcs|piece|pieces) *)
Definition coin_words : regex :=
  Alts [Str "coin"; Str "coins"; Str "pc"; Str "pcs"; Str "piece"; Str "pieces"].

(* r"\b\d+\s*x\b" *)
Definition capture_regex_1 : regex :=
  Seqs [WordB; Plus digit; Star space; Lit "x"; WordB].
(* r"\b\d+\s*(?:coin|coins|pc|pcs|piece|pieces)\b" *)
Definition capture_regex_2 : regex :=
  Seqs [WordB; Plus digit; Star space; coin_words; WordB].
(* r"\(\s*\d+\s*(?:coin|coins|pc|pcs|piece|pieces)\s*(?:lot)?\s*\)" *)
Definition capture_regex_3 : regex :=
  Seqs [Lit "("; Star space; Plus digit; Star space; coin_words; Star space;
        Opt (Str "lot"); Star space; Lit ")"].
(* r"\blot\s*(?:of\s*" r")?\d+\b" *)
Definition capture_regex_4 : regex :=
  Seqs [WordB; Str "lot"; Star space; Opt (Seq (Str "of") (Star space)); Plus digit; WordB].
(* r"\bms\s*\d{2}\b" *)
Definition capture_regex_5 : regex :=
  Seqs [WordB; Str "ms"; Star space; Times 2 digit; WordB].
(* r"\bpf\s*\d{2}\b" *)
Definition capture_regex_6 : regex :=
  Seqs [WordB; Str "pf"; Star space; Times 2 digit; WordB].

(** The values assigned in [config.py] ([PROS_MODE = "aggressive"];
    [PROS_MAX_TOTAL] is commented out; [PROS_HARD_DISQUALIFY_KEYWORDS] is
    not defined, so its [getattr] default, the empty list, is used). *)
Definition config : Config := {|
  SPOT_PRICE := 62.00;
  PAWN_PAYOUT_PCT := 82.0;
  NUMISMATIC_PAYOUT_PCT := 60.0;
  BID_OFFSET := 0.00;
  MIN_MARGIN_PCT := 12.0;
  PRICE_CAPTURE_ONLY_IF_BIDS := true;
  PRICE_CAPTURE_BUMP_PCT := 0.08;
  EMA_ALPHA := 0.40;
  PRICE_CAPTURE_MAX_MINUTES := Some 30%float;
  PROS_MAX_TOTAL := None;
  PROS_MIN_DEALER_MARGIN_PCT := 5.0;
  PROS_MIN_SCORE := 60;
  PROS_CAT3_MISPRICE_TOL_PCT := 5.0;
  PROS_CAT3_MISPRICE_BONUS := 35;
  PROS_CAT3_REQUIRE_ENDING_SOON := true;
  PROS_CAT3_MAX_MINUTES := 30;
  PROS_HARD_DISQUALIFY_KEYWORDS := [];
  PROS_DISQUALIFY_KEYWORDS :=
    ["holed"; "hole"; "drilled"; "pierced"; "plugged";
     "bent"; "damaged"; "broken"; "scratched"; "details";
     "harshly cleaned"; "cleaned";
     "replica"; "copy"; "fantasy"; "reproduction";
     "plated"; "clad"; "silver plate"; "silver plated"; "silver tone"; "silver toned";
     "gold tone"; "gold toned"];
  PROS_DISQUALIFY_REGEX := [pros_disqualify_regex_1];
  PROS_HYPE_KEYWORDS :=
    ["monster"; "wow"; "elite"; "rare!!"; "superb"; "amazing";
     "beautiful"; "blazing"; "choice"; "gem"; "premium"; "rare"; "key date";
     "clearance"; "start"; "starts"; "start$"; "start $"; "nr"; "no reserve";
     "ms"; "pf"; "proof"; "dmpl"; "pl"; "deep mirror";
     "bu"; "unc"; "uncirculated"; "brilliant uncirculated";
     "pcgs"; "ngc"; "anacs"; "icg"; "cac"; "slab"; "graded"; "certified"];
  PROS_UNDERDESCRIBED_KEYWORDS :=
    ["estate"; "old collection"; "attic"; "found"; "as is"; "no reserve";
     "better date"; "scarce date"];
  PROS_HIGH_GRADE_KEYWORDS :=
    ["pcgs"; "ngc"; "anacs"; "icg"; "cac";
     "ms"; "ms-"; "ms60"; "ms61"; "ms62"; "ms63"; "ms64"; "ms65"; "ms66"; "ms67";
     "ms68"; "ms69"; "ms70";
     "au"; "a.u."; "about uncirculated"; "unc"; "uncirculated"; "bu";
     "brilliant uncirculated";
     "proof"; "pr"; "pf"; "deep cameo"; "dcam"; "ultra cameo"; "ucam"; "cameo";
     "pl"; "prooflike"; "dmpl"; "deep mirror prooflike";
     "gem"; "choice"; "blast white"; "monster toning"; "full bands"; "full bell lines"];
  PRICE_CAPTURE_DISQUALIFY_KEYWORDS :=
    ["lot"; "lots"; "group"; "collection"; "estate"; "hoard";
     "mixed"; "bundle"; "set"; "roll"; "bag"; "coins";
     "bu"; "brilliant uncirculated"; "unc"; "uncirculated";
     "au"; "xf"; "ef"; "ms"; "choice"; "gem";
     "pl"; "dmpl"; "proof";
     "pcgs"; "ngc"; "anacs"; "icg"; "slab"; "graded"; "certified"; "holder";
     "no coins"; "coin book"; "folder"; "album";
     "money clip"; "keychain"; "cutout"; "pendant"; "necklace"];
  PRICE_CAPTURE_DISQUALIFY_REGEX :=
    [capture_regex_1; capture_regex_2; capture_regex_3; capture_regex_4;
     capture_regex_5; capture_regex_6]
|}.
End ConfigValues.

(* ===================================================================== *)
(** * model_types.py                                                      *)
(* ===================================================================== *)

(** [Listing], with the attribute [end_time_ts] that the search parser sets
    with [setattr] only when the time left could be parsed ([None]: the
    attribute does not exist). *)
Record Listing : Type := {
  title : string;
  link : string;
  item_price : float;
  shipping : float;
  total_price : float;
  bids : Z;
  time_left : string;
  item_id : option string;
  quantity : Z;
  oz_per_coin : float;
  end_time_ts : option float
}.

(* ===================================================================== *)
(** * silver_math.py                                                      *)
(* ===================================================================== *)

Module silver_math.
Import Re.

Definition ASW_HALF_DOLLAR : float := 0.36169.
Definition ASW_SILVER_DOLLAR : float := 0.77344.
Definition ASW_SILVER_EAGLE : float := 0.99.

(* (\d{1,3})(?!\.) *)
Definition qty_digits : regex :=
  Seq (Group 1 (Range 1 3 digit)) (NegLook (Lit ".")).
(* [xX] *)
Definition an_x : regex := Cls [CChar "x"; CChar "X"].

(** The nine patterns of [extract_quantity_from_title], in order. *)
Definition quantity_patterns : list pattern :=
  map (Pattern false)
    [ (* r"\blot\s+of\s+(\d{1,3})(?!\.)\b" *)
      Seqs [WordB; Str "lot"; Plus space; Str "of"; Plus space; qty_digits; WordB];
      (* r"\broll\s+of\s+(\d{1,3})(?!\.)\b" *)
      Seqs [WordB; Str "roll"; Plus space; Str "of"; Plus space; qty_digits; WordB];
      (* r"\b(\d{1,3})(?!\.)\s+coins?\b" *)
      Seqs [WordB; qty_digits; Plus space; Str "coin"; Opt (Lit "s"); WordB];
      (* r"\b(\d{1,3})(?!\.)\s+pieces?\b" *)
      Seqs [WordB; qty_digits; Plus space; Str "piece"; Opt (Lit "s"); WordB];
      (* r"\((\d{1,3})(?!\.)\)" *)
      Seqs [Lit "("; qty_digits; Lit ")"];
      (* r"\b(\d{1,3})(?!\.)\s*[xX]\b" *)
      Seqs [WordB; qty_digits; Star space; an_x; WordB];
      (* r"\b[xX]\s*(\d{1,3})(?!\.)\b" *)
      Seqs [WordB; an_x; Star space; qty_digits; WordB];
      (* r"\bqty[:\s]*(\d{1,3})(?!\.)\b" *)
      Seqs [WordB; Str "qty"; Star (Cls [CChar ":"; CSpace]); qty_digits; WordB];
      (* r"\b(\d{1,3})(?!\.)\s*pcs\b" *)
      Seqs [WordB; qty_digits; Star space; Str "pcs"; WordB] ].

(** The loop over the patterns: the first pattern whose match gives a
    quantity in 2..600 decides. *)
Fixpoint first_quantity (pats : list pattern) (t : string) : Z :=
  match pats with
  | [] => 1
  | pat :: pats' =>
      match search_group1 pat t with
      | Some g =>
          let qty := PyStr.int_of_digits g 0 in
          if (1 <? qty) && (qty <=? 600) then qty else first_quantity pats' t
      | None => first_quantity pats' t
      end
  end.

Definition extract_quantity_from_title (title : string) : Z :=
  if negb (PyStr.nonempty title) then 1
  else first_quantity quantity_patterns (PyStr.lower title).

(** [has_multi_coin_semantics]: every word of the list is stripped before
    it is looked up. *)
Definition has_multi_coin_semantics (title : string) : bool :=
  let t := PyStr.lower title in
  let semantic :=
    [" lot"; "lots"; " group"; "collection"; " estate"; " hoard";
     " mixed"; " bundle"; " set"; " roll"; " bag"; " coins"] in
  existsb (fun s => PyStr.contains (PyStr.strip s) t) semantic.

Definition detect_oz_per_coin_from_title (title : string) : float :=
  let t := PyStr.lower title in
  let half_tokens := ["half dollar"; "half-dollar"; "50c"; "50¢"; " 50 c"; " 50c"] in
  if existsb (fun tok => PyStr.contains tok t) half_tokens then ASW_HALF_DOLLAR
  else if PyStr.contains "silver eagle" t || PyStr.contains "american eagle" t
  then ASW_SILVER_EAGLE
  else
    let dollar_tokens := ["$1"; "dollar"; "morgan"; "peace"] in
    if existsb (fun tok => PyStr.contains tok t) dollar_tokens then ASW_SILVER_DOLLAR
    else if PyStr.contains "seated" t then ASW_HALF_DOLLAR
    else ASW_HALF_DOLLAR.

Definition compute_melt_value (total_oz spot_price : float) : float :=
  (total_oz * spot_price)%float.

Definition compute_payout (melt_value payout_pct : float) : float :=
  (melt_value * (payout_pct / 100.0))%float.

Definition compute_profit (payout cost : float) : float :=
  (payout - cost)%float.

Definition compute_margin_pct (profit cost : float) : float :=
  if (cost <=? 0)%float then 0.0%float
  else ((profit / cost) * 100.0)%float.

Definition compute_recommended_max_total (melt_payout min_margin_pct : float) : float :=
  let m := PyFloat.max0 (min_margin_pct / 100.0)%float in
  if (m <=? 0)%float then PyFloat.py_round melt_payout 2
  else PyFloat.py_round (melt_payout / (1.0 + m))%float 2.

Definition compute_recommended_max_item_only (rec_max_total shipping : float) : float :=
  PyFloat.py_round (PyFloat.max0 (rec_max_total - shipping)%float) 2.

(** [enrich_listing_silver_fields] mutates the listing; here it returns
    the updated one. *)
Definition enrich_listing_silver_fields (l : Listing) : Listing :=
  let q := if (quantity l =? 0) || (quantity l <? 1)
           then extract_quantity_from_title (title l) else quantity l in
  let oz := if negb (PyFloat.truthy (oz_per_coin l)) || (oz_per_coin l <=? 0)%float
            then detect_oz_per_coin_from_title (title l) else oz_per_coin l in
  {| title := title l; link := link l; item_price := item_price l;
     shipping := shipping l; total_price := total_price l; bids := bids l;
     time_left := time_left l; item_id := item_id l;
     quantity := q; oz_per_coin := oz; end_time_ts := end_time_ts l |}.

(** The dict returned by [calc_silver]. *)
Record SilverCalc : Type := {
  sc_quantity : Z;
  sc_oz_per_coin : float;
  sc_total_oz : float;
  melt_value : float;
  melt_payout : float;
  effective_cost : float;
  profit : float;
  margin_pct : float;
  rec_max_total : float;
  rec_max_item : float;
  profit_at_rec_max : float;
  margin_at_rec_max : float
}.

(** [calc_silver(listing, spot_price=..., payout_pct=..., bid_offset=...)];
    a keyword left out ([None]) is read from the configuration. *)
Definition calc_silver (cfg : Config) (listing : Listing)
    (spot_price payout_pct bid_offset : option float) : SilverCalc :=
  let listing := enrich_listing_silver_fields listing in
  let spot := default (SPOT_PRICE cfg) spot_price in
  let payout := default (PAWN_PAYOUT_PCT cfg) payout_pct in
  let offset := default (BID_OFFSET cfg) bid_offset in
  let qty := if quantity listing =? 0 then 1 else quantity listing in
  let oz_per := oz_per_coin listing in
  let total_oz := (PyFloat.of_int qty * oz_per)%float in
  let melt_value := compute_melt_value total_oz spot in
  let melt_payout := compute_payout melt_value payout in
  let cost := (total_price listing + offset)%float in
  let profit := compute_profit melt_payout cost in
  let margin_pct := compute_margin_pct profit cost in
  let rec_max_total := compute_recommended_max_total melt_payout (MIN_MARGIN_PCT cfg) in
  let rec_max_item := compute_recommended_max_item_only rec_max_total (shipping listing) in
  let profit_at_rec := (melt_payout - rec_max_total)%float in
  let margin_at_rec :=
    compute_margin_pct profit_at_rec
      (if (0 <? rec_max_total)%float then rec_max_total else 0.0%float) in
  {| sc_quantity := qty; sc_oz_per_coin := oz_per; sc_total_oz := total_oz;
     melt_value := melt_value; melt_payout := melt_payout; effective_cost := cost;
     profit := profit; margin_pct := margin_pct;
     rec_max_total := rec_max_total; rec_max_item := rec_max_item;
     profit_at_rec_max := profit_at_rec; margin_at_rec_max := margin_at_rec |}.

(** [compute_silver_metrics(listing)]: the legacy name; the further
    arguments are dropped. *)
Definition compute_silver_metrics (cfg : Config) (listing : Listing) : SilverCalc :=
  calc_silver cfg listing None None None.

End silver_math.

(* ===================================================================== *)
(** * numismatic_rules.py                                                 *)
(* ===================================================================== *)

Module numismatic_rules.
Import Re.

Record NumismaticOverride : Type := {
  coin_type : string;
  year : Z;
  mint : string;
  display_name : string
}.

(* r"\b(17\d{2}|18\d{2}|19\d{2}|20\d{2})\b" *)
Definition YEAR_RE : pattern :=
  Pattern false
    (Seqs [WordB;
           Group 1 (Alts [Seq (Str "17") (Times 2 digit); Seq (Str "18") (Times 2 digit);
                          Seq (Str "19") (Times 2 digit); Seq (Str "20") (Times 2 digit)]);
           WordB]).

(* r"(?i)(?:^|[\s\-])\s*(cc|[dso])\b" *)
Definition MINT_RE : pattern :=
  Pattern true
    (Seqs [Alt Bol (Cls [CSpace; CChar "-"]); Star space;
           Group 1 (Alt (Str "cc") (Cls [CChar "d"; CChar "s"; CChar "o"]));
           WordB]).

Definition word (s : string) : regex := Seqs [WordB; Str s; WordB].  (* \bs\b *)
Definition gap : regex := Star Dot.                                   (* .* *)

(** [_COIN_PATTERNS]: every pattern is compiled with [(?i)]. *)
Definition COIN_PATTERNS : list (pattern * string) :=
  [ (* r"(?i)\bmorgan\b" *)
    (Pattern true (word "morgan"), "Morgan Dollar");
    (* r"(?i)\bpeace\b" *)
    (Pattern true (word "peace"), "Peace Dollar");
    (* r"(?i)\bbarber\b.*\bhalf\b|\bbarber\s*half\b" *)
    (Pattern true
       (Alt (Seqs [word "barber"; gap; word "half"])
            (Seqs [WordB; Str "barber"; Star space; Str "half"; WordB])),
     "Barber Half");
    (* r"(?i)\bseated\b.*\bliberty\b.*\bhalf\b" *)
    (Pattern true (Seqs [word "seated"; gap; word "liberty"; gap; word "half"]),
     "Seated Liberty Half");
    (* r"(?i)\bseated\b.*\bliberty\b.*\bdollar\b" *)
    (Pattern true (Seqs [word "seated"; gap; word "liberty"; gap; word "dollar"]),
     "Seated Liberty Dollar");
    (* r"(?i)\bwalking\b.*\bliberty\b.*\bhalf\b|\bwalker\b.*\bhalf\b" *)
    (Pattern true
       (Alt (Seqs [word "walking"; gap; word "liberty"; gap; word "half"])
            (Seqs [word "walker"; gap; word "half"])),
     "Walking Liberty Half") ].

Definition DEFAULT_MINT : string := "P".

Definition norm_mint (m : string) : string :=
  let m := PyStr.upper (PyStr.strip m) in
  if negb (PyStr.nonempty m) then DEFAULT_MINT
  else if String.eqb m "PHILADELPHIA" then "P"
  else if existsb (String.eqb m) ["O"; "D"; "S"; "P"; "CC"] then m
  else
    let m := PyStr.remove_blanks m in
    if String.eqb m "CC" then "CC" else m.

(** The first pattern of [_COIN_PATTERNS] found in the title. *)
Fixpoint first_coin_type (pats : list (pattern * string)) (t : string) : option string :=
  match pats with
  | [] => None
  | (pat, ctype) :: pats' =>
      if found pat t then Some ctype else first_coin_type pats' t
  end.

(** The production window checked for each coin type. *)
Definition in_window (coin_type : string) (year : Z) : bool :=
  if String.eqb coin_type "Morgan Dollar" && negb ((1878 <=? year) && (year <=? 1921))
  then false
  else if String.eqb coin_type "Peace Dollar" && negb ((1921 <=? year) && (year <=? 1935))
  then false
  else if String.eqb coin_type "Barber Half" && negb ((1892 <=? year) && (year <=? 1915))
  then false
  else if String.eqb coin_type "Seated Liberty Half"
          && negb ((1839 <=? year) && (year <=? 1891))
  then false
  else if String.eqb coin_type "Seated Liberty Dollar"
          && negb ((1840 <=? year) && (year <=? 1873))
  then false
  else if String.eqb coin_type "Walking Liberty Half"
          && negb ((1916 <=? year) && (year <=? 1947))
  then false
  else true.

Definition detect_coin_identity (title : string) : option (string * Z * string) :=
  let t := PyStr.strip title in
  if negb (PyStr.nonempty t) then None
  else
    match first_coin_type COIN_PATTERNS t with
    | None => None
    | Some coin_type =>
        match search_group1 YEAR_RE t with
        | None => None
        | Some ym =>
            let year := PyStr.int_of_digits ym 0 in
            let mint := norm_mint (default DEFAULT_MINT (search_group1 MINT_RE t)) in
            let tl := PyStr.lower t in
            if PyStr.contains "proof" tl || PyStr.contains "replica" tl
               || PyStr.contains "copy" tl
            then None
            else if in_window coin_type year then Some (coin_type, year, mint)
            else None
        end
    end.

Definition make_benchmark_key (coin_type : string) (year : Z) (mint : string) : string :=
  coin_type +:+ "|" +:+ PyStr.str_of_int year +:+ "|" +:+ norm_mint mint.

Definition check_numismatic_override (title : string) : option NumismaticOverride :=
  match detect_coin_identity title with
  | None => None
  | Some (coin_type, year, mint) =>
      Some {| coin_type := coin_type; year := year; mint := mint;
              display_name := coin_type +:+ " " +:+ PyStr.str_of_int year +:+ "-" +:+ mint |}
  end.

End numismatic_rules.


(* ===================================================================== *)
(** * The [json] module: [json.dumps] and [json.load]                     *)
(* ===================================================================== *)

Module json.

(** A decoded JSON document.  An object keeps its members in document
    order; [dict_of] gives the [dict] Python builds from them. *)
#[warnings="-register-all"]
Inductive value : Type :=
| JNull
| JBool (b : bool)
| JInt (z : Z)
| JFloat (f : float)
| JString (s : string)
| JArray (items : list value)
| JObject (members : list (string * value)).

(** ** [float.__repr__]: the shortest decimal that reads back *)

(** The float nearest to a decimal: [float("<digits>e<q>")]. *)
Definition float_of_decimal (neg : bool) (c q : Z) : float :=
  if 0 <=? q then PyFloat.nearest_float_of_ratio neg (c * 10 ^ q) 1
  else PyFloat.nearest_float_of_ratio neg c (10 ^ (- q)).

(** The decimal exponent [k] of the positive rational [num / den]:
    [10^k <= num/den < 10^(k+1)]. *)
Definition pow10_le (k : Z) (num den : Z) : bool :=
  if 0 <=? k then den * 10 ^ k <=? num else den <=? num * 10 ^ (- k).

Fixpoint adjust_up (fuel : nat) (k : Z) (num den : Z) : Z :=
  match fuel with
  | O => k
  | S fuel' => if pow10_le (k + 1) num den then adjust_up fuel' (k + 1) num den else k
  end.

Definition decimal_exponent (num den : Z) : Z :=
  let k0 := ((Z.log2 num - Z.log2 den - 1) * 30103) / 100000 - 1 in
  adjust_up 8 k0 num den.

(** Does the decimal [c * 10^q] read back as the float [x] (positive)? *)
Definition reads_back (x : float) (c q : Z) : bool :=
  PrimFloat.Leibniz.eqb (float_of_decimal false c q) x.

(** The candidate with [n] digits, if one reads back: the closer of the two
    neighbours of the exact value, among those that read back. *)
Definition candidate (x : float) (num den k : Z) (n : Z) : option (Z * Z) :=
  let q := k - n + 1 in
  (* v / 10^q = a / b *)
  let a := if 0 <=? q then num else num * 10 ^ (- q) in
  let b := if 0 <=? q then den * 10 ^ q else den in
  let lo := a / b in
  let r := a mod b in
  let hi := lo + 1 in
  let lo_ok := reads_back x lo q in
  let hi_ok := reads_back x hi q in
  if r =? 0 then (if lo_ok then Some (lo, q) else None)
  else
    match lo_ok, hi_ok with
    | true, true =>
        match 2 * r ?= b with
        | Lt => Some (lo, q)
        | Gt => Some (hi, q)
        | Eq => if Z.even lo then Some (lo, q) else Some (hi, q)
        end
    | true, false => Some (lo, q)
    | false, true => Some (hi, q)
    | false, false => None
    end.

Fixpoint shortest (fuel : nat) (x : float) (num den k : Z) (n : Z) : option (Z * Z) :=
  match fuel with
  | O => None
  | S fuel' =>
      match candidate x num den k n with
      | Some c => Some c
      | None => shortest fuel' x num den k (n + 1)
      end
  end.

Fixpoint strip_trailing_zeros (fuel : nat) (c q : Z) : Z * Z :=
  match fuel with
  | O => (c, q)
  | S fuel' => if (c mod 10 =? 0) && negb (c =? 0) then strip_trailing_zeros fuel' (c / 10) (q + 1)
               else (c, q)
  end.

Fixpoint zeros (n : nat) : string :=
  match n with O => "" | S n' => String "0" (zeros n') end.

Definition two_digits (z : Z) : string :=
  if z <? 10 then "0" +:+ pretty z else pretty z.

(** The text of the digits [digits] with the decimal point after [decpt]
    digits, in the layout of [repr]. *)
Definition layout (digits : string) (decpt : Z) : string :=
  let n := Z.of_nat (String.length digits) in
  if (decpt <=? -4) || (16 <? decpt) then
    let e := decpt - 1 in
    let mant := match digits with
                | String d EmptyString => String d EmptyString
                | String d ds => String d ("." +:+ ds)
                | EmptyString => EmptyString
                end in
    mant +:+ "e" +:+ (if e <? 0 then "-" +:+ two_digits (- e) else "+" +:+ two_digits e)
  else if decpt <=? 0 then "0." +:+ zeros (Z.to_nat (- decpt)) +:+ digits
  else if n <=? decpt then digits +:+ zeros (Z.to_nat (decpt - n)) +:+ ".0"
  else String.substring 0 (Z.to_nat decpt) digits +:+ "."
       +:+ String.substring (Z.to_nat decpt) (Z.to_nat (n - decpt)) digits.

(** [float.__repr__], with the spellings [json.dumps] gives to the values
    that are not numbers. *)
Definition float_repr (x : float) : string :=
  match Prim2SF x with
  | S754_nan => "NaN"
  | S754_infinity s => if s then "-Infinity" else "Infinity"
  | S754_zero s => if s then "-0.0" else "0.0"
  | S754_finite s m e =>
      let num := if 0 <=? e then Zpos m * 2 ^ e else Zpos m in
      let den := if 0 <=? e then 1 else 2 ^ (- e) in
      let k := decimal_exponent num den in
      let ax := PrimFloat.abs x in
      match shortest 17 ax num den k 1 with
      | Some (c, q) =>
          let '(c, q) := strip_trailing_zeros 17 c q in
          let digits := pretty c in
          let decpt := Z.of_nat (String.length digits) + q in
          (if s then "-" else "") +:+ layout digits decpt
      | None => "" (* no float needs more than 17 digits *)
      end
  end.


(** ** [json.dumps] of a string (with [ensure_ascii=False]) *)

Definition hex_digit (n : nat) : ascii :=
  match n with
  | 0 => "0" | 1 => "1" | 2 => "2" | 3 => "3" | 4 => "4" | 5 => "5" | 6 => "6"
  | 7 => "7" | 8 => "8" | 9 => "9" | 10 => "a" | 11 => "b" | 12 => "c"
  | 13 => "d" | 14 => "e" | _ => "f"
  end%char%nat.

(** The replacement of one character: the short escapes, [\u00xx] for the
    other control characters, the character itself otherwise. *)
Definition escape_char (c : ascii) : string :=
  let n := nat_of_ascii c in
  if Ascii.eqb c "034" then String "\" (String "034" "")
  else if Ascii.eqb c "\" then String "\" (String "\" "")
  else if Ascii.eqb c "008" then String "\" "b"
  else if Ascii.eqb c "012" then String "\" "f"
  else if Ascii.eqb c "010" then String "\" "n"
  else if Ascii.eqb c "013" then String "\" "r"
  else if Ascii.eqb c "009" then String "\" "t"
  else if (n <? 32)%nat
  then String "\" (String "u" (String "0" (String "0"
         (String (hex_digit (n / 16)) (String (hex_digit (n mod 16)) "")))))
  else String c "".

Fixpoint escape (s : string) : string :=
  match s with
  | EmptyString => EmptyString
  | String c s' => escape_char c +:+ escape s'
  end.

Definition dumps_str (s : string) : string :=
  String "034" (escape s +:+ String "034" "").

Definition dumps_int (z : Z) : string := pretty z.

Definition dumps_float (f : float) : string := float_repr f.

(** The items of a list or of a dict, each written by [f], with the default
    item separator between them. *)
Section Join.
Context {A : Type}.
Variable f : A -> string.

Fixpoint join_with (l : list A) : string :=
  match l with
  | [] => ""
  | [x] => f x
  | x :: l' => f x +:+ ", " +:+ join_with l'
  end.
End Join.

(** [json.dumps(v, ensure_ascii=False)], with the default separators. *)
Fixpoint dumps (v : value) : string :=
  match v with
  | JNull => "null"
  | JBool b => if b then "true" else "false"
  | JInt z => dumps_int z
  | JFloat f => dumps_float f
  | JString s => dumps_str s
  | JArray items => "[" +:+ join_with dumps items +:+ "]"
  | JObject members =>
      "{" +:+ join_with (fun m => dumps_str (fst m) +:+ ": " +:+ dumps (snd m)) members +:+ "}"
  end.

(** ** [json.loads] *)

Definition is_ws (c : ascii) : bool :=
  Ascii.eqb c " " || Ascii.eqb c "009" || Ascii.eqb c "010" || Ascii.eqb c "013".

Fixpoint skip_ws (s : string) : string :=
  match s with
  | String c s' => if is_ws c then skip_ws s' else s
  | EmptyString => EmptyString
  end.

(** A unit of a decoded string: a character of the text, or the 16-bit
    code unit of a [\uXXXX] escape. *)
Inductive unit16 : Type :=
| Raw (c : ascii)
| Escaped (n : N).

Definition hex_value (c : ascii) : option N :=
  let n := N_of_ascii c in
  if PyStr.is_digit c then Some (n - 48)%N
  else if (97 <=? n)%N && (n <=? 102)%N then Some (n - 87)%N
  else if (65 <=? n)%N && (n <=? 70)%N then Some (n - 55)%N
  else None.

Definition hex4 (a b c d : ascii) : option N :=
  match hex_value a, hex_value b, hex_value c, hex_value d with
  | Some x, Some y, Some z, Some w => Some (((x * 16 + y) * 16 + z) * 16 + w)%N
  | _, _, _, _ => None
  end.

(** The character a one-letter escape stands for. *)
Definition simple_escape (e : ascii) : option ascii :=
  if Ascii.eqb e "034" then Some "034"%char
  else if Ascii.eqb e "\" then Some "\"%char
  else if Ascii.eqb e "/" then Some "/"%char
  else if Ascii.eqb e "b" then Some "008"%char
  else if Ascii.eqb e "f" then Some "012"%char
  else if Ascii.eqb e "n" then Some "010"%char
  else if Ascii.eqb e "r" then Some "013"%char
  else if Ascii.eqb e "t" then Some "009"%char
  else None.

Definition cons_unit (u : unit16) (r : option (list unit16 * string))
    : option (list unit16 * string) :=
  match r with
  | Some (us, rest) => Some (u :: us, rest)
  | None => None
  end.

(** The body of a string literal, after its opening quote, up to and with
    the closing quote.  A raw control character is an error (strict mode). *)
Fixpoint scan_units (s : string) : option (list unit16 * string) :=
  match s with
  | EmptyString => None
  | String c s1 =>
      if Ascii.eqb c "034" then Some ([], s1)
      else if Ascii.eqb c "\" then
        match s1 with
        | EmptyString => None
        | String e s2 =>
            match simple_escape e with
            | Some x => cons_unit (Raw x) (scan_units s2)
            | None =>
                if Ascii.eqb e "u" then
                  match s2 with
                  | String h1 (String h2 (String h3 (String h4 s3))) =>
                      match hex4 h1 h2 h3 h4 with
                      | Some n => cons_unit (Escaped n) (scan_units s3)
                      | None => None
                      end
                  | _ => None
                  end
                else None
            end
        end
      else if (nat_of_ascii c <? 32)%nat then None
      else cons_unit (Raw c) (scan_units s1)
  end.

Definition byte (n : N) : ascii := ascii_of_N n.

(** UTF-8 of a code point (a lone surrogate gets the three-byte form). *)
Definition utf8 (cp : N) : string :=
  (if cp <? 128 then String (byte cp) ""
   else if cp <? 2048
   then String (byte (192 + cp / 64)) (String (byte (128 + cp mod 64)) "")
   else if cp <? 65536
   then String (byte (224 + cp / 4096))
          (String (byte (128 + (cp / 64) mod 64)) (String (byte (128 + cp mod 64)) ""))
   else String (byte (240 + cp / 262144))
          (String (byte (128 + (cp / 4096) mod 64))
             (String (byte (128 + (cp / 64) mod 64))
                (String (byte (128 + cp mod 64)) ""))))%N.

Definition is_high_surrogate (n : N) : bool := ((55296 <=? n) && (n <=? 56319))%N.
Definition is_low_surrogate (n : N) : bool := ((56320 <=? n) && (n <=? 57343))%N.

(** The text of the units: an escaped high surrogate followed at once by an
    escaped low surrogate is one code point. *)
Fixpoint decode_units (us : list unit16) : string :=
  match us with
  | [] => EmptyString
  | Raw c :: us' => String c (decode_units us')
  | Escaped n :: us' =>
      match us' with
      | Escaped n2 :: us'' =>
          if is_high_surrogate n && is_low_surrogate n2
          then utf8 (65536 + (n - 55296) * 1024 + (n2 - 56320))%N +:+ decode_units us''
          else utf8 n +:+ decode_units us'
      | _ => utf8 n +:+ decode_units us'
      end
  end.

Definition scan_string (s : string) : option (string * string) :=
  match scan_units s with
  | Some (us, rest) => Some (decode_units us, rest)
  | None => None
  end.

(** A character that can stand in a number or in one of the words [NaN],
    [Infinity]. *)
Definition numberish (c : ascii) : bool :=
  PyStr.is_digit c
  || existsb (Ascii.eqb c)
       ["+"; "-"; "."; "e"; "E"; "N"; "a"; "I"; "n"; "f"; "i"; "t"; "y"]%char.

(** The longest run of such characters and what follows it. *)
Fixpoint munch (s : string) : string * string :=
  match s with
  | String c s' =>
      if numberish c then let '(t, r) := munch s' in (String c t, r) else (EmptyString, s)
  | EmptyString => (EmptyString, EmptyString)
  end.

Fixpoint split_digits (s : string) : string * string :=
  match s with
  | String c s' =>
      if PyStr.is_digit c then let '(d, r) := split_digits s' in (String c d, r)
      else (EmptyString, s)
  | EmptyString => (EmptyString, EmptyString)
  end.

(** [[eE][-+]?\d+] at the end of a token: the exponent; [Some 0] when the
    token has ended already. *)
Definition exponent_of (s : string) : option Z :=
  match s with
  | EmptyString => Some 0
  | String e s1 =>
      if Ascii.eqb e "e" || Ascii.eqb e "E" then
        let '(neg, s2) := match s1 with
                          | String "-" s' => (true, s')
                          | String "+" s' => (false, s')
                          | _ => (false, s1)
                          end in
        match split_digits s2 with
        | (EmptyString, _) => None
        | (d, EmptyString) =>
            Some (if neg then - PyStr.int_of_digits d 0 else PyStr.int_of_digits d 0)
        | (_, String _ _) => None
        end
      else None
  end.

(** The value of the digits of a number token, after its sign: 0 or digits
    without a leading zero, then an optional fraction (a dot and digits) and
    an optional exponent; an [int] without fraction and exponent and a
    [float] otherwise. *)
Definition decimal_value (neg : bool) (t1 : string) : option value :=
  match split_digits t1 with
  | (EmptyString, _) => None
  | (String d ds as ip, t2) =>
      if Ascii.eqb d "0" && PyStr.nonempty ds then None
      else
        match t2 with
        | EmptyString =>
            let z := PyStr.int_of_digits ip 0 in
            Some (JInt (if neg then - z else z))
        | String "." t3 =>
            match split_digits t3 with
            | (EmptyString, _) => None
            | (fp, t4) =>
                match exponent_of t4 with
                | Some e =>
                    Some (JFloat (float_of_decimal neg
                                    (PyStr.int_of_digits (ip +:+ fp) 0)
                                    (e - Z.of_nat (String.length fp))))
                | None => None
                end
            end
        | String _ _ =>
            match exponent_of t2 with
            | Some e => Some (JFloat (float_of_decimal neg (PyStr.int_of_digits ip 0) e))
            | None => None
            end
        end
  end.

(** The value of a number token (the decoder's NUMBER_RE, with an optional
    minus in front), or of one of the three words. *)
Definition number_of_token (t : string) : option value :=
  if String.eqb t "NaN" then Some (JFloat PrimFloat.nan)
  else if String.eqb t "Infinity" then Some (JFloat PrimFloat.infinity)
  else if String.eqb t "-Infinity" then Some (JFloat PrimFloat.neg_infinity)
  else
    match t with
    | String "-" t' => decimal_value true t'
    | _ => decimal_value false t
    end.

Definition scan_number (s : string) : option (value * string) :=
  let '(t, r) := munch s in
  match number_of_token t with
  | Some v => Some (v, r)
  | None => None
  end.

(** The elements of an array from the first one on, up to and with the
    closing bracket; [pv] reads one value. *)
Fixpoint parse_elements (pv : string -> option (value * string)) (fuel : nat) (s : string)
    : option (list value * string) :=
  match fuel with
  | O => None
  | S fuel' =>
      match pv s with
      | None => None
      | Some (v, r) =>
          match skip_ws r with
          | String "]" r' => Some ([v], r')
          | String "," r' =>
              match parse_elements pv fuel' (skip_ws r') with
              | Some (vs, r'') => Some (v :: vs, r'')
              | None => None
              end
          | _ => None
          end
      end
  end.

(** The members of an object from the first key on, up to and with the
    closing brace. *)
Fixpoint parse_members (pv : string -> option (value * string)) (fuel : nat) (s : string)
    : option (list (string * value) * string) :=
  match fuel with
  | O => None
  | S fuel' =>
      match s with
      | String "034" s1 =>
          match scan_string s1 with
          | None => None
          | Some (k, r) =>
              match skip_ws r with
              | String ":" r1 =>
                  match pv (skip_ws r1) with
                  | None => None
                  | Some (v, r2) =>
                      match skip_ws r2 with
                      | String "}" r3 => Some ([(k, v)], r3)
                      | String "," r3 =>
                          match parse_members pv fuel' (skip_ws r3) with
                          | Some (ms, r4) => Some ((k, v) :: ms, r4)
                          | None => None
                          end
                      | _ => None
                      end
                  end
              | _ => None
              end
          end
      | _ => None
      end
  end.

(** One value at the start of [s]; [depth] bounds the nesting. *)
Fixpoint parse_value (depth : nat) (s : string) : option (value * string) :=
  match depth with
  | O => None
  | S depth' =>
      match s with
      | String "{" s1 =>
          match skip_ws s1 with
          | String "}" r => Some (JObject [], r)
          | s2 =>
              match parse_members (parse_value depth') (String.length s2) s2 with
              | Some (ms, r) => Some (JObject ms, r)
              | None => None
              end
          end
      | String "[" s1 =>
          match skip_ws s1 with
          | String "]" r => Some (JArray [], r)
          | s2 =>
              match parse_elements (parse_value depth') (String.length s2) s2 with
              | Some (vs, r) => Some (JArray vs, r)
              | None => None
              end
          end
      | String "034" s1 =>
          match scan_string s1 with
          | Some (str, r) => Some (JString str, r)
          | None => None
          end
      | String "n" (String "u" (String "l" (String "l" r))) => Some (JNull, r)
      | String "t" (String "r" (String "u" (String "e" r))) => Some (JBool true, r)
      | String "f" (String "a" (String "l" (String "s" (String "e" r)))) =>
          Some (JBool false, r)
      | _ => scan_number s
      end
  end.

(** [json.loads(text)]: one value, with blanks around it and nothing else;
    [None] when the decoder raises. *)
Definition loads (text : string) : option value :=
  match parse_value (String.length text) (skip_ws text) with
  | Some (v, r) => match skip_ws r with EmptyString => Some v | _ => None end
  | None => None
  end.

(** The [dict] of an object: the last value given to a key stays. *)
Definition dict_of (members : list (string * value)) : gmap string value :=
  list_to_map (reverse members).

(** ** The conversions [float(v)] and [int(v)] of a decoded value *)

(** [s] without its digit-group underscores; each must stand between two
    digits. *)
Fixpoint drop_underscores (prev_digit : bool) (s : string) : option string :=
  match s with
  | EmptyString => Some EmptyString
  | String c s' =>
      if Ascii.eqb c "_" then
        match s' with
        | String d _ =>
            if prev_digit && PyStr.is_digit d then drop_underscores false s' else None
        | EmptyString => None
        end
      else
        match drop_underscores (PyStr.is_digit c) s' with
        | Some r => Some (String c r)
        | None => None
        end
  end.

Definition take_sign (s : string) : bool * string :=
  match s with
  | String "-" s' => (true, s')
  | String "+" s' => (false, s')
  | _ => (false, s)
  end.

(** [int(s)] for a string. *)
Definition int_of_str (s : string) : option Z :=
  let '(neg, s1) := take_sign (PyStr.strip s) in
  match drop_underscores false s1 with
  | Some (String _ _ as d) =>
      match split_digits d with
      | (_, EmptyString) =>
          Some (if neg then - PyStr.int_of_digits d 0 else PyStr.int_of_digits d 0)
      | _ => None
      end
  | _ => None
  end.

(** [float(s)] for a string. *)
Definition float_of_str (s : string) : option float :=
  let '(neg, s1) := take_sign (PyStr.strip s) in
  let w := PyStr.lower s1 in
  if String.eqb w "inf" || String.eqb w "infinity"
  then Some (if neg then PrimFloat.neg_infinity else PrimFloat.infinity)
  else if String.eqb w "nan" then Some PrimFloat.nan
  else
    match drop_underscores false s1 with
    | None => None
    | Some s2 =>
        let '(ip, t2) := split_digits s2 in
        let '(fp, t3) := match t2 with
                         | String "." t' => split_digits t'
                         | _ => (EmptyString, t2)
                         end in
        if negb (PyStr.nonempty ip) && negb (PyStr.nonempty fp) then None
        else
          match exponent_of t3 with
          | Some e =>
              Some (float_of_decimal neg (PyStr.int_of_digits (ip +:+ fp) 0)
                      (e - Z.of_nat (String.length fp)))
          | None => None
          end
    end.

(** [float(v)]; [None] when it raises. *)
Definition py_float (v : value) : option float :=
  match v with
  | JInt z =>
      let f := PyFloat.of_int z in
      if PrimFloat.is_infinity f then None else Some f
  | JFloat f => Some f
  | JBool b => Some (if b then 1.0 else 0.0)%float
  | JString s => float_of_str s
  | _ => None
  end.

(** [int(v)]; [None] when it raises.  A float is cut towards zero. *)
Definition py_int (v : value) : option Z :=
  match v with
  | JInt z => Some z
  | JFloat f =>
      match Prim2SF f with
      | S754_zero _ => Some 0
      | S754_finite s m e =>
          let a := if 0 <=? e then Zpos m * 2 ^ e else Zpos m / 2 ^ (- e) in
          Some (if s then - a else a)
      | _ => None
      end
  | JBool b => Some (if b then 1 else 0)
  | JString s => int_of_str s
  | _ => None
  end.

End json.
(* ===================================================================== *)
(** * price_store.py                                                      *)
(* ===================================================================== *)

Module price_store.

(** One value of the store, the list
    [[ema_price, samples, last_total_price, last_updated, observers_total]]
    as [load_store] normalises it (floats at 0 and 2, ints at 1, 3, 4). *)
Record Entry : Type := {
  ema_price : float;
  samples : Z;
  last_total_price : float;
  last_updated : Z;
  observers_total : Z
}.

Abbreviation Store := (gmap string Entry).

(** [update_ema_entry]; [ts] is the value of [now_ts()].  On an entry of
    the normalised shape the two [try] blocks cannot fail. *)
Definition update_ema_entry (ts : Z) (existing : option Entry)
    (new_total_price : float) (bid_count : Z) (alpha : float) : Entry :=
  match existing with
  | None =>
      {| ema_price := PyFloat.py_round new_total_price 2;
         samples := 1;
         last_total_price := PyFloat.py_round new_total_price 2;
         last_updated := ts;
         observers_total := bid_count |}
  | Some e =>
      let ema := ema_price e in
      let samples0 := samples e in
      let ema := ((alpha * new_total_price) + ((1.0 - alpha) * ema))%float in
      let samples1 := samples0 + 1 in
      let observers := observers_total e in
      let observers := observers + bid_count in
      {| ema_price := PyFloat.py_round ema 2;
         samples := samples1;
         last_total_price := PyFloat.py_round new_total_price 2;
         last_updated := ts;
         observers_total := observers |}
  end.

(** [update_price(store, key, total_price, bid_count)]: the returned pair
    is the result and the store after the call. *)
Definition update_price (cfg : Config) (ts : Z) (store : Store) (key : string)
    (total_price : option float) (bid_count : Z) : bool * Store :=
  if negb (PyStr.nonempty key) then (false, store)
  else if PRICE_CAPTURE_ONLY_IF_BIDS cfg && (bid_count <? 1) then (false, store)
  else
    match total_price with
    | None => (false, store)
    | Some total_price =>
        if (total_price <=? 0)%float then (false, store)
        else
          let bump := PyFloat.or_default (PRICE_CAPTURE_BUMP_PCT cfg) 0.0 in
          let bumped_total := (total_price * (1.0 + bump))%float in
          let existing := store !! key in
          (true, <[key := update_ema_entry ts existing bumped_total bid_count (EMA_ALPHA cfg)]> store)
    end.

Definition lookup_ema (store : Store) (key : string) : option float :=
  match store !! key with
  | None => None
  | Some entry => Some (ema_price entry)
  end.

Definition lookup_observers (store : Store) (key : string) : option Z :=
  match store !! key with
  | None => None
  | Some entry => Some (observers_total entry)
  end.

(** [capture_updates(store, updates)]: the dict [updates] is walked in
    insertion order; the result is the count and the store after it. *)
Fixpoint capture_updates (cfg : Config) (ts : Z) (store : Store)
    (updates : list (string * (float * Z))) : Z * Store :=
  match updates with
  | [] => (0, store)
  | (k, (total_price, bid_count)) :: updates' =>
      let '(b, store1) := update_price cfg ts store k (Some total_price) bid_count in
      let '(n, store2) := capture_updates cfg ts store1 updates' in
      ((if b then 1 else 0) + n, store2)
  end.

(** The list stored for a key, as [json.dumps] sees it. *)
Definition entry_cells (e : Entry) : list json.value :=
  [json.JFloat (ema_price e); json.JInt (samples e); json.JFloat (last_total_price e);
   json.JInt (last_updated e); json.JInt (observers_total e)].

(** A store as [save_store] takes it, [Dict[str, list]]: any list that
    [json.dumps] can write; and the one of a normalised store. *)
Abbreviation Lists := (gmap string (list json.value)).

Definition as_lists (store : Store) : Lists := entry_cells <$> store.

(** [sorted(store.keys())]: the order of [str], by code points. *)
Definition sorted_keys {V : Type} (store : gmap string V) : list string :=
  PyList.sort_by (fun k : string => k) String.ltb (map fst (map_to_list store)).

(** The loop of [save_store] from index [i] on; [n] is [len(keys)]. *)
Fixpoint write_lines (store : Lists) (n i : nat) (keys : list string) : string :=
  match keys with
  | [] => ""
  | k :: keys' =>
      let key_json := json.dumps_str k in
      let val_json :=
        match store !! k with
        | Some v => json.dumps (json.JArray v)
        | None => ""   (* never: [k] is a key of the store *)
        end in
      let line := "  " +:+ key_json +:+ ": " +:+ val_json in
      let line := if (i <? n - 1)%nat then line +:+ "," else line in
      line +:+ String "010" "" +:+ write_lines store n (S i) keys'
  end.

(** [save_store(store)]: the text written to the price file. *)
Definition save_store (store : Lists) : string :=
  let keys := sorted_keys store in
  "{" +:+ String "010" "" +:+ write_lines store (length keys) 0 keys
      +:+ "}" +:+ String "010" "".

(** [v.get(name, default)] on the members of a legacy object. *)
Definition get_default (members : list (string * json.value)) (name : string)
    (default : json.value) : json.value :=
  match json.dict_of members !! name with
  | Some v => v
  | None => default
  end.

(** The entry [load_store] makes of one value of the file, or [None] when
    the value is skipped. *)
Definition normalise (v : json.value) : option Entry :=
  match v with
  | json.JArray (v0 :: v1 :: v2 :: v3 :: v4 :: _) =>
      e0 ← json.py_float v0; e1 ← json.py_int v1; e2 ← json.py_float v2;
      e3 ← json.py_int v3; e4 ← json.py_int v4;
      Some {| ema_price := e0; samples := e1; last_total_price := e2;
              last_updated := e3; observers_total := e4 |}
  | json.JObject m =>
      (* the legacy dict format *)
      e0 ← json.py_float (get_default m "ema_price" (json.JFloat 0.0));
      e1 ← json.py_int (get_default m "samples" (json.JInt 0));
      e2 ← json.py_float (get_default m "last_total_price"
                            (get_default m "last_price" (json.JFloat 0.0)));
      e3 ← json.py_int (get_default m "last_updated" (json.JInt 0));
      e4 ← json.py_int (get_default m "observers_total"
                          (get_default m "last_bid_count" (json.JInt 0)));
      Some {| ema_price := e0; samples := e1; last_total_price := e2;
              last_updated := e3; observers_total := e4 |}
  | _ => None
  end.

(** What a call of [load_store] does: it returns a store, or an exception
    leaves it. *)
Inductive LoadResult : Type :=
| Loaded (store : Store)
| Raised.

(** [load_store(path)]; [file] is the content of the file at [path], [None]
    when there is no such file.  A text that is not JSON gives the empty
    store; a JSON document that is not an object has no [items()]. *)
Definition load_store (file : option string) : LoadResult :=
  match file with
  | None => Loaded ∅
  | Some text =>
      match json.loads text with
      | None => Loaded ∅
      | Some (json.JObject members) => Loaded (omap normalise (json.dict_of members))
      | Some _ => Raised
      end
  end.

(** [get_ema_value_and_observers(key)]: [store] is what [load_store()]
    reads from the price file at the time of the call. *)
Definition get_ema_value_and_observers (store : Store) (key : string)
    : option float * option Z :=
  (lookup_ema store key, lookup_observers store key).

(** [get_ema_value(key, store)]; a [store] left out is read with
    [load_store()] by the caller of this definition. *)
Definition get_ema_value (store : Store) (key : string) : option float :=
  lookup_ema store key.

(** [get_offline_ema_value(coin_type, year, mint, store)], with an [int]
    year. *)
Definition get_offline_ema_value (store : Store) (coin_type : string) (year : Z)
    (mint : string) : option float :=
  let key := coin_type +:+ "|" +:+ PyStr.str_of_int year +:+ "|" +:+ mint in
  get_ema_value store key.

End price_store.

(* ===================================================================== *)
(** * prospect_score.py                                                   *)
(* ===================================================================== *)

Module prospect_score.
Import Re.

Record ProspectScore : Type := { score : Z; reasons : list string }.

Definition has_any (title : string) (needles : list string) : bool :=
  let t := PyStr.lower title in
  existsb (fun n =>
             let n2 := PyStr.lower (PyStr.strip n) in
             PyStr.nonempty n2 && PyStr.contains n2 t) needles.

(** Every pattern is searched with [flags=re.I]. *)
Definition matches_any_regex (title : string) (patterns : list regex) : bool :=
  existsb (fun pat => found (Pattern true pat) title) patterns.

(* r"(\d{1,4})\s*m\b" *)
Definition minutes_m : pattern :=
  Pattern false (Seqs [Group 1 (Range 1 4 digit); Star space; Lit "m"; WordB]).
(* r"(\d{1,3})\s*min\b" *)
Definition minutes_min : pattern :=
  Pattern false (Seqs [Group 1 (Range 1 3 digit); Star space; Str "min"; WordB]).

(** [_minutes_left]; [now] is [time.time()].  [int(sec // 60)] is the floor
    of the exact quotient (what CPython returns below 2^53 minutes); on an
    infinite [sec] the conversion raises and the text is parsed instead. *)
Definition minutes_left (now : float) (listing : Listing) : option Z :=
  let from_text :=
    let s := PyStr.lower (time_left listing) in
    match search_group1 minutes_m s with
    | Some g => Some (PyStr.int_of_digits g 0)
    | None =>
        match search_group1 minutes_min s with
        | Some g => Some (PyStr.int_of_digits g 0)
        | None => None
        end
    end in
  match end_time_ts listing with
  | Some end_ts =>
      let sec := (end_ts - now)%float in
      if (0 <=? sec)%float then
        match PyFloat.floordiv60_int sec with
        | Some mins => Some mins
        | None => from_text
        end
      else from_text
  | None => from_text
  end.

(** The running pair of [score] and [reasons]. *)
Definition bump (delta : Z) (tag : string) (acc : Z * list string) : Z * list string :=
  (fst acc + delta, (snd acc ++ [tag])%list).

(** The additive part of [score_prospect], after the hard gates: the score
    before the clamp and the reasons. *)
Definition additive_signals (cfg : Config) (now : float) (listing : Listing)
    (fmv_floor dealer_value total : float) : Z * list string :=
  let title := title listing in
  let bids := bids listing in
  let acc : Z * list string := (50, []) in
  (* dealer margin *)
  let dealer_margin_pct := (((dealer_value - total) / total) * 100.0)%float in
  let acc :=
    if (75 <=? dealer_margin_pct)%float then bump 25 "huge-dealer-margin" acc
    else if (50 <=? dealer_margin_pct)%float then bump 18 "dealer-margin>=50" acc
    else if (35 <=? dealer_margin_pct)%float then bump 10 "dealer-margin>=35" acc
    else if (20 <=? dealer_margin_pct)%float then bump 4 "dealer-margin>=20" acc
    else bump (-20) "thin-dealer-margin" acc in
  (* FMV gap *)
  let fmv_gap_pct := (((fmv_floor - total) / total) * 100.0)%float in
  let acc :=
    if (100 <=? fmv_gap_pct)%float then bump 10 "fmv-gap>=100" acc
    else if (50 <=? fmv_gap_pct)%float then bump 6 "fmv-gap>=50" acc
    else acc in
  (* bid count *)
  let acc :=
    if bids <=? 0 then bump 4 "unnoticed(0-bids)" acc
    else if bids <=? 2 then bump 7 "few-bids" acc
    else if bids <=? 10 then bump 4 "some-bids" acc
    else bump 1 "many-bids" acc in
  (* title quality *)
  let acc :=
    if has_any title (PROS_HYPE_KEYWORDS cfg) then bump (-18) "hype-language" acc
    else acc in
  let acc :=
    if has_any title (PROS_UNDERDESCRIBED_KEYWORDS cfg)
    then bump 12 "under-described" acc else acc in
  let acc :=
    if has_any title (PROS_HIGH_GRADE_KEYWORDS cfg)
    then bump (-14) "high-grade-signals" acc else acc in
  (* premium terms priced like raw *)
  let acc :=
    if has_any title (PROS_HIGH_GRADE_KEYWORDS cfg) then
      let tol_pct :=
        (PyFloat.or_default (PROS_CAT3_MISPRICE_TOL_PCT cfg) 0.0 / 100.0)%float in
      if (total <=? fmv_floor * (1.0 + PyFloat.max0 tol_pct))%float then
        let soon_ok :=
          if PROS_CAT3_REQUIRE_ENDING_SOON cfg then
            match minutes_left now listing with
            | Some mins => mins <=? PROS_CAT3_MAX_MINUTES cfg
            | None => false
            end
          else true in
        if soon_ok
        then bump (Z.max 0 (PROS_CAT3_MISPRICE_BONUS cfg))
                  "premium-terms-priced-like-raw" acc
        else acc
      else acc
    else acc in
  (* time-left urgency *)
  let tleft := PyStr.lower (time_left listing) in
  if PyStr.contains "m left" tleft || PyStr.contains "min" tleft
  then bump 3 "ending-soon" acc else acc.

Definition score_prospect (cfg : Config) (now : float) (listing : Listing)
    (fmv_floor dealer_value : option float) : ProspectScore :=
  let title := title listing in
  let total := PyFloat.or_default (total_price listing) 0.0 in
  match fmv_floor, dealer_value with
  | Some fmv_floor, Some dealer_value =>
      if (total <=? 0)%float then {| score := 0; reasons := ["missing-anchors"] |}
      else
        let hard_kw :=
          (PROS_HARD_DISQUALIFY_KEYWORDS cfg ++ PROS_DISQUALIFY_KEYWORDS cfg)%list in
        if has_any title hard_kw
        then {| score := 0; reasons := ["pros-hard-disqualify-keyword"] |}
        else if matches_any_regex title (PROS_DISQUALIFY_REGEX cfg)
        then {| score := 0; reasons := ["pros-hard-disqualify-regex"] |}
        else
          let acc := additive_signals cfg now listing fmv_floor dealer_value total in
          (* clamp *)
          {| score := Z.max 0 (Z.min 100 (fst acc)); reasons := snd acc |}
  | _, _ => {| score := 0; reasons := ["missing-anchors"] |}
  end.

End prospect_score.

(* ===================================================================== *)
(** * numismatic_defaults.py                                              *)
(* ===================================================================== *)

Module numismatic_defaults.

(** A dictionary key as Python sees it: the table below is keyed by
    4-tuples of strings, while the hit engine asks with a string. *)
Inductive PyKey : Type :=
| KStr (s : string)
| KTuple (parts : list string).

Definition PyKey_eqb (a b : PyKey) : bool :=
  match a, b with
  | KStr s, KStr t => String.eqb s t
  | KTuple p, KTuple q => bool_decide (p = q)
  | _, _ => false
  end.

Definition floor_key (coin_type year mint grade : string) : PyKey :=
  KTuple [coin_type; year; mint; grade].

(** [STATIC_FLOORS]; the value [None] is Python's [None]. *)
Definition STATIC_FLOORS : list (PyKey * option float) :=
  [ (floor_key "Morgan Dollar" "1878" "CC" "G", None);
    (floor_key "Morgan Dollar" "1881" "CC" "G", Some 443.00%float);
    (floor_key "Morgan Dollar" "1885" "CC" "G", None);
    (floor_key "Morgan Dollar" "1889" "CC" "G", None);
    (floor_key "Morgan Dollar" "1892" "CC" "G", None);
    (floor_key "Morgan Dollar" "1892" "S" "G", None);
    (floor_key "Morgan Dollar" "1893" "CC" "G", None);
    (floor_key "Morgan Dollar" "1893" "S" "G", None);
    (floor_key "Morgan Dollar" "1895" "P" "G", None);
    (floor_key "Morgan Dollar" "1901" "P" "G", None);
    (floor_key "Morgan Dollar" "1903" "O" "G", None);
    (floor_key "Peace Dollar" "1921" "P" "G", None);
    (floor_key "Peace Dollar" "1927" "S" "G", None);
    (floor_key "Peace Dollar" "1928" "P" "G", None);
    (floor_key "Peace Dollar" "1928" "S" "G", None);
    (floor_key "Peace Dollar" "1934" "S" "G", None);
    (floor_key "Peace Dollar" "1935" "S" "G", None);
    (floor_key "Seated Liberty Half" "1878" "S" "G", None);
    (floor_key "Seated Liberty Half" "1885" "P" "G", None);
    (floor_key "Seated Liberty Half" "1886" "P" "G", None);
    (floor_key "Seated Liberty Half" "1887" "P" "G", None);
    (floor_key "Seated Liberty Half" "1888" "P" "G", None);
    (floor_key "Barber Half" "1892" "O" "G", None);
    (floor_key "Barber Half" "1893" "S" "G", None);
    (floor_key "Barber Half" "1896" "O" "G", None);
    (floor_key "Barber Half" "1897" "O" "G", None);
    (floor_key "Barber Half" "1914" "P" "G", None);
    (floor_key "Barber Half" "1915" "P" "G", None);
    (floor_key "Walking Liberty Half" "1916" "S" "G", None);
    (floor_key "Walking Liberty Half" "1919" "D" "G", None);
    (floor_key "Walking Liberty Half" "1919" "S" "G", None);
    (floor_key "Walking Liberty Half" "1921" "P" "G", None);
    (floor_key "Walking Liberty Half" "1921" "D" "G", None);
    (floor_key "Walking Liberty Half" "1921" "S" "G", None);
    (floor_key "Walking Liberty Half" "1938" "D" "G", None);
    (floor_key "Walking Liberty Half" "1939" "S" "G", None) ].

Definition STATIC_NUMISMATIC_DEFAULTS := STATIC_FLOORS.

(** [table.get(key)]: the value, or [None] when the key is missing. *)
Fixpoint dict_get (table : list (PyKey * option float)) (key : PyKey) : option float :=
  match table with
  | [] => None
  | (k, v) :: table' => if PyKey_eqb k key then v else dict_get table' key
  end.

Record StaticFloor : Type := {
  sf_coin_type : string;
  sf_year : string;
  sf_mint : string;
  sf_grade : string;
  floor : float
}.

(** [get_static_floor(coin_type, year, mint, grade)] *)
Definition get_static_floor (coin_type year mint grade : string) : option StaticFloor :=
  match dict_get STATIC_FLOORS (floor_key coin_type year mint grade) with
  | None => None
  | Some v =>
      Some {| sf_coin_type := coin_type; sf_year := year; sf_mint := mint;
              sf_grade := grade; floor := v |}
  end.

End numismatic_defaults.

(* ===================================================================== *)
(** * hit_engine.py                                                       *)
(* ===================================================================== *)

Module hit_engine.
Import numismatic_rules numismatic_defaults.

(** What the evaluation reads besides the listings: the configuration, the
    price file as [load_store()] returns it, and the clock. *)
Record Env : Type := {
  cfg : Config;
  store : gmap string price_store.Entry;
  static_defaults : list (PyKey * option float);
  now : float
}.

(** The normalised [calc] dict of one listing (the CoinBook link is left
    out). *)
Record Calc : Type := {
  c_quantity : Z;
  c_oz_per_coin : float;
  c_total_oz : float;
  c_melt_value : float;
  c_melt_payout : float;
  c_profit : float;
  c_margin_pct : float;
  c_rec_max_total : float;
  c_rec_max_item : float;
  c_profit_at_rec_max : float;
  c_margin_at_rec_max : float;
  c_numismatic_override : option string;
  c_fmv_floor : option float;
  c_fmv_source : option string;
  c_dealer_value : option float;
  c_dealer_profit : option float;
  c_dealer_margin_pct : option float;
  c_dealer_rec_max_total : option float;
  c_dealer_rec_max_item : option float;
  c_dealer_profit_at_rec_max : option float;
  c_dealer_margin_at_rec_max : option float;
  c_is_prospect : bool
}.

Record Evaluated : Type := {
  listing : Listing;
  silver_calc : Calc;
  is_hit : bool;
  numismatic_override : option string;
  is_prospect : bool
}.

Definition make_key (coin_type : string) (year : Z) (mint : string) : string :=
  coin_type +:+ "|" +:+ PyStr.str_of_int year +:+ "|" +:+ mint.

(** The canonical mappings of [_coinbook_url]: denomination and slug. *)
Definition COINBOOK_MAPPING : list (string * (string * string)) :=
  [ ("Morgan Dollar", ("dollars", "morgan"));
    ("Peace Dollar", ("dollars", "peace"));
    ("Seated Liberty Dollar", ("dollars", "seated-liberty"));
    ("Barber Half", ("half-dollars", "barber"));
    ("Seated Liberty Half", ("half-dollars", "seated-liberty"));
    ("Franklin Half", ("half-dollars", "franklin"));
    ("Kennedy Half", ("half-dollars", "kennedy"));
    ("Seated Liberty Quarter", ("quarters", "seated-liberty")) ].

Fixpoint mapping_get (table : list (string * (string * string))) (key : string)
    : option (string * string) :=
  match table with
  | [] => None
  | (k, v) :: table' => if String.eqb k key then Some v else mapping_get table' key
  end.

Definition coinbook_address (denom slug : string) : string :=
  "https://www.usacoinbook.com/coins/" +:+ denom +:+ "/" +:+ slug +:+ "/".

(** The fallback of [_coinbook_url] for a label outside the mapping. *)
Definition coinbook_fallback (coin_type : string) : option string :=
  let ct_lower := PyStr.lower coin_type in
  let denom :=
    if PyStr.contains " half" ct_lower then Some "half-dollars"
    else if PyStr.contains " dollar" ct_lower then Some "dollars"
    else None in
  match denom with
  | None => None
  | Some denom =>
      let slug :=
        PyStr.replace " " "-"
          (PyStr.strip (PyStr.replace " half" "" (PyStr.replace " dollar" "" ct_lower))) in
      if negb (PyStr.nonempty slug) then None
      else Some (coinbook_address denom slug)
  end.

(** [_coinbook_url(coin_type)] *)
Definition coinbook_url (coin_type : string) : option string :=
  if negb (PyStr.nonempty coin_type) then None
  else
    match mapping_get COINBOOK_MAPPING coin_type with
    | Some (denom, slug) =>
        if negb (PyStr.nonempty denom) || negb (PyStr.nonempty slug)
        then coinbook_fallback coin_type
        else Some (coinbook_address denom slug)
    | None => coinbook_fallback coin_type
    end.

Definition resolve_fmv (env : Env) (coin_type : string) (year : Z) (mint : string)
    : option float * option string :=
  let key := make_key coin_type year mint in
  let '(ema, observers) := price_store.get_ema_value_and_observers (store env) key in
  match ema with
  | Some ema =>
      match observers with
      | Some observers => (Some ema, Some ("Offline EMA o." +:+ PyStr.str_of_int observers))
      | None => (Some ema, Some "Offline EMA")
      end
  | None =>
      match dict_get (static_defaults env) (KStr key) with
      | Some static => (Some static, Some "Static Default")
      | None => (None, None)
      end
  end.

(** The dealer-side figures computed when an override resolves with an FMV
    floor. *)
Record Dealer : Type := {
  dealer_value : float;
  dealer_profit : float;
  dealer_margin_pct : option float;
  dealer_rec_max_total : float;
  dealer_rec_max_item : float;
  dealer_profit_at_rec : float;
  dealer_margin_at_rec : option float
}.

Definition dealer_economics (c : Config) (lst : Listing) (fmv_floor : float) : Dealer :=
  let dealer_value := (fmv_floor * (NUMISMATIC_PAYOUT_PCT c / 100.0))%float in
  let dealer_profit := (dealer_value - total_price lst)%float in
  let dealer_margin_pct :=
    if (0 <? total_price lst)%float
    then Some ((dealer_profit / total_price lst) * 100.0)%float else None in
  let m := PyFloat.max0 (MIN_MARGIN_PCT c / 100.0)%float in
  let dealer_rec_max_total := PyFloat.py_round (dealer_value / (1.0 + m))%float 2 in
  let dealer_rec_max_item :=
    PyFloat.py_round
      (PyFloat.max0 (dealer_rec_max_total - PyFloat.or_default (shipping lst) 0.0)%float) 2 in
  let dealer_profit_at_rec := PyFloat.py_round (dealer_value - dealer_rec_max_total)%float 2 in
  let dealer_margin_at_rec :=
    if PyFloat.truthy dealer_rec_max_total
    then Some ((dealer_profit_at_rec / dealer_rec_max_total) * 100.0)%float else None in
  {| dealer_value := dealer_value; dealer_profit := dealer_profit;
     dealer_margin_pct := dealer_margin_pct;
     dealer_rec_max_total := dealer_rec_max_total;
     dealer_rec_max_item := dealer_rec_max_item;
     dealer_profit_at_rec := dealer_profit_at_rec;
     dealer_margin_at_rec := dealer_margin_at_rec |}.

(** The prospect decision of the loop body, from the anchors computed
    before it. *)
Definition prospect_gate (env : Env) (lst : Listing)
    (fmv_floor dealer_value dealer_margin_pct : option float) : bool :=
  match dealer_value, fmv_floor with
  | Some dv, Some fmv =>
      if (0 <? PyFloat.or_default (total_price lst) 0.0)%float then
        let total := total_price lst in
        let pros_max_total := default (Some 150.0%float) (PROS_MAX_TOTAL (cfg env)) in
        if match pros_max_total with
           | None => true
           | Some cap => (total <=? cap)%float
           end
        then
          let dm := match dealer_margin_pct with
                    | Some x => PyFloat.or_default x 0.0
                    | None => 0.0%float
                    end in
          let ps := prospect_score.score_prospect (cfg env) (now env) lst (Some fmv) (Some dv) in
          let cat3_override :=
            existsb (String.eqb "premium-terms-priced-like-raw") (prospect_score.reasons ps) in
          let base_ok := (PROS_MIN_DEALER_MARGIN_PCT (cfg env) <=? dm)%float in
          (base_ok || cat3_override) && (PROS_MIN_SCORE (cfg env) <=? prospect_score.score ps)
        else false
      else false
  | _, _ => false
  end.

(** The body of the loop of [evaluate_listings] for one listing.
    [calc_silver] fills [quantity] and [oz_per_coin] of the listing object
    in place, so the record keeps the enriched listing. *)
Definition evaluate_one (env : Env) (lst : Listing) : Evaluated :=
  let silver := silver_math.calc_silver (cfg env) lst None None None in
  let lst := silver_math.enrich_listing_silver_fields lst in
  let override := check_numismatic_override (title lst) in
  let '(fmv_floor, fmv_source) :=
    match override with
    | Some o => resolve_fmv env (coin_type o) (year o) (mint o)
    | None => (None, None)
    end in
  let dealer := option_map (dealer_economics (cfg env) lst) fmv_floor in
  let rec_max_total := silver_math.rec_max_total silver in
  let is_hit := (total_price lst <=? rec_max_total)%float in
  let is_prospect :=
    prospect_gate env lst fmv_floor (option_map dealer_value dealer)
      (dealer ≫= dealer_margin_pct) in
  let calc :=
    {| c_quantity := silver_math.sc_quantity silver;
       c_oz_per_coin := silver_math.sc_oz_per_coin silver;
       c_total_oz := silver_math.sc_total_oz silver;
       c_melt_value := silver_math.melt_value silver;
       c_melt_payout := silver_math.melt_payout silver;
       c_profit := silver_math.profit silver;
       c_margin_pct := silver_math.margin_pct silver;
       c_rec_max_total := silver_math.rec_max_total silver;
       c_rec_max_item := silver_math.rec_max_item silver;
       c_profit_at_rec_max := silver_math.profit_at_rec_max silver;
       c_margin_at_rec_max := silver_math.margin_at_rec_max silver;
       c_numismatic_override := option_map display_name override;
       c_fmv_floor := fmv_floor;
       c_fmv_source := fmv_source;
       c_dealer_value := option_map dealer_value dealer;
       c_dealer_profit := option_map dealer_profit dealer;
       c_dealer_margin_pct := dealer ≫= dealer_margin_pct;
       c_dealer_rec_max_total := option_map dealer_rec_max_total dealer;
       c_dealer_rec_max_item := option_map dealer_rec_max_item dealer;
       c_dealer_profit_at_rec_max := option_map dealer_profit_at_rec dealer;
       c_dealer_margin_at_rec_max := dealer ≫= dealer_margin_at_rec;
       c_is_prospect := is_prospect |} in
  {| listing := lst; silver_calc := calc; is_hit := is_hit;
     numismatic_override := option_map display_name override;
     is_prospect := is_prospect |}.

(** The sort key [getattr(e.listing, "end_time_ts", 10**18)]: the float the
    parser stored, or the int sentinel. *)
Inductive SortKey : Type :=
| KFloat (f : float)
| KInt (z : Z).

Definition SENTINEL : Z := 10 ^ 18.

Definition sort_key (e : Evaluated) : SortKey :=
  match end_time_ts (listing e) with
  | Some ts => KFloat ts
  | None => KInt SENTINEL
  end.

(** Python compares a float with an int by their exact values. *)
Definition compare_float_int (f : float) (z : Z) : option comparison :=
  match Prim2SF f with
  | S754_nan => None
  | S754_infinity s => Some (if s then Lt else Gt)
  | S754_zero _ => Some (0 ?= z)
  | S754_finite s m e =>
      let n := if s then Zneg m else Zpos m in
      Some (if 0 <=? e then (n * 2 ^ e ?= z) else (n ?= z * 2 ^ (- e)))
  end.

(** [a < b] on sort keys. *)
Definition key_lt (a b : SortKey) : bool :=
  match a, b with
  | KFloat x, KFloat y => (x <? y)%float
  | KInt x, KInt y => x <? y
  | KFloat x, KInt z =>
      match compare_float_int x z with Some Lt => true | _ => false end
  | KInt z, KFloat x =>
      match compare_float_int x z with Some Gt => true | _ => false end
  end.

(** [evaluated.sort(key=lambda e: getattr(e.listing, "end_time_ts", 10**18))] *)
Definition sort_by_end_time (l : list Evaluated) : list Evaluated :=
  PyList.sort_by sort_key key_lt l.

Definition evaluate_listings (env : Env) (listings : list Listing) : list Evaluated :=
  sort_by_end_time (map (evaluate_one env) listings).

Definition select_hits (evaluated : list Evaluated) : list Evaluated :=
  filter (fun e => is_hit e || is_prospect e || c_is_prospect (silver_calc e)) evaluated.

End hit_engine.

(* ===================================================================== *)
(** * state_store.py                                                      *)
(* ===================================================================== *)

Module state_store.

(** [split_new_hits(candidate_keys, seen_keys)]: the new keys and the
    merged set. *)
Definition split_new_hits (candidate_keys seen_keys : gset string)
    : gset string * gset string :=
  (filter (fun k => k ∉ seen_keys) candidate_keys, seen_keys ∪ candidate_keys).

End state_store.

(* ===================================================================== *)
(** * silver_monitor.py: the price-capture part of [run_once]             *)
(* ===================================================================== *)

Module silver_monitor.
Import Re.

(* r"(?i)\b(?:holed|hole|pierced|drilled|copy|replica|clad|plated)\b" *)
Definition HARD_DISQUALIFY_RE : pattern :=
  Pattern true
    (Seqs [WordB;
           Alts [Str "holed"; Str "hole"; Str "pierced"; Str "drilled"; Str "copy";
                 Str "replica"; Str "clad"; Str "plated"];
           WordB]).

(** The inline list of accessory words of the capture loop. *)
Definition ACCESSORY_WORDS : list string :=
  ["no coins"; "coin book"; "folder"; "album"; "money clip";
   "keychain"; "cutout"; "pendant"; "necklace"].

(** [_dedupe_key_from_listing]: a [Listing] has no attribute [url], so
    the key is the item id or else the title. *)
Definition dedupe_key_from_listing (lst : Listing) : string :=
  match item_id lst with
  | Some id => if PyStr.nonempty id then "itm:" +:+ id
               else "title:" +:+ PyStr.lower (PyStr.strip (title lst))
  | None => "title:" +:+ PyStr.lower (PyStr.strip (title lst))
  end.

(** [_capture_disqualified]: the keywords are looked up in the lowered
    title, the patterns are searched in the title as it is, without flags. *)
Definition capture_disqualified (cfg : Config) (title : string) : bool :=
  let t := PyStr.lower title in
  existsb (fun kw => PyStr.nonempty kw && PyStr.contains (PyStr.lower kw) t)
          (PRICE_CAPTURE_DISQUALIFY_KEYWORDS cfg)
  || existsb (fun pat => found (Pattern false pat) title)
             (PRICE_CAPTURE_DISQUALIFY_REGEX cfg).

(** Inside the capture window: the end time is known and lies between now
    and [PRICE_CAPTURE_MAX_MINUTES] minutes from now. *)
Definition in_capture_window (cfg : Config) (now : float) (lst : Listing) : bool :=
  match PRICE_CAPTURE_MAX_MINUTES cfg with
  | None => true
  | Some cap_minutes =>
      match end_time_ts lst with
      | None => false
      | Some end_ts =>
          let seconds_left := (end_ts - now)%float in
          negb ((seconds_left <? 0)%float || (cap_minutes * 60.0 <? seconds_left)%float)
      end
  end.

(** The gates of the capture loop up to the choice of the candidate: the
    benchmark key and the pair (price, bids) offered for it, or [None] when
    the loop [continue]s. *)
Definition capture_candidate (cfg : Config) (now : float) (lst : Listing)
    : option (string * (float * Z)) :=
  if found HARD_DISQUALIFY_RE (title lst) then None
  else
    let t := PyStr.lower (title lst) in
    if existsb (fun x => PyStr.contains x t) ACCESSORY_WORDS then None
    else if capture_disqualified cfg (title lst) then None
    else
      let qty := silver_math.extract_quantity_from_title (title lst) in
      if negb (qty =? 1) then None
      else if negb (in_capture_window cfg now lst) then None
      else if PRICE_CAPTURE_ONLY_IF_BIDS cfg && (bids lst <? 1) then None
      else
        match numismatic_rules.detect_coin_identity (title lst) with
        | None => None
        | Some (coin_type, year, mint) =>
            let key := numismatic_rules.make_benchmark_key coin_type year mint in
            (* a Listing has no [price]; [item_price] is the capture price *)
            let capture_price := item_price lst in
            Some (key, (capture_price, bids lst))
        end.

(** The dict [updates], in insertion order. *)
Abbreviation Updates := (list (string * (float * Z))).

Fixpoint updates_get (updates : Updates) (key : string) : option (float * Z) :=
  match updates with
  | [] => None
  | (k, v) :: updates' => if String.eqb k key then Some v else updates_get updates' key
  end.

Fixpoint updates_set (updates : Updates) (key : string) (v : float * Z) : Updates :=
  match updates with
  | [] => [(key, v)]
  | (k, w) :: updates' =>
      if String.eqb k key then (k, v) :: updates' else (k, w) :: updates_set updates' key v
  end.

(** One turn of the capture loop on the state ([updates], [capture_seen]). *)
Definition capture_step (cfg : Config) (now : float)
    (st : Updates * gset string) (lst : Listing) : Updates * gset string :=
  let '(updates, capture_seen) := st in
  let lk := dedupe_key_from_listing lst in
  if bool_decide (lk ∈ capture_seen) then st
  else
    match capture_candidate cfg now lst with
    | None => st
    | Some (key, cur) =>
        match updates_get updates key with
        | None => (updates_set updates key cur, {[lk]} ∪ capture_seen)
        | Some (prev_total, prev_bids) =>
            let '(total, bids) := cur in
            if (prev_bids <? bids) || ((bids =? prev_bids) && (total <? prev_total)%float)
            then (updates_set updates key cur, {[lk]} ∪ capture_seen)
            else st
        end
    end.

Definition collect_updates (cfg : Config) (now : float) (filtered : list Listing)
    : Updates * gset string :=
  fold_left (capture_step cfg now) filtered ([], ∅).

(** The capture phase: the updates are applied and the store is saved only
    when there is at least one update.  Result: the number of keys
    updated, the store, and whether [save_store] was called. *)
Definition capture_phase (cfg : Config) (now : float) (ts : Z)
    (store : gmap string price_store.Entry) (filtered : list Listing)
    : Z * gmap string price_store.Entry * bool :=
  let updates := fst (collect_updates cfg now filtered) in
  match updates with
  | [] => (0, store, false)
  | _ => (price_store.capture_updates cfg ts store updates, true)
  end.

(** [_passes_blacklist(title, blacklist)] *)
Definition passes_blacklist (title : string) (blacklist : list string) : bool :=
  let t := PyStr.lower title in
  negb (existsb (fun kw => PyStr.contains (PyStr.lower kw) t) blacklist).

(** [_dedupe_listings_in_run]: the loop with its set [seen]. *)
Fixpoint dedupe_from (seen : gset string) (listings : list Listing) : list Listing :=
  match listings with
  | [] => []
  | lst :: listings' =>
      let k := dedupe_key_from_listing lst in
      if bool_decide (k ∈ seen) then dedupe_from seen listings'
      else lst :: dedupe_from ({[k]} ∪ seen) listings'
  end.

Definition dedupe_listings_in_run (listings : list Listing) : list Listing :=
  dedupe_from ∅ listings.

(** The body of the filter loop of [run_once]: does the listing go into
    [filtered]?  [max_time_hours] is [config.MAX_TIME_HOURS]. *)
Definition passes_filters (now : float) (max_time_hours : option float)
    (min_qty : option Z) (blacklist : list string) (lst : Listing) : bool :=
  if found HARD_DISQUALIFY_RE (title lst) then false
  else if match min_qty with
          | Some mq => silver_math.extract_quantity_from_title (title lst) <? mq
          | None => false
          end
  then false
  else if negb (passes_blacklist (title lst) blacklist) then false
  else
    match max_time_hours with
    | None => true
    | Some hours =>
        match end_time_ts lst with
        | None => false
        | Some end_ts =>
            let seconds_left := (end_ts - now)%float in
            if (seconds_left <? 0)%float then false
            else if (hours * 3600.0 <? seconds_left)%float then false
            else true
        end
    end.

(** The end of [run_once]: the hits not alerted before, and the set saved
    as seen. *)
Definition split_hits (hits : list hit_engine.Evaluated) (seen : gset string)
    : list hit_engine.Evaluated * gset string :=
  let keys : gset string :=
    list_to_set (map (fun e => dedupe_key_from_listing (hit_engine.listing e)) hits) in
  let '(new_keys, merged) := state_store.split_new_hits keys seen in
  (filter (fun e => bool_decide (dedupe_key_from_listing (hit_engine.listing e) ∈ new_keys))
     hits,
   merged).

(** What one cycle returns and leaves behind: the result lists, the price
    file and the seen keys. *)
Record Cycle : Type := {
  evaluated : list hit_engine.Evaluated;
  hits : list hit_engine.Evaluated;
  new_hits : list hit_engine.Evaluated;
  file_after : option string;
  seen_after : gset string
}.

(** [run_once] from the listings kept by the parsing loop on: in-run
    dedupe, the filter loop, the price capture into the store read from the
    price file, which is saved when there was an update, the evaluation
    (whose FMV lookups read the price file again), the selection and the
    split against the seen keys.  [file] is the content of the price file,
    [ts] is [now_ts()] and [now] is [time.time()]; [None] when
    [load_store] raises. *)
Definition run_cycle (cfg : Config) (now : float) (ts : Z)
    (max_time_hours : option float)
    (static_defaults : list (numismatic_defaults.PyKey * option float))
    (file : option string) (seen : gset string)
    (min_qty : option Z) (blacklist : list string) (listings_all : list Listing)
    : option Cycle :=
  let listings_all := dedupe_listings_in_run listings_all in
  let filtered := filter (passes_filters now max_time_hours min_qty blacklist) listings_all in
  match price_store.load_store file with
  | price_store.Raised => None
  | price_store.Loaded store =>
      let '(_, store1, saved) := capture_phase cfg now ts store filtered in
      let file1 :=
        if saved then Some (price_store.save_store (price_store.as_lists store1))
        else file in
      let filtered := dedupe_listings_in_run filtered in
      match price_store.load_store file1 with
      | price_store.Raised => None
      | price_store.Loaded on_disk =>
          let env := {| hit_engine.cfg := cfg; hit_engine.store := on_disk;
                        hit_engine.static_defaults := static_defaults;
                        hit_engine.now := now |} in
          let evaluated := hit_engine.evaluate_listings env filtered in
          let hits := hit_engine.select_hits evaluated in
          let '(new_hits, merged) := split_hits hits seen in
          Some {| evaluated := evaluated; hits := hits; new_hits := new_hits;
                  file_after := file1; seen_after := merged |}
      end
  end.

End silver_monitor.


(* ===================================================================== *)
(** * console_tables.py: the cells of the table                           *)
(* ===================================================================== *)

Module console_tables.

(** [_truncate(text, width)], on a text that is a [str] already. *)
Definition truncate (text : string) (width : Z) : string :=
  if Z.of_nat (String.length text) <=? width then text
  else String.substring 0 (Z.to_nat (Z.max 0 (width - 3))) text +:+ "...".

Fixpoint blanks (n : nat) : string :=
  match n with
  | O => ""
  | S n' => String " " (blanks n')
  end.

(** [s.ljust(w)] *)
Definition ljust (s : string) (w : Z) : string :=
  s +:+ blanks (Z.to_nat (w - Z.of_nat (String.length s))).

(** [sep.join(parts)] *)
Fixpoint join (sep : string) (parts : list string) : string :=
  match parts with
  | [] => ""
  | [p] => p
  | p :: parts' => p +:+ sep +:+ join sep parts'
  end.

(** [zip(values, widths)] *)
Fixpoint zip {A B : Type} (l : list A) (m : list B) : list (A * B) :=
  match l, m with
  | x :: l', y :: m' => (x, y) :: zip l' m'
  | _, _ => []
  end.

(** [_fmt_row(values, widths)] *)
Definition fmt_row (values : list string) (widths : list Z) : string :=
  join " | " (map (fun vw => ljust (truncate (fst vw) (snd vw)) (snd vw)) (zip values widths)).

End console_tables.

(* ===================================================================== *)
(** * ebay_search_parser.py: the item id of a link                        *)
(* ===================================================================== *)

Module ebay_search_parser.
Import Re.

Definition INVALID_ITM_IDS : list string :=
  ["123456"; "000000"; "0000000000"; "000000000000"].

(* r"/itm/(\d+)" *)
Definition ITM_RE : pattern :=
  Pattern false (Seq (Str "/itm/") (Group 1 (Plus digit))).

(** [_extract_item_id_from_link(link)] *)
Definition extract_item_id_from_link (link : string) : option string :=
  if negb (PyStr.nonempty link) then None
  else
    match search_group1 ITM_RE link with
    | None => None
    | Some item_id =>
        if existsb (String.eqb item_id) INVALID_ITM_IDS then None else Some item_id
    end.

End ebay_search_parser.

(* ===================================================================== *)
(** * Vocabulary of the properties                                        *)
(* ===================================================================== *)

Module FloatRank.

(** An order embedding of the floats that are not NaN into [Z]: the value
    in units of 2^-1074, with the infinities beyond every finite float. *)
Definition rank (a : spec_float) : Z :=
  match a with
  | S754_zero _ => 0
  | S754_finite s m e => (if s then -1 else 1) * (Zpos m * 2 ^ (e + 1074))
  | S754_infinity s => (if s then -1 else 1) * 2 ^ 2200
  | S754_nan => 0
  end.

Definition frank (x : float) : Z := rank (Prim2SF x).

(** [x] is a number: not NaN. *)
Definition is_number (x : float) : Prop := Prim2SF x <> S754_nan.

(** Sorted by the rank [r] of the key. *)
Definition rank_le {A K : Type} (key : A -> K) (r : K -> Z) (a b : A) : Prop :=
  r (key a) <= r (key b).

End FloatRank.

Module HitOrder.
Import hit_engine FloatRank.

Definition krank (k : SortKey) : Z :=
  match k with
  | KFloat f => frank f
  | KInt z => z * 2 ^ 1074
  end.

(** The keys the sort meets when every known end time is below the
    sentinel. *)
Definition good_key (k : SortKey) : Prop :=
  match k with
  | KFloat f => key_lt (KFloat f) (KInt SENTINEL) = true
  | KInt z => z = SENTINEL
  end.


End HitOrder.

(* ===================================================================== *)
(** * Inputs of the scenarios                                             *)
(* ===================================================================== *)

Module Scenarios.
Import hit_engine.

(** A listing as the search parser builds it: the item price is the total
    less the shipping, the weight is not set yet. *)
Definition parsed (title : string) (total shipping : float) (bids qty : Z)
    (end_ts : option float) : Listing :=
  {| title := title; link := ""; item_price := (total - shipping)%float;
     shipping := shipping; total_price := total; bids := bids; time_left := "";
     item_id := None; quantity := qty; oz_per_coin := 0.0%float;
     end_time_ts := end_ts |}.

(** The shipped configuration on an empty price file. *)
Definition fresh_env : Env :=
  {| cfg := ConfigValues.config; store := ∅;
     static_defaults := numismatic_defaults.STATIC_NUMISMATIC_DEFAULTS;
     now := 0.0%float |}.





(** A holed coin offered far below its floor, with every other signal in
    its favour. *)
Definition holed_bargain : Listing :=
  parsed "1921 Morgan Dollar holed, estate find" 10.0 0.0 1 1 (Some 600.0%float).

(** A price file that knows the 1921 Morgan dollar, and a configuration with
    other numismatic settings: a different dealer payout, a spend cap and
    stricter prospect thresholds. *)
Definition morgan_store : gmap string price_store.Entry :=
  {[ "Morgan Dollar|1921|P" :=
       {| price_store.ema_price := 100.0; price_store.samples := 17;
          price_store.last_total_price := 100.0;
          price_store.last_updated := 1765618492;
          price_store.observers_total := 30 |} ]}.

Definition env_morgan : Env :=
  {| cfg := ConfigValues.config; store := morgan_store;
     static_defaults := numismatic_defaults.STATIC_NUMISMATIC_DEFAULTS;
     now := 0.0%float |}.

Definition strict_pros_config : Config :=
  {| SPOT_PRICE := SPOT_PRICE ConfigValues.config;
     PAWN_PAYOUT_PCT := PAWN_PAYOUT_PCT ConfigValues.config;
     NUMISMATIC_PAYOUT_PCT := 45.0;
     BID_OFFSET := BID_OFFSET ConfigValues.config;
     MIN_MARGIN_PCT := MIN_MARGIN_PCT ConfigValues.config;
     PRICE_CAPTURE_ONLY_IF_BIDS := true;
     PRICE_CAPTURE_BUMP_PCT := 0.08;
     EMA_ALPHA := 0.40;
     PRICE_CAPTURE_MAX_MINUTES := Some 30%float;
     PROS_MAX_TOTAL := Some (Some 20.0%float);
     PROS_MIN_DEALER_MARGIN_PCT := 22.0;
     PROS_MIN_SCORE := 80;
     PROS_CAT3_MISPRICE_TOL_PCT := 5.0;
     PROS_CAT3_MISPRICE_BONUS := 35;
     PROS_CAT3_REQUIRE_ENDING_SOON := true;
     PROS_CAT3_MAX_MINUTES := 30;
     PROS_HARD_DISQUALIFY_KEYWORDS := [];
     PROS_DISQUALIFY_KEYWORDS := ["morgan"];
     PROS_DISQUALIFY_REGEX := [];
     PROS_HYPE_KEYWORDS := [];
     PROS_UNDERDESCRIBED_KEYWORDS := [];
     PROS_HIGH_GRADE_KEYWORDS := [];
     PRICE_CAPTURE_DISQUALIFY_KEYWORDS := [];
     PRICE_CAPTURE_DISQUALIFY_REGEX := [] |}.

Definition env_strict : Env :=
  {| cfg := strict_pros_config; store := ∅; static_defaults := [];
     now := 1765618492.0%float |}.

(** A raw 1921 Morgan dollar at 40 with one bid: a prospect for the price
    file above, not a melt hit. *)
Definition morgan_40 : Listing :=
  parsed "1921 Morgan Dollar" 40.0 5.0 1 1 (Some 600.0%float).

(** Scenario B. *)
Definition key_B : string := "Morgan Dollar|1921|P".




End Scenarios.

(* ===================================================================== *)
(** * The specification's formulas, as it words them                      *)
(* ===================================================================== *)

Module Spec.
Import silver_math price_store.

(** Section 4.3 of the specification, read literally: the capture bump, then
    the first write or the smoothing step, with no figure rounded.  [prior]
    is the entry stored before the call, [e] the entry stored after it. *)
Definition ema_update_unrounded (bump_pct alpha : float) (now : Z)
    (prior : option Entry) (total_price : float) (bid_count : Z) (e : Entry) : Prop :=
  let bumped := (total_price * (1 + bump_pct))%float in
  match prior with
  | None =>
      ema_price e = bumped /\ samples e = 1 /\ observers_total e = bid_count
  | Some p =>
      ema_price e = (alpha * bumped + (1 - alpha) * ema_price p)%float
      /\ samples e = samples p + 1
      /\ observers_total e = observers_total p + bid_count
  end
  /\ last_total_price e = bumped /\ last_updated e = now.




(** A title with a hard disqualifier of the prospect score: a keyword of
    the two keyword lists or a match of one of the patterns. *)
Definition hard_disqualified (cfg : Config) (title : string) : bool :=
  prospect_score.has_any title
    (PROS_HARD_DISQUALIFY_KEYWORDS cfg ++ PROS_DISQUALIFY_KEYWORDS cfg)%list
  || prospect_score.matches_any_regex title (PROS_DISQUALIFY_REGEX cfg).







End Spec.

(* ===================================================================== *)
(** * The text of the price file                                          *)
(* ===================================================================== *)

Module JsonText.
Import json.

(** Every character of [s] passes [p]. *)
Fixpoint all_chars (p : ascii -> bool) (s : string) : bool :=
  match s with
  | EmptyString => true
  | String c s' => p c && all_chars p s'
  end.

(** The first character of the text of a number. *)
Definition number_start (c : ascii) : bool :=
  PyStr.is_digit c || Ascii.eqb c "-" || Ascii.eqb c "N" || Ascii.eqb c "I".

Definition starts_number (s : string) : bool :=
  match s with
  | String c _ => number_start c
  | EmptyString => false
  end.

(** [t] is the text of one number token. *)
Definition number_text (t : string) : bool :=
  starts_number t && all_chars numberish t.

(** The text [json.dumps] writes for the float reads back as the float. *)
Definition text_stable (f : float) : bool :=
  number_text (float_repr f)
  && match number_of_token (float_repr f) with
     | Some (JFloat g) => PrimFloat.Leibniz.eqb g f
     | _ => false
     end.

(** What may follow a number: the end of the text or a character that no
    number holds. *)
Definition closes (r : string) : bool :=
  match r with
  | String c _ => negb (numberish c)
  | EmptyString => true
  end.

(** A cell that [json.dumps] writes as a number that reads back. *)
Definition numeric (v : value) : bool :=
  match v with
  | JInt _ => true
  | JFloat f => text_stable f
  | _ => false
  end.

(** A store whose lists hold such cells only. *)
Definition numeric_lists (x : price_store.Lists) : bool :=
  forallb (fun kv => forallb numeric (snd kv)) (map_to_list x).

(** The text of the members of a dict from the first key on, one on each
    line, up to the closing brace; [rest] follows the brace. *)
Fixpoint members_text (items : list (string * list value)) (rest : string) : string :=
  match items with
  | [] => rest
  | (k, cells) :: items' =>
      String "034" (escape k +:+ String "034" (String ":" (String " " (String "["
        (join_with dumps cells +:+ String "]"
           (match items' with
            | [] => String "010" (String "}" rest)
            | _ :: _ =>
                String "," (String "010" (String " " (String " "
                  (members_text items' rest))))
            end))))))
  end.

End JsonText.

Module PriceFile.
Import json JsonText price_store.

(** The keys of a store in the order of [sorted], each with its list. *)
Definition item_of (x : Lists) (k : string) : string * list value :=
  (k, default [] (x !! k)).

Definition items_of (x : Lists) : list (string * list value) :=
  map (item_of x) (sorted_keys x).

(** A member of the decoded dict. *)
Definition as_member (item : string * list value) : string * value :=
  (fst item, JArray (snd item)).

(** One line of the file, without its end: two blanks, the key, a colon and
    a blank, the list, and a comma unless the line is the last one. *)
Definition line (k : string) (cells : list value) (last : bool) : string :=
  "  " +:+ dumps_str k +:+ ": " +:+ dumps (JArray cells) +:+ (if last then "" else ",").

Fixpoint lines (items : list (string * list value)) : list string :=
  match items with
  | [] => []
  | (k, cells) :: items' =>
      line k cells (match items' with [] => true | _ :: _ => false end) :: lines items'
  end.

(** The lines, each ended by a newline. *)
Fixpoint unlines (ls : list string) : string :=
  match ls with
  | [] => ""
  | l :: ls' => l +:+ String "010" "" +:+ unlines ls'
  end.

(** The text holds no newline. *)
Definition single_line (s : string) : bool :=
  all_chars (fun c => negb (Ascii.eqb c "010")) s.

(** Strictly increasing in the order of [str]. *)
Definition increasing (keys : list string) : Prop :=
  StronglySorted (fun a b => String.ltb a b = true) keys.

End PriceFile.

Module PriceFileScenario.
Import price_store.

(** The store of the module's docstring, and a second key with awkward
    values: a price that is no short binary fraction, a negative zero and a
    key that needs escapes. *)
Definition documented_store : Store :=
  <[ "Morgan Dollar|1883|O" :=
       {| ema_price := 63.0; samples := 17; last_total_price := 63.0;
          last_updated := 1765618492; observers_total := 30 |} ]>
  (<[ String "034" ("A\B" +:+ String "010" "") :=
       {| ema_price := 0.1; samples := 1; last_total_price := (-0.0);
          last_updated := -5; observers_total := 0 |} ]> ∅).

(** Lists as a hand-edited file may hold them: too short, too long, and
    with an int where a price stands and a float where a count stands. *)
Definition mixed_lists : Lists :=
  <[ "short" := [json.JFloat 1.5; json.JInt 2] ]>
  (<[ "long" := [json.JInt 7; json.JFloat 2.9; json.JFloat 7.5; json.JInt 3; json.JInt 4;
                 json.JInt 99] ]> ∅).

End PriceFileScenario.


Module CycleScenario.
Import Scenarios.

(** Three listings in the order of the page: two coins far below melt and
    one at a collector's price. *)
Definition cheap_coins : list Listing :=
  [ parsed "1921 Morgan Dollar" 20.0 5.0 1 1 (Some 300.0%float);
    parsed "1922 Peace Dollar" 20.0 5.0 0 1 (Some 100.0%float);
    parsed "1943 Walking Liberty Half" 40.0 5.0 0 1 (Some 200.0%float) ].

(** The store after the first capture of the raw Morgan dollar of the
    scenarios: the item price 35 with the bump of 8 per cent. *)
Definition first_capture : gmap string price_store.Entry :=
  {[ "Morgan Dollar|1921|P" :=
       {| price_store.ema_price := 37.8; price_store.samples := 1;
          price_store.last_total_price := 37.8;
          price_store.last_updated := 1765618492;
          price_store.observers_total := 1 |} ]}.

End CycleScenario.

(* ===================================================================== *)
(** * What a match of a pattern is                                        *)
(* ===================================================================== *)

Module ReSem.
Import Re.

(** A state of the matcher. *)
Definition state : Type := (cursor * captures)%type.

(** [n] steps of a relation, one after the other. *)
Fixpoint iterate (R : state -> state -> Prop) (n : nat) (a b : state) : Prop :=
  match n with
  | O => a = b
  | S n' => exists m, R a m /\ iterate R n' m b
  end.

(** One character that passes [ok] is read. *)
Definition reads (ok : ascii -> bool) (a b : state) : Prop :=
  exists x s', rest (fst a) = String x s' /\ ok x = true
               /\ b = (Cursor (Some x) s', snd a).

(** What a match of [r] does to the state: the relation between the state
    before and the state after one way to match. *)
Fixpoint denotes (ic : bool) (r : regex) (a b : state) : Prop :=
  match r with
  | Eps => a = b
  | Lit c => reads (lit_eq ic c) a b
  | Dot => reads (fun x => negb (Ascii.eqb x "010"%char)) a b
  | Cls items => reads (in_cls ic items) a b
  | Bol => before (fst a) = None /\ a = b
  | WordB => xorb (word_before (fst a)) (word_after (fst a)) = true /\ a = b
  | Seq r1 r2 => exists m, denotes ic r1 a m /\ denotes ic r2 m b
  | Alt r1 r2 => denotes ic r1 a b \/ denotes ic r2 a b
  | Star r' => exists n, iterate (denotes ic r') n a b
  | Group n r' =>
      exists m, denotes ic r' a m
                /\ b = (fst m, set_group n (consumed (fst a) (fst m)) (snd m))
  | NegLook _ => a = b
  end.

End ReSem.

Module ReGroups.
Import Re ReSem.

(** A pattern without capturing groups. *)
Fixpoint group_free (r : regex) : bool :=
  match r with
  | Seq r1 r2 | Alt r1 r2 => group_free r1 && group_free r2
  | Star r' => group_free r'
  | Group _ _ => false
  | _ => true
  end.

(** A pattern made of [\d] only, in sequences and alternatives. *)
Fixpoint digit_run (r : regex) : bool :=
  match r with
  | Eps => true
  | Cls [CDigit] => true
  | Seq r1 r2 | Alt r1 r2 => digit_run r1 && digit_run r2
  | _ => false
  end.

End ReGroups.

(* ===================================================================== *)
(** * The signals of the prospect score, step by step                     *)
(* ===================================================================== *)

Module ScoreSteps.
Import prospect_score.

(** The signals of [score_prospect] one by one, each as a step on the
    running pair of score and reasons. *)
Abbreviation Acc := (Z * list string)%type.

Definition dealer_step (dealer_value total : float) (acc : Acc) : Acc :=
  let dealer_margin_pct := (((dealer_value - total) / total) * 100.0)%float in
  if (75 <=? dealer_margin_pct)%float then bump 25 "huge-dealer-margin" acc
  else if (50 <=? dealer_margin_pct)%float then bump 18 "dealer-margin>=50" acc
  else if (35 <=? dealer_margin_pct)%float then bump 10 "dealer-margin>=35" acc
  else if (20 <=? dealer_margin_pct)%float then bump 4 "dealer-margin>=20" acc
  else bump (-20) "thin-dealer-margin" acc.

Definition gap_step (fmv_floor total : float) (acc : Acc) : Acc :=
  let fmv_gap_pct := (((fmv_floor - total) / total) * 100.0)%float in
  if (100 <=? fmv_gap_pct)%float then bump 10 "fmv-gap>=100" acc
  else if (50 <=? fmv_gap_pct)%float then bump 6 "fmv-gap>=50" acc
  else acc.

Definition bid_step (bids : Z) (acc : Acc) : Acc :=
  if bids <=? 0 then bump 4 "unnoticed(0-bids)" acc
  else if bids <=? 2 then bump 7 "few-bids" acc
  else if bids <=? 10 then bump 4 "some-bids" acc
  else bump 1 "many-bids" acc.

Definition hype_step (cfg : Config) (title : string) (acc : Acc) : Acc :=
  if has_any title (PROS_HYPE_KEYWORDS cfg) then bump (-18) "hype-language" acc else acc.

Definition underdescribed_step (cfg : Config) (title : string) (acc : Acc) : Acc :=
  if has_any title (PROS_UNDERDESCRIBED_KEYWORDS cfg)
  then bump 12 "under-described" acc else acc.

Definition grade_step (cfg : Config) (title : string) (acc : Acc) : Acc :=
  if has_any title (PROS_HIGH_GRADE_KEYWORDS cfg)
  then bump (-14) "high-grade-signals" acc else acc.

Definition premium_step (cfg : Config) (now : float) (listing : Listing)
    (fmv_floor total : float) (acc : Acc) : Acc :=
  if has_any (title listing) (PROS_HIGH_GRADE_KEYWORDS cfg) then
    let tol_pct := (PyFloat.or_default (PROS_CAT3_MISPRICE_TOL_PCT cfg) 0.0 / 100.0)%float in
    if (total <=? fmv_floor * (1.0 + PyFloat.max0 tol_pct))%float then
      let soon_ok :=
        if PROS_CAT3_REQUIRE_ENDING_SOON cfg then
          match minutes_left now listing with
          | Some mins => mins <=? PROS_CAT3_MAX_MINUTES cfg
          | None => false
          end
        else true in
      if soon_ok
      then bump (Z.max 0 (PROS_CAT3_MISPRICE_BONUS cfg)) "premium-terms-priced-like-raw" acc
      else acc
    else acc
  else acc.

Definition urgency_step (listing : Listing) (acc : Acc) : Acc :=
  let tleft := PyStr.lower (time_left listing) in
  if PyStr.contains "m left" tleft || PyStr.contains "min" tleft
  then bump 3 "ending-soon" acc else acc.

(** The tags of the steps other than the grade step and the premium
    step. *)
Definition plain_tags : list string :=
  ["huge-dealer-margin"; "dealer-margin>=50"; "dealer-margin>=35"; "dealer-margin>=20";
   "thin-dealer-margin"; "fmv-gap>=100"; "fmv-gap>=50"; "unnoticed(0-bids)"; "few-bids";
   "some-bids"; "many-bids"; "hype-language"; "under-described"; "ending-soon"].

(** The names of the gates that cut the scoring short. *)
Definition gate_tags : list string :=
  ["missing-anchors"; "pros-hard-disqualify-keyword"; "pros-hard-disqualify-regex"].

End ScoreSteps.

(* ===================================================================== *)
(** * Part II: properties                                                 *)
(* ===================================================================== *)

(** ** Order of binary64 floats *)

Module FloatOrder.
Import FloatRank.

Lemma digits2_pos_size (m : positive) : digits2_pos m = Pos.size m.
Proof. induction m; simpl; congruence. Qed.

Lemma pos_lt_pow_digits (m : positive) : Zpos m < 2 ^ Zpos (digits2_pos m).
Proof.
  rewrite digits2_pos_size.
  pose proof (Pos.size_gt m) as H.
  apply Pos2Z.pos_lt_pos in H. rewrite Pos2Z.inj_pow in H. exact H.
Qed.

Lemma pos_ge_pow_digits (m : positive) : 2 ^ (Zpos (digits2_pos m) - 1) <= Zpos m.
Proof.
  rewrite digits2_pos_size.
  pose proof (Pos.size_le m) as H.
  apply Pos2Z.pos_le_pos in H. rewrite Pos2Z.inj_pow in H.
  change (Zpos m~0) with (2 * Zpos m) in H.
  replace (Zpos (Pos.size m)) with (Zpos (Pos.size m) - 1 + 1) in H by lia.
  rewrite Z.pow_add_r in H by lia. lia.
Qed.

(** What validity says about a finite binary64 float. *)
Lemma bounded_facts (m : positive) (e : Z) :
  bounded prec emax m e = true ->
  Zpos m < 2 ^ 53 /\ -1074 <= e <= 971 /\ (-1074 < e -> 2 ^ 52 <= Zpos m).
Proof.
  unfold bounded, canonical_mantissa, fexp, SpecFloat.emin, prec, emax.
  intros H. apply andb_prop in H as [Hc Hb].
  apply Z.eqb_eq in Hc. apply Z.leb_le in Hb.
  pose proof (pos_lt_pow_digits m) as Hlt.
  pose proof (pos_ge_pow_digits m) as Hge.
  set (d := Zpos (digits2_pos m)) in *.
  assert (Hd : 0 < d) by (unfold d; lia).
  assert (Hd53 : d <= 53) by lia.
  repeat split; try lia.
  - eapply Z.lt_le_trans; [exact Hlt|]. apply Z.pow_le_mono_r; lia.
  - intros He. assert (d = 53) by lia.
    replace 52 with (d - 1) by lia. exact Hge.
Qed.

Lemma finite_rank_pos (m : positive) (e : Z) :
  bounded prec emax m e = true ->
  0 < Zpos m * 2 ^ (e + 1074) < 2 ^ 2200.
Proof.
  intros H. apply bounded_facts in H as (Hm & He & _).
  assert (Hp : 0 < 2 ^ (e + 1074)) by (apply Z.pow_pos_nonneg; lia).
  assert (Hq : 2 ^ (e + 1074) <= 2 ^ 2045) by (apply Z.pow_le_mono_r; lia).
  split; [lia|].
  apply Z.lt_le_trans with (2 ^ 53 * 2 ^ 2045).
  - apply Z.le_lt_trans with (Zpos m * 2 ^ 2045).
    + apply Z.mul_le_mono_nonneg_l; lia.
    + apply Z.mul_lt_mono_pos_r; [apply Z.pow_pos_nonneg; lia | exact Hm].
  - rewrite <- Z.pow_add_r by lia. apply Z.pow_le_mono_r; lia.
Qed.

Lemma finite_rank_exp_lt (m1 m2 : positive) (e1 e2 : Z) :
  bounded prec emax m1 e1 = true -> bounded prec emax m2 e2 = true ->
  e1 < e2 ->
  Zpos m1 * 2 ^ (e1 + 1074) < Zpos m2 * 2 ^ (e2 + 1074).
Proof.
  intros H1 H2 Hlt.
  apply bounded_facts in H1 as (Hm1 & He1 & _).
  apply bounded_facts in H2 as (Hm2 & He2 & Hn2).
  assert (Hn2' : 2 ^ 52 <= Zpos m2) by (apply Hn2; lia). clear Hn2.
  assert (Hp : 0 < 2 ^ (e1 + 1074)) by (apply Z.pow_pos_nonneg; lia).
  replace (e2 + 1074) with ((e2 - e1 - 1) + 1 + (e1 + 1074)) by lia.
  rewrite (Z.pow_add_r 2 (e2 - e1 - 1 + 1) (e1 + 1074)) by lia.
  rewrite (Z.pow_add_r 2 (e2 - e1 - 1) 1) by lia.
  assert (Hk : 1 <= 2 ^ (e2 - e1 - 1)) by (apply (Z.pow_le_mono_r 2 0); lia).
  change (2 ^ 1) with 2.
  assert (Zpos m1 < Zpos m2 * (2 ^ (e2 - e1 - 1) * 2)).
  { change (2 ^ 53) with (2 ^ 52 * 2) in Hm1. nia. }
  rewrite Z.mul_assoc.
  apply Z.mul_lt_mono_pos_r; [exact Hp | lia].
Qed.

Lemma compare_cont_Eq (m1 m2 : positive) :
  Pos.compare_cont Eq m1 m2 = (Zpos m1 ?= Zpos m2).
Proof. reflexivity. Qed.

Lemma SFcompare_rank (a b : spec_float) :
  valid_binary a = true -> valid_binary b = true ->
  a <> S754_nan -> b <> S754_nan ->
  SFcompare a b = Some (rank a ?= rank b).
Proof.
  intros Va Vb Na Nb.
  destruct a as [sa|sa| |sa ma ea], b as [sb|sb| |sb mb eb];
    try congruence; simpl in Va, Vb.
  all: try (pose proof (finite_rank_pos _ _ Va) as Ha).
  all: try (pose proof (finite_rank_pos _ _ Vb) as Hb).
  all: unfold SFcompare, rank.
  all: try (destruct sa); try (destruct sb); f_equal; symmetry.
  all: try (apply Z.compare_eq_iff; lia).
  all: try (apply Z.compare_lt_iff; lia).
  all: try (apply Z.compare_gt_iff; lia).
  - (* both negative *)
    destruct (Z.compare_spec ea eb) as [He|He|He].
    + subst eb. rewrite compare_cont_Eq.
      destruct (Z.compare_spec (Zpos ma) (Zpos mb)) as [Hm|Hm|Hm]; cbn [CompOpp].
      * apply Z.compare_eq_iff. injection Hm as ->. reflexivity.
      * apply Z.compare_gt_iff. nia.
      * apply Z.compare_lt_iff. nia.
    + pose proof (finite_rank_exp_lt _ _ _ _ Va Vb He). apply Z.compare_gt_iff. lia.
    + pose proof (finite_rank_exp_lt _ _ _ _ Vb Va He). apply Z.compare_lt_iff. lia.
  - destruct (Z.compare_spec ea eb) as [He|He|He].
    + subst eb. rewrite compare_cont_Eq.
      destruct (Z.compare_spec (Zpos ma) (Zpos mb)) as [Hm|Hm|Hm]; cbn [CompOpp].
      * apply Z.compare_eq_iff. injection Hm as ->. reflexivity.
      * apply Z.compare_lt_iff. nia.
      * apply Z.compare_gt_iff. nia.
    + pose proof (finite_rank_exp_lt _ _ _ _ Va Vb He). apply Z.compare_lt_iff. lia.
    + pose proof (finite_rank_exp_lt _ _ _ _ Vb Va He). apply Z.compare_gt_iff. lia.
Qed.

Lemma compare_frank (x y : float) :
  is_number x -> is_number y ->
  SFcompare (Prim2SF x) (Prim2SF y) = Some (frank x ?= frank y).
Proof.
  intros Hx Hy. apply SFcompare_rank; auto using Prim2SF_valid.
Qed.

Lemma ltb_frank (x y : float) :
  is_number x -> is_number y -> (x <? y)%float = (frank x <? frank y).
Proof.
  intros Hx Hy. rewrite FloatAxioms.ltb_spec. unfold SFltb. rewrite compare_frank by assumption.
  unfold Z.ltb. destruct (frank x ?= frank y); reflexivity.
Qed.

Lemma leb_frank (x y : float) :
  is_number x -> is_number y -> (x <=? y)%float = (frank x <=? frank y).
Proof.
  intros Hx Hy. rewrite FloatAxioms.leb_spec. unfold SFleb. rewrite compare_frank by assumption.
  unfold Z.leb. destruct (frank x ?= frank y); reflexivity.
Qed.

Lemma SFcompare_nan_l (b : spec_float) : SFcompare S754_nan b = None.
Proof. destruct b; reflexivity. Qed.

Lemma SFcompare_nan_r (a : spec_float) : SFcompare a S754_nan = None.
Proof. destruct a; reflexivity. Qed.

Lemma ltb_true_numbers (x y : float) :
  (x <? y)%float = true -> is_number x /\ is_number y.
Proof.
  rewrite FloatAxioms.ltb_spec. unfold SFltb, is_number. intros H.
  split; intros E; rewrite E in H;
    [rewrite SFcompare_nan_l in H | rewrite SFcompare_nan_r in H]; discriminate.
Qed.

Lemma leb_true_numbers (x y : float) :
  (x <=? y)%float = true -> is_number x /\ is_number y.
Proof.
  rewrite FloatAxioms.leb_spec. unfold SFleb, is_number. intros H.
  split; intros E; rewrite E in H;
    [rewrite SFcompare_nan_l in H | rewrite SFcompare_nan_r in H]; discriminate.
Qed.

(** [x < y] excludes [y <= x]. *)
Lemma ltb_leb_false (x y : float) :
  (x <? y)%float = true -> (y <=? x)%float = false.
Proof.
  intros H. destruct (ltb_true_numbers _ _ H) as [Hx Hy].
  rewrite ltb_frank in H by assumption. rewrite leb_frank by assumption.
  apply Z.ltb_lt in H. apply Z.leb_gt. exact H.
Qed.

Lemma frank_zero : frank 0%float = 0.
Proof. reflexivity. Qed.

(** The two zeros compare alike. *)
Lemma eqb_zero_frank (x : float) : (x =? 0)%float = true -> frank x = 0.
Proof.
  rewrite FloatAxioms.eqb_spec. unfold SFeqb. intros H.
  assert (Hx : is_number x).
  { intros E. rewrite E, SFcompare_nan_l in H. discriminate. }
  rewrite compare_frank in H; [|assumption|discriminate].
  change (frank 0) with 0 in H.
  destruct (frank x ?= 0) eqn:E; try discriminate.
  apply Z.compare_eq_iff in E. exact E.
Qed.



End FloatOrder.

Import FloatRank FloatOrder.

(** ** The stable sort *)

Section SortFacts.
Context {A K : Type}.
Variable key : A -> K.
Variable lt : K -> K -> bool.
Variable r : K -> Z.
Variable good : K -> Prop.
Hypothesis lt_rank : forall a b, good a -> good b -> lt a b = (r a <? r b).

Lemma insert_by_perm (x : A) (l : list A) :
  Permutation (x :: l) (PyList.insert_by key lt x l).
Proof.
  induction l as [|y l IH]; simpl; [reflexivity|].
  destruct (lt (key y) (key x)); [|reflexivity].
  rewrite perm_swap. constructor. exact IH.
Qed.

Lemma sort_by_perm (l : list A) : Permutation l (PyList.sort_by key lt l).
Proof.
  induction l as [|x l IH]; simpl; [reflexivity|].
  rewrite <- insert_by_perm. constructor. exact IH.
Qed.

Local Abbreviation rank_le := (FloatRank.rank_le key r).

Lemma insert_by_sorted (x : A) (l : list A) :
  good (key x) -> Forall (fun y => good (key y)) l ->
  StronglySorted rank_le l ->
  StronglySorted rank_le (PyList.insert_by key lt x l).
Proof.
  intros Gx Gl Hs. induction Hs as [|y l Hs IH Hy]; simpl.
  - constructor; constructor.
  - inversion Gl as [|? ? Gy Gl']; subst.
    rewrite lt_rank by assumption.
    destruct (Z.ltb_spec (r (key y)) (r (key x))) as [Hlt|Hge].
    + constructor; [apply IH; assumption|].
      rewrite <- (insert_by_perm x l). constructor; [unfold FloatRank.rank_le; lia | exact Hy].
    + constructor; [constructor; assumption|].
      constructor; [exact Hge|].
      eapply List.Forall_impl; [|exact Hy].
      unfold FloatRank.rank_le. intros z Hz. simpl in Hz. lia.
Qed.

Lemma sort_by_sorted (l : list A) :
  Forall (fun y => good (key y)) l ->
  StronglySorted rank_le (PyList.sort_by key lt l).
Proof.
  induction l as [|x l IH]; intros G; simpl; [constructor|].
  inversion G as [|? ? Gx Gl]; subst.
  apply insert_by_sorted; [assumption| |apply IH; assumption].
  rewrite <- (sort_by_perm l). exact Gl.
Qed.

End SortFacts.

Module HitOrderFacts.
Import hit_engine HitOrder FloatRank.

Lemma compare_mul_r (a b c : Z) : 0 < c -> (a * c ?= b * c) = (a ?= b).
Proof.
  intros Hc. destruct (Z.compare_spec a b) as [E|L|G].
  - subst. apply Z.compare_refl.
  - apply Z.compare_lt_iff. nia.
  - apply Z.compare_gt_iff. nia.
Qed.

Lemma compare_float_int_rank (f : float) (z : Z) :
  is_number f -> Z.abs z < 2 ^ 1126 ->
  compare_float_int f z = Some (frank f ?= z * 2 ^ 1074).
Proof.
  unfold is_number, compare_float_int, frank. intros Hn Hz.
  pose proof (Prim2SF_valid f) as V.
  assert (P : 0 < 2 ^ 1074) by (apply Z.pow_pos_nonneg; lia).
  destruct (Prim2SF f) as [s|s| |s m e]; try congruence; unfold rank; f_equal.
  - rewrite <- (compare_mul_r 0 z (2 ^ 1074)) by exact P. reflexivity.
  - assert (Z.abs z * 2 ^ 1074 < 2 ^ 1126 * 2 ^ 1074) by (apply Z.mul_lt_mono_pos_r; lia).
    rewrite <- Z.pow_add_r in H by lia. change (1126 + 1074) with 2200 in H.
    destruct s; symmetry; [apply Z.compare_lt_iff | apply Z.compare_gt_iff]; lia.
  - simpl in V. apply bounded_facts in V as (Hm & He & _).
    set (n := if s then Zneg m else Zpos m).
    assert (En : (if s then -1 else 1) * (Zpos m * 2 ^ (e + 1074)) = n * 2 ^ (e + 1074)).
    { unfold n. destruct s; lia. }
    rewrite En.
    destruct (Z.leb_spec 0 e) as [H0|H0].
    + rewrite Z.pow_add_r by lia. rewrite Z.mul_assoc.
      symmetry. apply compare_mul_r. exact P.
    + replace (z * 2 ^ 1074) with (z * 2 ^ (- e) * 2 ^ (e + 1074)).
      * symmetry. apply compare_mul_r. apply Z.pow_pos_nonneg; lia.
      * rewrite <- Z.mul_assoc, <- Z.pow_add_r by lia. f_equal. f_equal. lia.
Qed.

Lemma sentinel_small : Z.abs SENTINEL < 2 ^ 1126.
Proof.
  apply Z.lt_le_trans with (2 ^ 60); [vm_compute; reflexivity|].
  apply Z.pow_le_mono_r; lia.
Qed.

Lemma good_float_number (f : float) : good_key (KFloat f) -> is_number f.
Proof.
  unfold good_key, key_lt, compare_float_int, is_number. intros H E.
  rewrite E in H. discriminate.
Qed.

Lemma key_lt_rank (a b : SortKey) :
  good_key a -> good_key b -> key_lt a b = (krank a <? krank b).
Proof.
  intros Ga Gb.
  destruct a as [x|x], b as [y|y]; unfold krank.
  - apply ltb_frank; apply good_float_number; assumption.
  - unfold key_lt. simpl in Gb. subst y.
    rewrite compare_float_int_rank by (auto using good_float_number, sentinel_small).
    unfold Z.ltb. destruct (frank x ?= _); reflexivity.
  - unfold key_lt. simpl in Ga. subst x.
    rewrite compare_float_int_rank by (auto using good_float_number, sentinel_small).
    unfold Z.ltb. rewrite (Z.compare_antisym (frank y)).
    destruct (frank y ?= _); reflexivity.
  - simpl in Ga, Gb. subst. unfold key_lt. reflexivity.
Qed.

End HitOrderFacts.
(* ===================================================================== *)
(** * Reading back what [json.dumps] and [save_store] write               *)
(* ===================================================================== *)

Module JsonFacts.
Import json JsonText.

Lemma append_cons (x : ascii) (a b : string) : String x a +:+ b = String x (a +:+ b).
Proof. reflexivity. Qed.

Lemma append_nil_l (b : string) : "" +:+ b = b.
Proof. reflexivity. Qed.

Lemma append_assoc (a b c : string) : (a +:+ b) +:+ c = a +:+ (b +:+ c).
Proof.
  induction a as [|x a IH]; [reflexivity|].
  rewrite !append_cons, IH. reflexivity.
Qed.

Lemma append_nil_r (a : string) : a +:+ "" = a.
Proof.
  induction a as [|x a IH]; [reflexivity|].
  rewrite append_cons, IH. reflexivity.
Qed.

Lemma length_append (a b : string) :
  String.length (a +:+ b) = (String.length a + String.length b)%nat.
Proof.
  induction a as [|x a IH]; [reflexivity|].
  rewrite append_cons. simpl. rewrite IH. reflexivity.
Qed.

(** *** Strings *)

Ltac each_char c := destruct c as [[] [] [] [] [] [] [] []].

Lemma escape_char_unit (c : ascii) :
  exists u : unit16,
    (forall s, scan_units (escape_char c +:+ s) = cons_unit u (scan_units s))
    /\ (forall us, decode_units (u :: us) = String c (decode_units us)).
Proof.
  each_char c;
    (eexists; split;
     [ intros s; reflexivity
     | intros us; try reflexivity; destruct us as [|[|] ?]; reflexivity ]).
Qed.

Lemma scan_units_escape (k : string) :
  exists us, decode_units us = k
    /\ forall rest, scan_units (escape k +:+ String "034" rest) = Some (us, rest).
Proof.
  induction k as [|c k (us & D & IH)].
  - exists []. split; [reflexivity|]. intros rest. reflexivity.
  - destruct (escape_char_unit c) as (u & Hs & Hd).
    exists (u :: us). split; [rewrite Hd, D; reflexivity|].
    intros rest. cbn [escape]. rewrite append_assoc, Hs, IH. reflexivity.
Qed.

Lemma scan_string_escape (k rest : string) :
  scan_string (escape k +:+ String "034" rest) = Some (k, rest).
Proof.
  destruct (scan_units_escape k) as (us & D & H).
  unfold scan_string. rewrite H, D. reflexivity.
Qed.


(** *** Numbers *)

Lemma munch_text (t r : string) :
  all_chars numberish t = true -> closes r = true -> munch (t +:+ r) = (t, r).
Proof.
  intros Ht Hr. induction t as [|c t IH].
  - rewrite append_nil_l. destruct r as [|c r]; [reflexivity|].
    simpl in Hr |- *. destruct (numberish c); [discriminate | reflexivity].
  - simpl in Ht. apply andb_prop in Ht as [Hc Ht].
    rewrite append_cons. cbn [munch]. rewrite Hc, (IH Ht). reflexivity.
Qed.

Lemma scan_number_text (t r : string) (v : value) :
  all_chars numberish t = true -> closes r = true ->
  number_of_token t = Some v -> scan_number (t +:+ r) = Some (v, r).
Proof.
  intros Ht Hr Hv. unfold scan_number. rewrite (munch_text t r Ht Hr), Hv. reflexivity.
Qed.

Lemma parse_value_number (depth : nat) (s : string) :
  starts_number s = true -> parse_value (S depth) s = scan_number s.
Proof.
  destruct s as [|c s]; [discriminate|].
  unfold starts_number. intros H.
  each_char c; try (cbv in H; discriminate H); reflexivity.
Qed.

Lemma skip_ws_number (s : string) : starts_number s = true -> skip_ws s = s.
Proof.
  destruct s as [|c s]; [discriminate|].
  unfold starts_number. intros H.
  each_char c; try (cbv in H; discriminate H); reflexivity.
Qed.

Lemma starts_number_append (t r : string) :
  starts_number t = true -> starts_number (t +:+ r) = true.
Proof. destruct t as [|c t]; [discriminate|]. intros H. exact H. Qed.

(** One number of a list or a dict, and what follows it. *)
Lemma parse_value_text (depth : nat) (t r : string) (v : value) :
  number_text t = true -> number_of_token t = Some v -> closes r = true ->
  parse_value (S depth) (t +:+ r) = Some (v, r).
Proof.
  intros Ht Hv Hr. unfold number_text in Ht. apply andb_prop in Ht as [H1 H2].
  rewrite parse_value_number by (apply starts_number_append; exact H1).
  apply scan_number_text; assumption.
Qed.

(** *** Integers: [str(z)] is read back as [z] *)

Lemma split_digits_all (d : string) :
  all_chars PyStr.is_digit d = true -> split_digits d = (d, "").
Proof.
  induction d as [|c d IH]; [reflexivity|].
  simpl. intros H. apply andb_prop in H as [Hc Hd].
  rewrite Hc, (IH Hd). reflexivity.
Qed.

Lemma int_of_digits_append (a b : string) (acc : Z) :
  PyStr.int_of_digits (a +:+ b) acc = PyStr.int_of_digits b (PyStr.int_of_digits a acc).
Proof.
  revert acc. induction a as [|c a IH]; intros acc; [reflexivity|].
  rewrite append_cons. simpl. apply IH.
Qed.

Lemma all_chars_append (p : ascii -> bool) (a b : string) :
  all_chars p (a +:+ b) = all_chars p a && all_chars p b.
Proof.
  induction a as [|c a IH]; [reflexivity|].
  rewrite append_cons. simpl. rewrite IH, andb_assoc. reflexivity.
Qed.

Lemma pretty_N_char_digit (r : N) :
  (r < 10)%N ->
  PyStr.is_digit (pretty_N_char r) = true
  /\ Z.of_nat (nat_of_ascii (pretty_N_char r)) - 48 = Z.of_N r
  /\ (r <> 0%N -> Ascii.eqb (pretty_N_char r) "0" = false).
Proof.
  intros H.
  assert (r = 0 \/ r = 1 \/ r = 2 \/ r = 3 \/ r = 4 \/ r = 5 \/ r = 6 \/ r = 7
          \/ r = 8 \/ r = 9)%N as C by lia.
  repeat (destruct C as [->|C]); try subst r;
    (split; [reflexivity | split; [reflexivity | intros N0; try reflexivity; congruence]]).
Qed.

(** The digits of a positive number: no leading zero, and their value. *)
Lemma pretty_N_go_digits (x : N) :
  (0 < x)%N ->
  forall s, exists c d,
    pretty_N_go x s = String c d +:+ s
    /\ Ascii.eqb c "0" = false
    /\ all_chars PyStr.is_digit (String c d) = true
    /\ PyStr.int_of_digits (String c d) 0 = Z.of_N x.
Proof.
  induction (N.lt_wf_0 x) as [x _ IH]. intros Hx s.
  rewrite pretty_N_go_step by exact Hx.
  assert (x `mod` 10 < 10)%N as Hr by (apply N.mod_lt; lia).
  destruct (pretty_N_char_digit _ Hr) as (Dg & Dv & Dz).
  assert (x = 10 * (x `div` 10) + x `mod` 10)%N as Hdm by (apply N.div_mod; lia).
  destruct (N.eq_dec (x `div` 10)%N 0%N) as [E|NE].
  - rewrite E, pretty_N_go_0.
    exists (pretty_N_char (x `mod` 10)), "".
    split; [reflexivity|]. split; [apply Dz; lia|].
    split; [simpl; rewrite Dg; reflexivity|].
    simpl. rewrite Dv. lia.
  - destruct (IH (x `div` 10)%N) with (s := String (pretty_N_char (x `mod` 10)) s)
      as (c & d & Hp & Hc & Hall & Hval).
    + apply N.div_lt; lia.
    + lia.
    + exists c, (d +:+ String (pretty_N_char (x `mod` 10)) "").
      split; [rewrite Hp, !append_cons, append_assoc; reflexivity|].
      split; [exact Hc|].
      split.
      * change (String c (d +:+ String (pretty_N_char (x `mod` 10)) ""))
          with (String c d +:+ String (pretty_N_char (x `mod` 10)) "").
        rewrite all_chars_append, Hall. simpl. rewrite Dg. reflexivity.
      * change (String c (d +:+ String (pretty_N_char (x `mod` 10)) ""))
          with (String c d +:+ String (pretty_N_char (x `mod` 10)) "").
        rewrite int_of_digits_append, Hval. simpl. rewrite Dv. lia.
Qed.

Lemma pretty_positive_digits (p : positive) :
  exists c d,
    pretty p = String c d
    /\ Ascii.eqb c "0" = false
    /\ all_chars PyStr.is_digit (String c d) = true
    /\ PyStr.int_of_digits (String c d) 0 = Z.pos p.
Proof.
  destruct (pretty_N_go_digits (N.pos p)) with (s := "") as (c & d & Hp & Hc & Ha & Hv);
    [lia|].
  exists c, d. split; [|auto].
  unfold pretty, pretty_positive, pretty, pretty_N.
  destruct (decide (N.pos p = 0)%N) as [E|_]; [discriminate E|].
  rewrite Hp, append_nil_r. reflexivity.
Qed.

Lemma digit_starts (c : ascii) (d : string) :
  PyStr.is_digit c = true ->
  number_of_token (String c d) = decimal_value false (String c d)
  /\ number_of_token (String "-" (String c d)) = decimal_value true (String c d)
  /\ numberish c = true /\ number_start c = true.
Proof.
  intros H. each_char c; try (cbv in H; discriminate H); repeat split; reflexivity.
Qed.

Lemma all_digits_numberish (d : string) :
  all_chars PyStr.is_digit d = true -> all_chars numberish d = true.
Proof.
  induction d as [|c d IH]; [reflexivity|].
  simpl. intros H. apply andb_prop in H as [Hc Hd].
  rewrite (IH Hd), andb_true_r. unfold numberish. rewrite Hc. reflexivity.
Qed.

Lemma decimal_value_digits (neg : bool) (c : ascii) (d : string) :
  Ascii.eqb c "0" = false -> all_chars PyStr.is_digit (String c d) = true ->
  decimal_value neg (String c d)
  = Some (JInt (if neg then - PyStr.int_of_digits (String c d) 0
                else PyStr.int_of_digits (String c d) 0)).
Proof.
  intros Hc Ha. unfold decimal_value. rewrite (split_digits_all _ Ha), Hc. reflexivity.
Qed.

Lemma int_text (z : Z) :
  number_text (pretty z) = true /\ number_of_token (pretty z) = Some (JInt z).
Proof.
  destruct z as [|p|p].
  - split; reflexivity.
  - destruct (pretty_positive_digits p) as (c & d & Hp & Hc & Ha & Hv).
    change (pretty (Z.pos p)) with (pretty p). rewrite Hp.
    pose proof Ha as Ha'. simpl in Ha'. apply andb_prop in Ha' as [Dc _].
    destruct (digit_starts c d Dc) as (T1 & _ & N1 & S1).
    split.
    + unfold number_text. simpl starts_number. rewrite S1.
      rewrite (all_digits_numberish _ Ha). reflexivity.
    + rewrite T1, (decimal_value_digits false c d Hc Ha), Hv. reflexivity.
  - destruct (pretty_positive_digits p) as (c & d & Hp & Hc & Ha & Hv).
    change (pretty (Z.neg p)) with ("-" +:+ pretty p). rewrite Hp.
    pose proof Ha as Ha'. simpl in Ha'. apply andb_prop in Ha' as [Dc _].
    destruct (digit_starts c d Dc) as (_ & T2 & N1 & S1).
    split.
    + change (all_chars numberish (String c d) = true).
      apply all_digits_numberish. exact Ha.
    + change ("-" +:+ String c d) with (String "-" (String c d)).
      rewrite T2, (decimal_value_digits true c d Hc Ha), Hv. reflexivity.
Qed.


(** *** Lists of numbers *)

Lemma numeric_text (v : value) :
  numeric v = true ->
  number_text (dumps v) = true /\ number_of_token (dumps v) = Some v.
Proof.
  destruct v as [| | z | f | | |]; try discriminate; intros H.
  - apply int_text.
  - unfold numeric, text_stable in H. apply andb_prop in H as [H1 H2].
    split; [exact H1|].
    change (dumps (JFloat f)) with (float_repr f).
    destruct (number_of_token (float_repr f)) as [[| | | g | | |]|]; try discriminate.
    apply FloatAxioms.Leibniz.eqb_spec in H2. rewrite H2. reflexivity.
Qed.

Lemma join_with_cons {A : Type} (f : A -> string) (x y : A) (l : list A) :
  join_with f (x :: y :: l) = f x +:+ ", " +:+ join_with f (y :: l).
Proof. reflexivity. Qed.

Lemma join_starts_number (v : value) (l : list value) (r : string) :
  numeric v = true -> starts_number (join_with dumps (v :: l) +:+ r) = true.
Proof.
  intros H. destruct (numeric_text v H) as [T _].
  unfold number_text in T. apply andb_prop in T as [T _].
  destruct l as [|y l].
  - apply starts_number_append. exact T.
  - rewrite join_with_cons, append_assoc. apply starts_number_append. exact T.
Qed.

Lemma parse_elements_numbers (depth : nat) (cells : list value) :
  cells <> [] -> forallb numeric cells = true ->
  forall (fuel : nat) (rest : string),
    (length cells <= fuel)%nat ->
    parse_elements (parse_value (S depth)) fuel (join_with dumps cells +:+ String "]" rest)
    = Some (cells, rest).
Proof.
  induction cells as [|v cells IH]; [congruence|].
  intros _ Hall fuel rest Hfuel.
  simpl in Hall. apply andb_prop in Hall as [Hv Hall].
  destruct (numeric_text v Hv) as [T V].
  destruct fuel as [|fuel]; [simpl in Hfuel; lia|].
  destruct cells as [|w cells].
  - cbn [join_with parse_elements].
    rewrite (parse_value_text depth _ _ v T V) by reflexivity.
    reflexivity.
  - rewrite join_with_cons, !append_assoc.
    cbn [parse_elements].
    rewrite (parse_value_text depth _ _ v T V) by reflexivity.
    change (", " +:+ join_with dumps (w :: cells) +:+ String "]" rest)
      with (String "," (String " " (join_with dumps (w :: cells) +:+ String "]" rest))).
    change (skip_ws (String "," (String " " (join_with dumps (w :: cells) +:+ String "]" rest))))
      with (String "," (String " " (join_with dumps (w :: cells) +:+ String "]" rest))).
    cbv iota beta.
    change (skip_ws (String " " (join_with dumps (w :: cells) +:+ String "]" rest)))
      with (skip_ws (join_with dumps (w :: cells) +:+ String "]" rest)).
    assert (forallb numeric (w :: cells) = true) as Hall' by exact Hall.
    simpl in Hall. apply andb_prop in Hall as [Hw _].
    rewrite skip_ws_number by (apply join_starts_number; exact Hw).
    rewrite IH; [reflexivity | discriminate | exact Hall' | simpl in Hfuel |- *; lia].
Qed.

Lemma array_dispatch (depth : nat) (s1 : string) :
  starts_number s1 = true ->
  parse_value (S depth) (String "[" s1)
  = match parse_elements (parse_value depth) (String.length s1) s1 with
    | Some (vs, r) => Some (JArray vs, r)
    | None => None
    end.
Proof.
  destruct s1 as [|c s1]; [discriminate|].
  unfold starts_number. intros H.
  each_char c; try (cbv in H; discriminate H); reflexivity.
Qed.

Lemma join_length (cells : list value) (r : string) :
  forallb numeric cells = true ->
  (length cells <= String.length (join_with dumps cells +:+ r))%nat.
Proof.
  induction cells as [|v cells IH]; intros Hall; [simpl; lia|].
  simpl in Hall. apply andb_prop in Hall as [Hv Hall].
  destruct (numeric_text v Hv) as [T _].
  unfold number_text in T. apply andb_prop in T as [T _].
  destruct (dumps v) as [|c t] eqn:E; [discriminate|].
  destruct cells as [|w cells].
  - cbn [join_with]. rewrite E, length_append. simpl. lia.
  - rewrite join_with_cons, E, !length_append.
    specialize (IH Hall). rewrite length_append in IH. simpl in IH |- *. lia.
Qed.

(** A list of numbers, as [json.dumps] writes it, is read back. *)
Lemma parse_value_numbers (depth : nat) (cells : list value) (rest : string) :
  forallb numeric cells = true ->
  parse_value (S (S depth)) (String "[" (join_with dumps cells +:+ String "]" rest))
  = Some (JArray cells, rest).
Proof.
  intros Hall. destruct cells as [|v cells]; [reflexivity|].
  rewrite array_dispatch.
  - rewrite parse_elements_numbers; [reflexivity | discriminate | exact Hall |].
    apply join_length. exact Hall.
  - simpl in Hall. apply andb_prop in Hall as [Hv _].
    apply join_starts_number. exact Hv.
Qed.

(** *** The members of a dict, one on each line *)

Lemma parse_members_text (depth : nat) (items : list (string * list value)) :
  items <> [] -> forallb (fun kv => forallb numeric (snd kv)) items = true ->
  forall (fuel : nat) (rest : string),
    (length items <= fuel)%nat ->
    parse_members (parse_value (S (S depth))) fuel (members_text items rest)
    = Some (map PriceFile.as_member items, rest).
Proof.
  induction items as [|[k cells] items IH]; [congruence|].
  intros _ Hall fuel rest Hfuel.
  simpl in Hall. apply andb_prop in Hall as [Hnum Hall].
  destruct fuel as [|fuel]; [simpl in Hfuel; lia|].
  cbn [members_text parse_members]. rewrite scan_string_escape.
  change (skip_ws (String ":" ?s)) with (String ":" s).
  cbv iota beta.
  destruct items as [|item items].
  - change (skip_ws (String " " (String "[" ?s))) with (String "[" s).
    rewrite (parse_value_numbers depth cells _ Hnum).
    reflexivity.
  - change (skip_ws (String " " (String "[" ?s))) with (String "[" s).
    rewrite (parse_value_numbers depth cells _ Hnum).
    change (skip_ws (String "," ?s)) with (String "," s).
    cbv iota beta.
    destruct item as [k2 cells2].
    change (skip_ws (String "010" (String " " (String " " ?s)))) with (skip_ws s).
    change (skip_ws (members_text ((k2, cells2) :: items) rest))
      with (members_text ((k2, cells2) :: items) rest).
    rewrite (IH ltac:(discriminate) Hall fuel rest ltac:(simpl in Hfuel |- *; lia)).
    reflexivity.
Qed.


(** A document that is one string, or one list of numbers. *)
Lemma loads_string (s : string) : loads (dumps (JString s)) = Some (JString s).
Proof.
  unfold loads. change (dumps (JString s)) with (String "034" (escape s +:+ String "034" "")).
  cbn [String.length]. change (skip_ws (String "034" ?t)) with (String "034" t).
  cbn [parse_value]. rewrite scan_string_escape. reflexivity.
Qed.

Lemma loads_numbers (cells : list value) :
  forallb numeric cells = true -> loads (dumps (JArray cells)) = Some (JArray cells).
Proof.
  intros Hall. unfold loads.
  change (dumps (JArray cells)) with (String "[" (join_with dumps cells +:+ String "]" "")).
  cbn [String.length]. rewrite length_append. cbn [String.length].
  replace (String.length (join_with dumps cells) + 1)%nat
    with (S (String.length (join_with dumps cells))) by lia.
  change (skip_ws (String "[" ?t)) with (String "[" t).
  rewrite (parse_value_numbers _ cells "" Hall). reflexivity.
Qed.

Lemma members_length (items : list (string * list value)) (rest : string) :
  (length items <= String.length (members_text items rest))%nat.
Proof.
  induction items as [|[k cells] items IH]; [simpl; lia|].
  cbn [members_text]. cbn [String.length]. rewrite length_append. cbn [String.length].
  rewrite length_append.
  destruct items as [|item items]; [simpl; lia|].
  cbn [String.length]. cbn [length] in IH |- *. lia.
Qed.

Lemma object_dispatch (depth : nat) (s1 m : string) :
  skip_ws s1 = m -> (exists t, m = String "034" t) ->
  parse_value (S depth) (String "{" s1)
  = match parse_members (parse_value depth) (String.length m) m with
    | Some (ms, r) => Some (JObject ms, r)
    | None => None
    end.
Proof. intros E [t Hm]. cbn [parse_value]. rewrite E, Hm. reflexivity. Qed.

End JsonFacts.

(** ** Sorting by an order *)

Section SortOrder.
Context {A K : Type}.
Variable key : A -> K.
Variable lt : K -> K -> bool.
Hypothesis lt_asym : forall a b, lt a b = true -> lt b a = false.
Hypothesis lt_chain : forall a b c, lt b a = false -> lt c b = false -> lt c a = false.

Local Abbreviation not_after := (fun x y : A => lt (key y) (key x) = false).

Lemma insert_by_ordered (x : A) (l : list A) :
  StronglySorted not_after l -> StronglySorted not_after (PyList.insert_by key lt x l).
Proof.
  intros Hs. induction Hs as [|y l Hs IH Hy]; simpl.
  - constructor; constructor.
  - destruct (lt (key y) (key x)) eqn:E.
    + constructor; [exact IH|].
      rewrite <- (insert_by_perm key lt x l). constructor; [apply lt_asym; exact E | exact Hy].
    + constructor; [constructor; assumption|].
      constructor; [exact E|].
      eapply List.Forall_impl; [|exact Hy].
      intros z Hz. simpl in Hz |- *. eapply lt_chain; eassumption.
Qed.

Lemma sort_by_ordered (l : list A) : StronglySorted not_after (PyList.sort_by key lt l).
Proof.
  induction l as [|x l IH]; simpl; [constructor|].
  apply insert_by_ordered. exact IH.
Qed.
End SortOrder.

Module PriceFileFacts.
Import json JsonText JsonFacts price_store PriceFile.

(** *** The keys *)

Lemma ltb_false_leb (a b : string) : String.ltb b a = false <-> String.leb a b = true.
Proof.
  unfold String.ltb, String.leb. rewrite (String.compare_antisym b a).
  destruct (String.compare a b); simpl; split; congruence.
Qed.

Lemma ltb_asym (a b : string) : String.ltb a b = true -> String.ltb b a = false.
Proof.
  unfold String.ltb. rewrite (String.compare_antisym b a).
  destruct (String.compare a b); simpl; congruence.
Qed.

Lemma ltb_chain (a b c : string) :
  String.ltb b a = false -> String.ltb c b = false -> String.ltb c a = false.
Proof.
  rewrite !ltb_false_leb. intros H1 H2.
  apply Is_true_true. apply Is_true_true in H1, H2.
  exact (transitivity (R := String.le) H1 H2).
Qed.

Lemma ltb_total (a b : string) : a <> b -> String.ltb b a = false -> String.ltb a b = true.
Proof.
  unfold String.ltb. intros N. rewrite (String.compare_antisym b a).
  destruct (String.compare a b) eqn:E; simpl; try congruence.
  apply String.compare_eq_iff in E. congruence.
Qed.

Section Keys.
Context {V : Type}.
Variable x : gmap string V.

Lemma sorted_keys_perm : Permutation (sorted_keys x) (map fst (map_to_list x)).
Proof. unfold sorted_keys. symmetry. apply sort_by_perm. Qed.

Lemma sorted_keys_NoDup : NoDup (sorted_keys x).
Proof.
  rewrite sorted_keys_perm. exact (NoDup_fst_map_to_list x).
Qed.

Lemma sorted_keys_lookup (k : string) : k ∈ sorted_keys x <-> is_Some (x !! k).
Proof.
  rewrite sorted_keys_perm.
  change (map fst (map_to_list x)) with ((map_to_list x).*1).
  rewrite list_elem_of_fmap. split.
  - intros ([k' v] & -> & Hin). apply elem_of_map_to_list in Hin. exists v. exact Hin.
  - intros [v Hv]. exists (k, v). split; [reflexivity|].
    apply elem_of_map_to_list. exact Hv.
Qed.

Lemma sorted_keys_length : length (sorted_keys x) = size x.
Proof.
  rewrite sorted_keys_perm, length_map. apply length_map_to_list.
Qed.

Lemma sorted_keys_increasing : increasing (sorted_keys x).
Proof.
  unfold increasing.
  pose proof (sort_by_ordered (fun k : string => k) String.ltb ltb_asym ltb_chain
                (map fst (map_to_list x))) as Hs.
  fold (sorted_keys x) in Hs.
  pose proof sorted_keys_NoDup as Hn.
  induction Hs as [|k l Hs IH Hk]; [constructor|].
  apply NoDup_cons in Hn as [Hnotin Hn].
  constructor; [apply IH; exact Hn|].
  rewrite List.Forall_forall in Hk |- *. intros z Hz.
  apply ltb_total; [|apply Hk; exact Hz].
  intros ->. apply Hnotin. apply list_elem_of_In. exact Hz.
Qed.
End Keys.

(** *** The items *)

Section Items.
Variable x : Lists.

Lemma items_of_perm : Permutation (items_of x) (map_to_list x).
Proof.
  unfold items_of. rewrite (Permutation_map _ (sorted_keys_perm x)).
  rewrite List.map_map.
  rewrite (List.map_ext_in _ (fun kv => kv)); [rewrite List.map_id; reflexivity|].
  intros [k v] Hin. apply list_elem_of_In, elem_of_map_to_list in Hin.
  unfold item_of. simpl. rewrite Hin. reflexivity.
Qed.

Lemma items_of_keys : map fst (items_of x) = sorted_keys x.
Proof.
  unfold items_of. rewrite List.map_map. unfold item_of. simpl. apply List.map_id.
Qed.

Lemma items_of_numeric :
  numeric_lists x = true ->
  forallb (fun kv => forallb numeric (snd kv)) (items_of x) = true.
Proof.
  unfold numeric_lists. rewrite !forallb_forall. intros H kv Hin.
  apply H. eapply Permutation_in; [apply items_of_perm | exact Hin].
Qed.

Lemma items_of_members :
  dict_of (map as_member (items_of x)) = JArray <$> x.
Proof.
  unfold dict_of. symmetry. apply list_to_map_flip.
  rewrite map_to_list_fmap, reverse_Permutation.
  change (map as_member (items_of x)) with (as_member <$> items_of x).
  rewrite items_of_perm.
  assert (prod_map id JArray <$> map_to_list x = as_member <$> map_to_list x) as ->;
    [|reflexivity].
  apply Forall_fmap_ext_1, List.Forall_forall. intros [k v] _. reflexivity.
Qed.
End Items.

(** *** The text of the file *)

Ltac flatten := repeat (rewrite append_assoc || rewrite append_cons || rewrite append_nil_l).

Lemma dumps_list (cells : list value) :
  dumps (JArray cells) = String "[" (join_with dumps cells +:+ String "]" "").
Proof. reflexivity. Qed.

Lemma dumps_str_text (k : string) : dumps_str k = String "034" (escape k +:+ String "034" "").
Proof. reflexivity. Qed.

Section Lines.
Variable x : Lists.

Local Abbreviation item := (item_of x).

Lemma write_lines_members (keys : list string) :
  keys <> [] -> Forall (fun k => is_Some (x !! k)) keys ->
  forall (n i : nat) (rest : string),
    n = (i + length keys)%nat ->
    write_lines x n i keys +:+ String "}" rest
    = String " " (String " " (members_text (map item keys) rest)).
Proof.
  induction keys as [|k keys IH]; [congruence|].
  intros _ Hdom n i rest Hn.
  apply List.Forall_cons_iff in Hdom as [[v Hv] Hdom].
  cbn [write_lines map members_text]. unfold item_of at 1. rewrite Hv. cbn [default fst snd].
  rewrite dumps_list, dumps_str_text.
  destruct keys as [|k2 keys].
  - replace (i <? n - 1)%nat with false
      by (symmetry; apply Nat.ltb_ge; simpl in Hn; lia).
    cbn [write_lines map]. flatten. reflexivity.
  - replace (i <? n - 1)%nat with true
      by (symmetry; apply Nat.ltb_lt; simpl in Hn; lia).
    flatten.
    rewrite (IH ltac:(discriminate) Hdom n (S i) rest ltac:(simpl in Hn |- *; lia)).
    reflexivity.
Qed.

Lemma write_lines_lines (keys : list string) :
  Forall (fun k => is_Some (x !! k)) keys ->
  forall (n i : nat),
    n = (i + length keys)%nat ->
    write_lines x n i keys = unlines (lines (map item keys)).
Proof.
  unfold item_of.
  induction keys as [|k keys IH]; [reflexivity|].
  intros Hdom n i Hn.
  apply List.Forall_cons_iff in Hdom as [[v Hv] Hdom].
  cbn [write_lines map lines unlines]. rewrite Hv.
  change (default [] (Some v)) with v.
  rewrite (IH Hdom n (S i) ltac:(simpl in Hn |- *; lia)).
  unfold line.
  destruct keys as [|k2 keys].
  - replace (i <? n - 1)%nat with false
      by (symmetry; apply Nat.ltb_ge; simpl in Hn; lia).
    cbn [map]. flatten. reflexivity.
  - replace (i <? n - 1)%nat with true
      by (symmetry; apply Nat.ltb_lt; simpl in Hn; lia).
    cbn [map]. flatten. reflexivity.
Qed.

Lemma sorted_keys_dom : Forall (fun k => is_Some (x !! k)) (sorted_keys x).
Proof.
  apply List.Forall_forall. intros k Hin.
  apply sorted_keys_lookup, list_elem_of_In. exact Hin.
Qed.

(** The file is its frame and the lines of the items. *)
Lemma save_store_lines :
  save_store x
  = "{" +:+ String "010" "" +:+ unlines (lines (items_of x)) +:+ "}" +:+ String "010" "".
Proof.
  unfold save_store.
  rewrite (write_lines_lines (sorted_keys x) sorted_keys_dom (length (sorted_keys x)) 0 eq_refl).
  reflexivity.
Qed.

Lemma save_store_members :
  sorted_keys x <> [] ->
  save_store x
  = String "{" (String "010" (String " " (String " "
      (members_text (items_of x) (String "010" ""))))).
Proof.
  intros Hne. unfold save_store. flatten.
  rewrite (write_lines_members (sorted_keys x) Hne sorted_keys_dom (length (sorted_keys x)) 0 _ eq_refl).
  reflexivity.
Qed.

Lemma save_store_empty : sorted_keys x = [] -> save_store x = String "{" (String "010" (String "}" (String "010" ""))).
Proof. intros E. unfold save_store. rewrite E. reflexivity. Qed.

(** The decoder reads the file as the dict of the items. *)
Lemma loads_save_store :
  numeric_lists x = true ->
  loads (save_store x) = Some (JObject (map as_member (items_of x))).
Proof.
  intros Hnum. destruct (sorted_keys x) as [|k keys] eqn:E.
  - rewrite (save_store_empty E). unfold items_of. rewrite E. reflexivity.
  - rewrite save_store_members by (rewrite E; discriminate).
    pose proof (items_of_numeric x Hnum) as Hall.
    assert (items_of x <> []) as Hne by (unfold items_of; rewrite E; discriminate).
    destruct (items_of x) as [|[k1 c1] items] eqn:EI; [congruence|].
    unfold loads. cbn [String.length].
    change (skip_ws (String "{" ?s)) with (String "{" s).
    rewrite (object_dispatch _ _ (members_text ((k1, c1) :: items) (String "010" "")));
      [|reflexivity|eexists; reflexivity].
    rewrite parse_members_text.
    + reflexivity.
    + discriminate.
    + exact Hall.
    + apply members_length.
Qed.

End Lines.

(** *** Loading what was saved *)

Lemma load_save_store (x : Lists) :
  numeric_lists x = true ->
  load_store (Some (save_store x)) = Loaded (omap (fun cells => normalise (JArray cells)) x).
Proof.
  intros Hnum. unfold load_store. rewrite (loads_save_store x Hnum).
  rewrite items_of_members. f_equal.
  apply map_eq. intros k. rewrite !lookup_omap, lookup_fmap.
  destruct (x !! k); reflexivity.
Qed.

(** *** One key on each line *)

Lemma escape_char_single (c : ascii) : single_line (escape_char c) = true.
Proof. each_char c; reflexivity. Qed.

Lemma escape_single (k : string) : single_line (escape k) = true.
Proof.
  induction k as [|c k IH]; [reflexivity|].
  cbn [escape]. unfold single_line in *.
  rewrite all_chars_append, IH, andb_true_r. apply escape_char_single.
Qed.

Lemma numberish_single (s : string) : all_chars numberish s = true -> single_line s = true.
Proof.
  induction s as [|c s IH]; [reflexivity|].
  unfold single_line in *. cbn [all_chars]. intros H. apply andb_prop in H as [Hc Hs].
  rewrite (IH Hs), andb_true_r.
  clear -Hc. each_char c; try (cbv in Hc; discriminate Hc); reflexivity.
Qed.

Lemma join_single (cells : list value) :
  forallb numeric cells = true -> single_line (join_with dumps cells) = true.
Proof.
  induction cells as [|v cells IH]; [reflexivity|].
  intros Hall. simpl in Hall. apply andb_prop in Hall as [Hv Hall].
  destruct (numeric_text v Hv) as [T _].
  unfold number_text in T. apply andb_prop in T as [_ T].
  apply numberish_single in T.
  destruct cells as [|w cells]; [exact T|].
  rewrite join_with_cons. unfold single_line in *.
  rewrite all_chars_append, T. flatten. cbn [all_chars].
  rewrite (IH Hall). reflexivity.
Qed.

Lemma line_single (k : string) (cells : list value) (last : bool) :
  forallb numeric cells = true -> single_line (line k cells last) = true.
Proof.
  intros Hall. unfold line. rewrite dumps_list, dumps_str_text. flatten.
  unfold single_line. cbn [all_chars]. rewrite all_chars_append. cbn [all_chars].
  rewrite all_chars_append. cbn [all_chars].
  fold (single_line (escape k)). fold (single_line (join_with dumps cells)).
  rewrite escape_single, (join_single cells Hall).
  destruct last; reflexivity.
Qed.

Lemma lines_single (items : list (string * list value)) :
  forallb (fun kv => forallb numeric (snd kv)) items = true ->
  Forall (fun l => single_line l = true) (lines items).
Proof.
  induction items as [|[k cells] items IH]; [constructor|].
  intros Hall. simpl in Hall. apply andb_prop in Hall as [Hnum Hall].
  cbn [lines]. constructor; [apply line_single; exact Hnum | apply IH; exact Hall].
Qed.

Lemma lines_length (items : list (string * list value)) : length (lines items) = length items.
Proof.
  induction items as [|[k cells] items IH]; [reflexivity|].
  cbn [lines length]. rewrite IH. reflexivity.
Qed.

Lemma items_of_entries (x : Lists) :
  Forall (fun kv => x !! fst kv = Some (snd kv)) (items_of x).
Proof.
  apply List.Forall_forall. intros [k v] Hin.
  apply (Permutation_in _ (items_of_perm x)) in Hin.
  apply elem_of_map_to_list, list_elem_of_In. exact Hin.
Qed.

Lemma normalise_entry_cells (e : Entry) : normalise (JArray (entry_cells e)) = Some e.
Proof. destruct e. reflexivity. Qed.

Lemma normalise_as_lists (s : Store) :
  omap (fun cells => normalise (JArray cells)) (as_lists s) = s.
Proof.
  apply map_eq. intros k. unfold as_lists. rewrite lookup_omap, lookup_fmap.
  destruct (s !! k) as [e|]; [|reflexivity].
  simpl. apply normalise_entry_cells.
Qed.

End PriceFileFacts.


(* ===================================================================== *)
(** * The matcher is sound                                                *)
(* ===================================================================== *)

Module ReFacts.
Import Re ReSem.

(** Every success of the matcher is a match in the sense of [denotes],
    followed by a success of the continuation. *)
Lemma run_sound (ic : bool) (r : regex) :
  forall (c : cursor) (caps : captures) (k : cursor -> captures -> option captures)
         (res : captures),
    run ic r c caps k = Some res ->
    exists c' caps', denotes ic r (c, caps) (c', caps') /\ k c' caps' = Some res.
Proof.
  induction r as [| a | | items | | | r1 IH1 r2 IH2 | r1 IH1 r2 IH2 | r' IH | n r' IH | r' IH];
    intros c caps k res H; cbn [run] in H.
  - exists c, caps. split; [reflexivity | exact H].
  - unfold step1 in H. destruct (rest c) as [|x s'] eqn:E; [discriminate|].
    destruct (lit_eq ic a x) eqn:Ex; [|discriminate].
    exists (Cursor (Some x) s'), caps. split; [|exact H].
    exists x, s'. auto.
  - unfold step1 in H. destruct (rest c) as [|x s'] eqn:E; [discriminate|].
    destruct (negb (Ascii.eqb x "010")) eqn:Ex; [|discriminate].
    exists (Cursor (Some x) s'), caps. split; [|exact H].
    exists x, s'. auto.
  - unfold step1 in H. destruct (rest c) as [|x s'] eqn:E; [discriminate|].
    destruct (in_cls ic items x) eqn:Ex; [|discriminate].
    exists (Cursor (Some x) s'), caps. split; [|exact H].
    exists x, s'. auto.
  - destruct (before c) eqn:E; [discriminate|].
    exists c, caps. split; [split; [exact E | reflexivity] | exact H].
  - destruct (xorb (word_before c) (word_after c)) eqn:E; [|discriminate].
    exists c, caps. split; [split; [exact E | reflexivity] | exact H].
  - apply IH1 in H as (c1 & caps1 & D1 & H).
    apply IH2 in H as (c2 & caps2 & D2 & H).
    exists c2, caps2. split; [exists (c1, caps1); auto | exact H].
  - destruct (run ic r1 c caps k) as [res1|] eqn:E1.
    + injection H as <-. apply IH1 in E1 as (c1 & caps1 & D1 & H).
      exists c1, caps1. split; [left; exact D1 | exact H].
    + apply IH2 in H as (c2 & caps2 & D2 & H).
      exists c2, caps2. split; [right; exact D2 | exact H].
  - revert H. generalize (String.length (rest c)) at 1. intros fuel.
    revert c caps. induction fuel as [|fuel IHf]; intros c caps H.
    + exists c, caps. split; [exists 0%nat; reflexivity | exact H].
    + match type of H with
      | match ?X with _ => _ end = _ => destruct X as [res1|] eqn:E1
      end.
      * injection H as <-. apply IH in E1 as (c1 & caps1 & D1 & H).
        destruct (String.length (rest c1) <? String.length (rest c))%nat; [|discriminate].
        apply IHf in H as (c2 & caps2 & [n D2] & H).
        exists c2, caps2. split; [|exact H].
        exists (S n). exists (c1, caps1). auto.
      * exists c, caps. split; [exists 0%nat; reflexivity | exact H].
  - apply IH in H as (c1 & caps1 & D1 & H).
    exists c1, (set_group n (consumed c c1) caps1). split; [|exact H].
    exists (c1, caps1). auto.
  - destruct (run ic r' c caps _); [discriminate|].
    exists c, caps. split; [reflexivity | exact H].
Qed.

Lemma search_from_sound (ic : bool) (r : regex) (s : string) :
  forall (prev : option ascii) (res : captures),
    search_from ic r prev s = Some res ->
    exists c c', denotes ic r (c, []) (c', res).
Proof.
  induction s as [|x s IH]; intros prev res H; cbn [search_from] in H.
  - destruct (match_at ic r (Cursor prev "")) as [caps|] eqn:E; [|discriminate].
    injection H as <-. unfold match_at in E.
    apply run_sound in E as (c' & caps' & D & [= <-]). eauto.
  - destruct (match_at ic r (Cursor prev (String x s))) as [caps|] eqn:E.
    + injection H as <-. unfold match_at in E.
      apply run_sound in E as (c' & caps' & D & [= <-]). eauto.
    + eapply IH. exact H.
Qed.

(** What [re.search] returns is a match that started with no group set. *)
Lemma search_sound (p : pattern) (s : string) (res : captures) :
  search p s = Some res ->
  exists c c', denotes (ignore_case p) (expr p) (c, []) (c', res).
Proof. apply search_from_sound. Qed.

End ReFacts.

Module ReGroupFacts.
Import Re ReSem ReFacts ReGroups.

Lemma reads_captures (ok : ascii -> bool) (a b : state) : reads ok a b -> snd b = snd a.
Proof. intros (x & s' & _ & _ & ->). reflexivity. Qed.

Lemma iterate_captures (R : state -> state -> Prop) (n : nat) :
  (forall a b, R a b -> snd b = snd a) ->
  forall a b, iterate R n a b -> snd b = snd a.
Proof.
  intros HR. induction n as [|n IH]; intros a b H; cbn [iterate] in H.
  - subst. reflexivity.
  - destruct H as (m & H1 & H2). rewrite (IH _ _ H2). apply HR. exact H1.
Qed.

(** A match of a pattern without groups leaves the groups as they were. *)
Lemma group_free_captures (ic : bool) (r : regex) :
  group_free r = true -> forall a b, denotes ic r a b -> snd b = snd a.
Proof.
  induction r as [| a | | items | | | r1 IH1 r2 IH2 | r1 IH1 r2 IH2 | r' IH | n r' IH | r' IH];
    intros G a0 b H; cbn [denotes group_free] in *;
    try (subst; reflexivity); try (eapply reads_captures; eassumption);
    try (destruct H as [_ <-]; reflexivity).
  - apply andb_prop in G as [G1 G2]. destruct H as (m & H1 & H2).
    rewrite (IH2 G2 _ _ H2). apply (IH1 G1). exact H1.
  - apply andb_prop in G as [G1 G2]. destruct H as [H|H]; [apply (IH1 G1) | apply (IH2 G2)];
      exact H.
  - destruct H as [n H]. eapply iterate_captures; [|exact H]. apply IH. exact G.
  - discriminate.
Qed.

(** The text between two cursors when one, two, three or four characters
    were read. *)
Lemma substring_all (n : nat) (s : string) : String.substring 0 0 s = "".
Proof. destruct s; reflexivity. Qed.

Lemma consumed_prefix (p s : string) (b b' : option ascii) :
  consumed (Cursor b (p +:+ s)) (Cursor b' s) = p.
Proof.
  unfold consumed. cbn [rest].
  replace (String.length (p +:+ s) - String.length s)%nat with (String.length p).
  - induction p as [|x p IH]; [apply (substring_all 0)|].
    change (String x p +:+ s) with (String x (p +:+ s)). cbn [String.length String.substring].
    rewrite IH. reflexivity.
  - rewrite JsonFacts.length_append. lia.
Qed.

Lemma cursor_eta (c : cursor) : c = Cursor (before c) (rest c).
Proof. destruct c; reflexivity. Qed.

Lemma reads_rest (ok : ascii -> bool) (a b : state) :
  reads ok a b ->
  exists x, ok x = true /\ rest (fst a) = String x (rest (fst b)).
Proof. intros (x & s' & E & Hx & ->). exists x. split; [exact Hx | exact E]. Qed.

Lemma in_cls_digit (ic : bool) (x : ascii) :
  in_cls ic [CDigit] x = true -> PyStr.is_digit x = true.
Proof.
  intros H. destruct ic; destruct x as [[] [] [] [] [] [] [] []];
    try (cbv in H; discriminate H); reflexivity.
Qed.

Lemma digit_run_group_free (r : regex) : digit_run r = true -> group_free r = true.
Proof.
  induction r as [| a | | items | | | r1 IH1 r2 IH2 | r1 IH1 r2 IH2 | r' IH | n r' IH | r' IH];
    cbn [digit_run group_free]; intros H; try reflexivity; try discriminate H.
  - apply andb_prop in H as [H1 H2]. rewrite (IH1 H1), (IH2 H2). reflexivity.
  - apply andb_prop in H as [H1 H2]. rewrite (IH1 H1), (IH2 H2). reflexivity.
Qed.

(** A match of a pattern of digits reads digits only. *)
Lemma digit_run_text (ic : bool) (r : regex) :
  digit_run r = true ->
  forall a b, denotes ic r a b ->
    exists p, rest (fst a) = p +:+ rest (fst b)
              /\ JsonText.all_chars PyStr.is_digit p = true.
Proof.
  induction r as [| a | | items | | | r1 IH1 r2 IH2 | r1 IH1 r2 IH2 | r' IH | n r' IH | r' IH];
    cbn [digit_run]; intros G a0 b H; try discriminate G.
  - cbn [denotes] in H. subst b. exists "". split; reflexivity.
  - destruct items as [|[] [|]]; try discriminate G.
    cbn [denotes] in H. apply reads_rest in H as (x & Hx & E).
    exists (String x ""). split; [exact E|].
    cbn. rewrite (in_cls_digit ic x Hx). reflexivity.
  - apply andb_prop in G as [G1 G2]. cbn [denotes] in H. destruct H as (m & H1 & H2).
    destruct (IH1 G1 _ _ H1) as (p1 & E1 & D1).
    destruct (IH2 G2 _ _ H2) as (p2 & E2 & D2).
    exists (p1 +:+ p2). split.
    + rewrite E1, E2, JsonFacts.append_assoc. reflexivity.
    + rewrite JsonFacts.all_chars_append, D1, D2. reflexivity.
  - apply andb_prop in G as [G1 G2]. cbn [denotes] in H.
    destruct H as [H|H]; [apply (IH1 G1 _ _ H) | apply (IH2 G2 _ _ H)].
Qed.

Lemma int_of_digits_nonneg (p : string) (acc : Z) :
  JsonText.all_chars PyStr.is_digit p = true -> 0 <= acc -> 0 <= PyStr.int_of_digits p acc.
Proof.
  revert acc. induction p as [|x p IH]; intros acc Hd Ha; [exact Ha|].
  cbn [JsonText.all_chars] in Hd. apply andb_prop in Hd as [Hx Hp].
  cbn [PyStr.int_of_digits]. apply IH; [exact Hp|].
  unfold PyStr.is_digit in Hx. apply andb_prop in Hx as [H1 H2].
  apply Nat.leb_le in H1. lia.
Qed.

(** The first group of a match of a pattern that starts with a group of
    digits and sets no other group is a text of digits. *)
Lemma leading_digit_group (ic : bool) (r tail : regex) (s g : string) :
  digit_run r = true -> group_free tail = true ->
  search_group1 (Pattern ic (Seq (Group 1 r) tail)) s = Some g ->
  JsonText.all_chars PyStr.is_digit g = true.
Proof.
  intros Gr Gt. unfold search_group1.
  destruct (search _ s) as [res|] eqn:E; [|discriminate].
  apply search_sound in E as (c & c' & D).
  cbn [ignore_case expr denotes] in D.
  destruct D as (m1 & (m & Dr & ->) & Dt).
  apply (group_free_captures ic tail Gt) in Dt. cbn [snd] in Dt. subst res.
  pose proof (group_free_captures ic r (digit_run_group_free r Gr) _ _ Dr) as Sm.
  cbn [snd] in Sm. rewrite Sm. cbn [set_group group Nat.eqb]. intros [= <-].
  destruct (digit_run_text ic r Gr _ _ Dr) as (p & Ep & Dp). cbn [fst] in Ep.
  rewrite (cursor_eta c), (cursor_eta (fst m)), Ep, consumed_prefix. exact Dp.
Qed.

End ReGroupFacts.

(* ===================================================================== *)
(** * The reasons of a prospect score                                     *)
(* ===================================================================== *)

Module ScoreStepFacts.
Import prospect_score ScoreSteps.

(** [additive_signals] is the chain of the steps. *)
Lemma additive_signals_steps (cfg : Config) (now : float) (listing : Listing)
    (fmv_floor dealer_value total : float) :
  additive_signals cfg now listing fmv_floor dealer_value total
  = urgency_step listing
      (premium_step cfg now listing fmv_floor total
         (grade_step cfg (title listing)
            (underdescribed_step cfg (title listing)
               (hype_step cfg (title listing)
                  (bid_step (bids listing)
                     (gap_step fmv_floor total
                        (dealer_step dealer_value total (50, [])))))))).
Proof. reflexivity. Qed.

Lemma in_bump (t : string) (delta : Z) (tag : string) (acc : Acc) :
  In t (snd (bump delta tag acc)) <-> In t (snd acc) \/ t = tag.
Proof.
  unfold bump. cbn [snd]. rewrite List.in_app_iff. cbn [In]. intuition congruence.
Qed.

(** A step that keeps the reasons or adds one tag of a list. *)
Definition adds (tags : list string) (f : Acc -> Acc) : Prop :=
  forall acc t, (In t (snd acc) -> In t (snd (f acc)))
                /\ (In t (snd (f acc)) -> In t (snd acc) \/ In t tags).

Lemma adds_dealer (dv total : float) : adds plain_tags (dealer_step dv total).
Proof.
  intros acc t. unfold dealer_step. cbv zeta.
  repeat match goal with |- context [if ?b then _ else _] => destruct b end;
    rewrite in_bump; split; try tauto; intros [H | ->]; auto; right; cbn; tauto.
Qed.

Lemma dealer_nonempty (dv total : float) (acc : Acc) : snd (dealer_step dv total acc) <> [].
Proof.
  unfold dealer_step. cbv zeta.
  repeat match goal with |- context [if ?b then _ else _] => destruct b end;
    unfold bump; cbn [snd]; destruct (snd acc); discriminate.
Qed.

Lemma adds_gap (fmv total : float) : adds plain_tags (gap_step fmv total).
Proof.
  intros acc t. unfold gap_step. cbv zeta.
  repeat match goal with |- context [if ?b then _ else _] => destruct b end;
    rewrite ?in_bump; split; try tauto; intros [H | ->]; auto; right; cbn; tauto.
Qed.

Lemma adds_bid (bids : Z) : adds plain_tags (bid_step bids).
Proof.
  intros acc t. unfold bid_step.
  repeat match goal with |- context [if ?b then _ else _] => destruct b end;
    rewrite ?in_bump; split; try tauto; intros [H | ->]; auto; right; cbn; tauto.
Qed.

Lemma adds_hype (cfg : Config) (title : string) : adds plain_tags (hype_step cfg title).
Proof.
  intros acc t. unfold hype_step.
  destruct (has_any title _); rewrite ?in_bump; split; try tauto;
    intros [H | ->]; auto; right; cbn; tauto.
Qed.

Lemma adds_underdescribed (cfg : Config) (title : string) :
  adds plain_tags (underdescribed_step cfg title).
Proof.
  intros acc t. unfold underdescribed_step.
  destruct (has_any title _); rewrite ?in_bump; split; try tauto;
    intros [H | ->]; auto; right; cbn; tauto.
Qed.

Lemma adds_urgency (listing : Listing) : adds plain_tags (urgency_step listing).
Proof.
  intros acc t. unfold urgency_step. cbv zeta.
  destruct (_ || _); rewrite ?in_bump; split; try tauto;
    intros [H | ->]; auto; right; cbn; tauto.
Qed.

Lemma adds_grade (cfg : Config) (title : string) :
  adds ["high-grade-signals"] (grade_step cfg title).
Proof.
  intros acc t. unfold grade_step.
  destruct (has_any title _); rewrite ?in_bump; split; try tauto;
    intros [H | ->]; auto; right; cbn; tauto.
Qed.

Lemma adds_premium (cfg : Config) (now : float) (listing : Listing) (fmv total : float) :
  adds ["premium-terms-priced-like-raw"] (premium_step cfg now listing fmv total).
Proof.
  intros acc t. unfold premium_step. cbv zeta.
  repeat match goal with |- context [if ?b then _ else _] => destruct b end;
    rewrite ?in_bump; split; try tauto; intros [H | ->]; auto; right; cbn; tauto.
Qed.

(** The premium tag is added only to reasons that hold the grade tag. *)
Lemma premium_after_grade (cfg : Config) (now : float) (listing : Listing)
    (fmv total : float) (acc : Acc) :
  In "premium-terms-priced-like-raw"
     (snd (premium_step cfg now listing fmv total (grade_step cfg (title listing) acc))) ->
  In "premium-terms-priced-like-raw" (snd acc)
  \/ In "high-grade-signals" (snd (grade_step cfg (title listing) acc)).
Proof.
  unfold premium_step, grade_step. cbv zeta.
  destruct (has_any (title listing) (PROS_HIGH_GRADE_KEYWORDS cfg)).
  - intros _. right. apply in_bump. right. reflexivity.
  - intros H. left. exact H.
Qed.

Lemma adds_compose (tags1 tags2 : list string) (f g : Acc -> Acc) :
  adds tags1 f -> adds tags2 g -> adds (tags1 ++ tags2) (fun acc => g (f acc)).
Proof.
  intros Hf Hg acc t. destruct (Hf acc t) as [F1 F2], (Hg (f acc) t) as [G1 G2].
  split; [auto|]. intros H. rewrite List.in_app_iff.
  destruct (G2 H) as [H'|H']; [destruct (F2 H'); auto | auto].
Qed.

(** The steps before the grade step add plain tags only. *)
Lemma adds_before_grade (cfg : Config) (listing : Listing) (fmv dv total : float) :
  adds plain_tags
    (fun acc =>
       underdescribed_step cfg (title listing)
         (hype_step cfg (title listing)
            (bid_step (bids listing) (gap_step fmv total (dealer_step dv total acc))))).
Proof.
  intros acc t.
  destruct (adds_dealer dv total acc t) as [A1 A2].
  destruct (adds_gap fmv total (dealer_step dv total acc) t) as [B1 B2].
  destruct (adds_bid (bids listing) (gap_step fmv total (dealer_step dv total acc)) t)
    as [C1 C2].
  destruct (adds_hype cfg (title listing)
              (bid_step (bids listing) (gap_step fmv total (dealer_step dv total acc))) t)
    as [D1 D2].
  destruct (adds_underdescribed cfg (title listing)
              (hype_step cfg (title listing)
                 (bid_step (bids listing)
                    (gap_step fmv total (dealer_step dv total acc)))) t)
    as [E1 E2].
  split; [intros H; apply E1, D1, C1, B1, A1, H|]. intros H.
  destruct (E2 H) as [H1|H1]; [|tauto].
  destruct (D2 H1) as [H2|H2]; [|tauto].
  destruct (C2 H2) as [H3|H3]; [|tauto].
  destruct (B2 H3) as [H4|H4]; [|tauto].
  destruct (A2 H4) as [H5|H5]; tauto.
Qed.

Lemma not_plain (t : string) :
  In t ("premium-terms-priced-like-raw" :: "high-grade-signals" :: gate_tags) ->
  ~ In t plain_tags.
Proof.
  intros Ht Hp. cbn in Ht.
  repeat (destruct Ht as [<-|Ht]; [cbn in Hp; intuition discriminate|]).
  contradiction.
Qed.

(** The reasons of the additive part: never empty, no name of a gate, and
    the premium tag only after the grade tag. *)
Lemma additive_reasons (cfg : Config) (now : float) (listing : Listing)
    (fmv dv total : float) :
  let rs := snd (additive_signals cfg now listing fmv dv total) in
  rs <> []
  /\ (In "premium-terms-priced-like-raw" rs -> In "high-grade-signals" rs)
  /\ (forall g, In g gate_tags -> ~ In g rs).
Proof.
  rewrite additive_signals_steps. cbv zeta.
  set (x := underdescribed_step cfg (title listing)
              (hype_step cfg (title listing)
                 (bid_step (bids listing)
                    (gap_step fmv total (dealer_step dv total (50, [])))))).
  pose proof (adds_before_grade cfg listing fmv dv total (50, [])) as Hx. fold x in Hx.
  set (y := grade_step cfg (title listing) x).
  pose proof (adds_grade cfg (title listing) x) as Hy. fold y in Hy.
  set (z := premium_step cfg now listing fmv total y).
  pose proof (adds_premium cfg now listing fmv total y) as Hz. fold z in Hz.
  pose proof (adds_urgency listing z) as Hu.
  split; [|split].
  - pose proof (dealer_nonempty dv total (50, [])) as Hd.
    destruct (snd (dealer_step dv total (50, []))) as [|t l] eqn:Ed; [congruence|].
    assert (Ht : In t (snd (urgency_step listing z))).
    { apply Hu, Hz, Hy. unfold x.
      apply adds_underdescribed, adds_hype, adds_bid, adds_gap. rewrite Ed. left. reflexivity. }
    intros E. rewrite E in Ht. exact Ht.
  - intros H. apply Hu in H as [H|H]; [|exfalso; revert H; apply not_plain; cbn; tauto].
    apply Hu, Hz. apply premium_after_grade in H as [H|H]; [|exact H].
    exfalso. apply Hx in H as [[]|H]. revert H.
    apply not_plain; cbn; tauto.
  - intros g Hg H.
    assert (Hn : ~ In g plain_tags) by (apply not_plain; cbn in Hg |- *; tauto).
    apply Hu in H as [H|H]; [|tauto].
    apply Hz in H as [H|H];
      [|cbn in H, Hg; destruct H as [<-|[]]; intuition discriminate].
    apply Hy in H as [H|H];
      [|cbn in H, Hg; destruct H as [<-|[]]; intuition discriminate].
    apply Hx in H as [[]|H]. apply Hn, H.
Qed.

End ScoreStepFacts.


(** ** Melt valuation *)

Section MeltValuation.
Import silver_math.

Lemma positive_not_le_zero (x : float) : (0 <? x)%float = true -> (x <=? 0)%float = false.
Proof. apply ltb_leb_false. Qed.

Lemma positive_truthy (x : float) : (0 <? x)%float = true -> PyFloat.truthy x = true.
Proof.
  intros H. unfold PyFloat.truthy. destruct (x =? 0)%float eqn:E; [|reflexivity].
  apply eqb_zero_frank in E.
  destruct (ltb_true_numbers _ _ H) as [H0 Hx].
  rewrite ltb_frank in H by assumption. apply Z.ltb_lt in H.
  rewrite E in H. change (frank 0) with 0 in H. lia.
Qed.







End MeltValuation.

(** ** Price memory *)

Section PriceMemory.
Import price_store silver_monitor Scenarios.

Lemma eqb_zero_cases (x : float) :
  (x =? 0)%float = true -> x = PrimFloat.zero \/ x = PrimFloat.neg_zero.
Proof.
  rewrite FloatAxioms.eqb_spec. unfold SFeqb. intros H.
  assert (E : exists s, Prim2SF x = S754_zero s).
  { change (Prim2SF 0) with (S754_zero false) in H.
    destruct (Prim2SF x) as [s|s| |s m e]; try discriminate H;
      [eauto | destruct s; discriminate H | destruct s; discriminate H]. }
  destruct E as [s E]. apply (f_equal SF2Prim) in E.
  rewrite SF2Prim_Prim2SF in E. subst x. destruct s; auto.
Qed.

(** [1.0 + (b or 0.0)] is [1.0 + b]: the default only replaces a zero. *)
Lemma one_plus_or_default (b : float) :
  (1.0 + PyFloat.or_default b 0.0)%float = (1.0 + b)%float.
Proof.
  unfold PyFloat.or_default, PyFloat.truthy.
  destruct (b =? 0)%float eqn:E; [|reflexivity].
  destruct (eqb_zero_cases b E) as [-> | ->]; reflexivity.
Qed.

(** C2 (amended): an eligible [update_price] call (non-empty key, at least
    one bid, a price that is not <= 0) returns True and stores for the key
    an entry with, for bumped = total_price * (1 + bump_pct):
    ema_price = round(bumped, 2), samples = 1, observers_total = bid_count
    when the key was absent; ema_price = round(alpha * bumped
    + (1 - alpha) * prior_ema, 2), samples and observers_total increased by
    1 and by bid_count when it was present; in both cases
    last_total_price = round(bumped, 2) and last_updated = now. *)
Theorem C2_update_price_rounded_ema (cfg : Config) (ts : Z) (store : gmap string Entry)
    (key : string) (total_price : float) (bid_count : Z) :
  key <> "" -> 1 <= bid_count -> (total_price <=? 0)%float = false ->
  let bumped := (total_price * (1.0 + PRICE_CAPTURE_BUMP_PCT cfg))%float in
  let alpha := EMA_ALPHA cfg in
  exists e store',
    update_price cfg ts store key (Some total_price) bid_count = (true, store')
    /\ store' !! key = Some e
    /\ (forall k, k <> key -> store' !! k = store !! k)
    /\ match store !! key with
       | None =>
           ema_price e = PyFloat.py_round bumped 2
           /\ samples e = 1 /\ observers_total e = bid_count
       | Some p =>
           ema_price e = PyFloat.py_round (alpha * bumped + (1.0 - alpha) * ema_price p)%float 2
           /\ samples e = samples p + 1
           /\ observers_total e = observers_total p + bid_count
       end
    /\ last_total_price e = PyFloat.py_round bumped 2
    /\ last_updated e = ts.
Proof.
  intros Hk Hb Hp bumped alpha.
  unfold update_price.
  replace (PyStr.nonempty key) with true by (destruct key; [congruence | reflexivity]).
  replace (bid_count <? 1) with false by (symmetry; apply Z.ltb_ge; lia).
  rewrite andb_false_r, Hp. cbn [negb].
  rewrite one_plus_or_default. fold bumped. fold alpha.
  eexists. eexists. split; [reflexivity|].
  split; [apply lookup_insert_eq|].
  split; [intros k Hne; apply lookup_insert_ne; congruence|].
  unfold update_ema_entry.
  destruct (store !! key) as [p|]; cbn; repeat split.
Qed.

(** Scenario B: the first capture of "Morgan Dollar|1921|P" at 50 with 2
    bids stores ema_price = 54.0, samples = 1, observers_total = 2. *)
Lemma C2_scenario_B :
  key_B <> "" /\ 1 <= 2 /\ (50.0 <=? 0)%float = false
  /\ exists e store',
       update_price ConfigValues.config 1765618492 ∅ key_B (Some 50.0%float) 2 = (true, store')
       /\ store' !! key_B = Some e
       /\ ema_price e = 54.0%float /\ samples e = 1 /\ observers_total e = 2
       /\ last_total_price e = 54.0%float /\ last_updated e = 1765618492.
Proof.
  assert (Hk : key_B <> "") by discriminate.
  assert (Hb : 1 <= 2) by lia.
  assert (Hp : (50.0 <=? 0)%float = false) by reflexivity.
  split; [exact Hk|]. split; [exact Hb|]. split; [exact Hp|].
  destruct (C2_update_price_rounded_ema ConfigValues.config 1765618492 ∅ key_B 50.0 2 Hk Hb Hp)
    as (e & store' & Hu & He & _ & Hm & Hl & Ht).
  exists e, store'. rewrite lookup_empty in Hm. destruct Hm as (Hm1 & Hm2 & Hm3).
  repeat split; assumption.
Defined.

(** C2, counterexample: a first capture at 10.01 stores the rounded 10.81,
    not the bumped price 10.8108. *)
Lemma C2_counterexample :
  exists e,
    snd (update_price ConfigValues.config 1765618492 ∅ key_B (Some 10.01%float) 2) !! key_B
      = Some e
    /\ ~ Spec.ema_update_unrounded (PRICE_CAPTURE_BUMP_PCT ConfigValues.config)
           (EMA_ALPHA ConfigValues.config) 1765618492 None 10.01 2 e.
Proof.
  eexists. split.
  - cbn [update_price snd]. unfold update_price. cbn. apply lookup_insert_eq.
  - intros ((H & _) & _). vm_compute in H.
    apply (f_equal Prim2SF) in H. vm_compute in H. discriminate H.
Qed.

End PriceMemory.

Section CaptureGate.
Import price_store silver_monitor Scenarios.









End CaptureGate.

(** ** The hit engine: HIT and PROS *)

Section HitEngine.
Import silver_math numismatic_rules hit_engine Scenarios.

(** The configuration as far as the melt figures read it. *)
Lemma calc_silver_melt_settings (c c' : Config) (l : Listing) :
  SPOT_PRICE c' = SPOT_PRICE c -> PAWN_PAYOUT_PCT c' = PAWN_PAYOUT_PCT c ->
  BID_OFFSET c' = BID_OFFSET c -> MIN_MARGIN_PCT c' = MIN_MARGIN_PCT c ->
  calc_silver c' l None None None = calc_silver c l None None None.
Proof.
  intros H1 H2 H3 H4. unfold calc_silver. cbn [default].
  rewrite H1, H2, H3, H4. reflexivity.
Qed.

Lemma evaluate_one_is_hit (env : Env) (lst : Listing) :
  is_hit (evaluate_one env lst)
  = (total_price lst <=? rec_max_total (calc_silver (cfg env) lst None None None))%float.
Proof.
  unfold evaluate_one.
  destruct (check_numismatic_override _) as [o|];
    [destruct (resolve_fmv env _ _ _) as [f s]|]; reflexivity.
Qed.

(** C4: [is_hit] is exactly [total_price <= rec_max_total], where
    [rec_max_total] is the figure of [calc_silver] (always present); it is
    the same for any two environments that agree on the four melt settings
    (spot price, pawn payout, bid offset, minimum margin), whatever their
    price file, static floors, clock, dealer payout and prospect settings. *)
Theorem C4_hit_is_melt_only (env : Env) (lst : Listing) :
  is_hit (evaluate_one env lst)
  = (total_price lst <=? rec_max_total (calc_silver (cfg env) lst None None None))%float
  /\ forall env' : Env,
       SPOT_PRICE (cfg env') = SPOT_PRICE (cfg env) ->
       PAWN_PAYOUT_PCT (cfg env') = PAWN_PAYOUT_PCT (cfg env) ->
       BID_OFFSET (cfg env') = BID_OFFSET (cfg env) ->
       MIN_MARGIN_PCT (cfg env') = MIN_MARGIN_PCT (cfg env) ->
       is_hit (evaluate_one env' lst) = is_hit (evaluate_one env lst).
Proof.
  split; [apply evaluate_one_is_hit|].
  intros env' H1 H2 H3 H4. rewrite !evaluate_one_is_hit.
  rewrite (calc_silver_melt_settings (cfg env) (cfg env') lst H1 H2 H3 H4). reflexivity.
Qed.

(** The 1921 Morgan at 40 is a prospect with the price file and no prospect
    without it, and a melt miss both times. *)
Lemma C4_numismatic_inputs_do_not_move_hit :
  is_prospect (evaluate_one env_morgan morgan_40) = true
  /\ is_prospect (evaluate_one env_strict morgan_40) = false
  /\ is_hit (evaluate_one env_morgan morgan_40) = false
  /\ is_hit (evaluate_one env_strict morgan_40) = is_hit (evaluate_one env_morgan morgan_40).
Proof.
  split; [vm_compute; reflexivity|]. split; [vm_compute; reflexivity|].
  split; [vm_compute; reflexivity|].
  apply (C4_hit_is_melt_only env_morgan morgan_40); reflexivity.
Defined.

End HitEngine.

Section ProspectGate.
Import silver_math numismatic_rules numismatic_defaults hit_engine Scenarios.

(** Comparing with [x or 0.0] is comparing with [x]: the two zeros compare
    alike. *)
Lemma leb_or_default (c x : float) :
  (c <=? PyFloat.or_default x 0.0)%float = (c <=? x)%float.
Proof.
  unfold PyFloat.or_default, PyFloat.truthy.
  destruct (x =? 0)%float eqn:E; [|reflexivity]. cbn [negb].
  destruct (eqb_zero_cases x E) as [-> | ->]; [reflexivity|].
  rewrite !FloatAxioms.leb_spec.
  change (Prim2SF 0.0) with (S754_zero false).
  change (Prim2SF PrimFloat.neg_zero) with (S754_zero true).
  destruct (Prim2SF c) as [s|s| |s m e]; reflexivity.
Qed.

Lemma evaluate_one_is_prospect (env : Env) (lst : Listing) :
  is_prospect (evaluate_one env lst)
  = let lst' := enrich_listing_silver_fields lst in
    let fmv_floor :=
      match check_numismatic_override (title lst) with
      | Some o => fst (resolve_fmv env (coin_type o) (year o) (mint o))
      | None => None
      end in
    let dealer := option_map (dealer_economics (cfg env) lst') fmv_floor in
    prospect_gate env lst' fmv_floor (option_map dealer_value dealer)
      (dealer ≫= dealer_margin_pct).
Proof.
  unfold evaluate_one. cbn [title enrich_listing_silver_fields].
  destruct (check_numismatic_override _) as [o|];
    [destruct (resolve_fmv env _ _ _) as [f s]|]; reflexivity.
Qed.

(** C5: [is_prospect] is True only if a numismatic override resolved with an
    FMV floor, the total price passes the spend cap (150.0 when the setting
    is missing, none when it is None), the dealer margin reaches the
    configured minimum or the score's reasons contain
    "premium-terms-priced-like-raw", and the score reaches the configured
    minimum.  When the FMV floor does not resolve, [is_prospect] is False;
    [_resolve_fmv] returns (None, None) when the price file has no entry for
    the key and the static table has no floor for it. *)
Theorem C5_prospect_needs_every_gate (env : Env) (lst : Listing) :
  (is_prospect (evaluate_one env lst) = true ->
   exists o fmv,
     check_numismatic_override (title lst) = Some o
     /\ fst (resolve_fmv env (coin_type o) (year o) (mint o)) = Some fmv
     /\ let dv := (fmv * (NUMISMATIC_PAYOUT_PCT (cfg env) / 100.0))%float in
        let dm := (((dv - total_price lst) / total_price lst) * 100.0)%float in
        let ps := prospect_score.score_prospect (cfg env) (now env)
                    (enrich_listing_silver_fields lst) (Some fmv) (Some dv) in
        match default (Some 150.0%float) (PROS_MAX_TOTAL (cfg env)) with
        | None => True
        | Some cap => (total_price lst <=? cap)%float = true
        end
        /\ ((PROS_MIN_DEALER_MARGIN_PCT (cfg env) <=? dm)%float = true
            \/ In "premium-terms-priced-like-raw" (prospect_score.reasons ps))
        /\ PROS_MIN_SCORE (cfg env) <= prospect_score.score ps)
  /\ ((forall o, check_numismatic_override (title lst) = Some o ->
         resolve_fmv env (coin_type o) (year o) (mint o) = (None, None)) ->
      is_prospect (evaluate_one env lst) = false)
  /\ (forall coin_type year mint,
        store env !! make_key coin_type year mint = None ->
        dict_get (static_defaults env) (KStr (make_key coin_type year mint)) = None ->
        resolve_fmv env coin_type year mint = (None, None)).
Proof.
  split; [|split].
  - rewrite evaluate_one_is_prospect. cbv zeta.
    destruct (check_numismatic_override (title lst)) as [o|]; [|discriminate].
    destruct (fst (resolve_fmv env _ _ _)) as [fmv|] eqn:Ef; [|discriminate].
    cbn [option_map mbind option_bind dealer_value dealer_margin_pct dealer_economics].
    unfold prospect_gate.
    cbn [total_price enrich_listing_silver_fields].
    destruct (0 <? PyFloat.or_default (total_price lst) 0)%float eqn:Et; [|discriminate].
    assert (Hpos : (0 <? total_price lst)%float = true).
    { unfold PyFloat.or_default in Et. destruct (PyFloat.truthy (total_price lst));
        [exact Et | discriminate Et]. }
    rewrite Hpos.
    intros H. exists o, fmv. split; [reflexivity|]. split; [exact Ef|].
    destruct (default (Some 150.0%float) (PROS_MAX_TOTAL (cfg env))) as [cap|].
    + destruct (total_price lst <=? cap)%float; [|discriminate H].
      apply andb_prop in H as [Hor Hs]. split; [reflexivity|]. split.
      * apply orb_prop in Hor as [Hb|Hc].
        -- left. rewrite leb_or_default in Hb. exact Hb.
        -- right. apply existsb_exists in Hc as (x & Hx & Hex).
           apply String.eqb_eq in Hex. subst x. exact Hx.
      * apply Z.leb_le. exact Hs.
    + apply andb_prop in H as [Hor Hs]. split; [exact I|]. split.
      * apply orb_prop in Hor as [Hb|Hc].
        -- left. rewrite leb_or_default in Hb. exact Hb.
        -- right. apply existsb_exists in Hc as (x & Hx & Hex).
           apply String.eqb_eq in Hex. subst x. exact Hx.
      * apply Z.leb_le. exact Hs.
  - intros Hnone. rewrite evaluate_one_is_prospect. cbv zeta.
    destruct (check_numismatic_override (title lst)) as [o|] eqn:Eo; [|reflexivity].
    rewrite (Hnone o eq_refl). reflexivity.
  - intros coin_type year mint Hs Hd. unfold resolve_fmv.
    unfold price_store.get_ema_value_and_observers, price_store.lookup_ema,
      price_store.lookup_observers.
    rewrite Hs, Hd. reflexivity.
Qed.

(** Scenario C and the positive case: the Morgan at 40 passes every gate
    with the price file that knows it; on an empty price file
    [_resolve_fmv("Morgan Dollar", 1921, "P")] is (None, None) and the
    listing is no prospect. *)
Lemma C5_scenario_C :
  is_prospect (evaluate_one env_morgan morgan_40) = true
  /\ (exists o fmv,
        check_numismatic_override (title morgan_40) = Some o
        /\ fst (resolve_fmv env_morgan (coin_type o) (year o) (mint o)) = Some fmv)
  /\ resolve_fmv fresh_env "Morgan Dollar" 1921 "P" = (None, None)
  /\ is_prospect (evaluate_one fresh_env morgan_40) = false.
Proof.
  assert (Hp : is_prospect (evaluate_one env_morgan morgan_40) = true)
    by (vm_compute; reflexivity).
  destruct (C5_prospect_needs_every_gate env_morgan morgan_40) as (H1 & _ & _).
  destruct (H1 Hp) as (o & fmv & Ho & Hf & _).
  destruct (C5_prospect_needs_every_gate fresh_env morgan_40) as (_ & H2 & H3).
  split; [exact Hp|]. split; [exists o, fmv; split; assumption|].
  split; [apply H3; vm_compute; reflexivity|].
  apply H2. intros o' Ho'. apply H3; vm_compute; reflexivity.
Defined.

End ProspectGate.

(** ** Prospect score *)

Section ProspectScore.
Import prospect_score Scenarios.

(** C6: the score of [score_prospect] lies in [0, 100]; when the title has
    a hard disqualifier (a keyword or a pattern match) the score is 0 and
    the reasons are a single tag: the keyword tag or the pattern tag once
    the anchors are present and the price is positive, and the missing-anchor
    tag of the first gate otherwise.  No other signal is applied, whatever
    the dealer margin, the FMV gap or the bid count. *)
Theorem C6_score_range_and_hard_disqualify (cfg : Config) (now : float) (lst : Listing)
    (fmv_floor dealer_value : option float) :
  let ps := score_prospect cfg now lst fmv_floor dealer_value in
  0 <= score ps <= 100
  /\ (Spec.hard_disqualified cfg (title lst) = true ->
      score ps = 0
      /\ (reasons ps = ["missing-anchors"]
          \/ reasons ps = ["pros-hard-disqualify-keyword"]
          \/ reasons ps = ["pros-hard-disqualify-regex"])
      /\ (forall f d,
            fmv_floor = Some f -> dealer_value = Some d ->
            (PyFloat.or_default (total_price lst) 0.0 <=? 0)%float = false ->
            reasons ps = ["pros-hard-disqualify-keyword"]
            \/ reasons ps = ["pros-hard-disqualify-regex"])).
Proof.
  intros ps. unfold ps, score_prospect, Spec.hard_disqualified.
  destruct fmv_floor as [f|], dealer_value as [d|];
    try (cbn; split; [lia|]; intros _; repeat split; auto; intros; discriminate).
  destruct (_ <=? 0)%float eqn:Et.
  { cbn. split; [lia|]. intros _. repeat split; auto. intros; discriminate. }
  destruct (has_any _ _) eqn:Ek.
  { cbn. split; [lia|]. intros _. repeat split; auto. }
  destruct (matches_any_regex _ _) eqn:Er.
  { cbn. split; [lia|]. intros _. repeat split; auto. }
  cbn [score reasons orb]. split; [lia|]. intros H. discriminate H.
Qed.

Lemma C6_holed_bargain_scores_zero :
  Spec.hard_disqualified ConfigValues.config (title holed_bargain) = true
  /\ score (score_prospect ConfigValues.config 0.0 holed_bargain
              (Some 100.0%float) (Some 60.0%float)) = 0
  /\ reasons (score_prospect ConfigValues.config 0.0 holed_bargain
                (Some 100.0%float) (Some 60.0%float)) = ["pros-hard-disqualify-keyword"].
Proof.
  assert (H : Spec.hard_disqualified ConfigValues.config (title holed_bargain) = true)
    by (vm_compute; reflexivity).
  destruct (C6_score_range_and_hard_disqualify ConfigValues.config 0.0 holed_bargain
              (Some 100.0%float) (Some 60.0%float)) as (_ & Hd).
  destruct (Hd H) as (Hs & _ & _).
  split; [exact H|]. split; [exact Hs|]. vm_compute. reflexivity.
Defined.

End ProspectScore.

(** ** Numismatic identity *)

Section NumismaticIdentity.
Import numismatic_rules.

Lemma first_coin_type_known (pats : list (Re.pattern * string)) (t ct : string) :
  first_coin_type pats t = Some ct -> In ct (map snd pats).
Proof.
  induction pats as [|[pat c] pats IH]; cbn; [discriminate|].
  destruct (Re.found pat t); [intros [= ->]; left; reflexivity|].
  intros H. right. apply IH. exact H.
Qed.




End NumismaticIdentity.

Section MeltRounding.
Import silver_math hit_engine Scenarios.



End MeltRounding.

(** ** The hit engine: order of the output *)

Section HitEngineOrder.
Import hit_engine HitOrder HitOrderFacts.

Lemma StronglySorted_impl {A : Type} (P : A -> Prop) (R R' : A -> A -> Prop) (l : list A) :
(forall a b, P a -> P b -> R a b -> R' a b) ->
Forall P l -> StronglySorted R l -> StronglySorted R' l.
Proof.
intros HR HP Hs. induction Hs as [|y l Hs IH Hy]; [constructor|].
inversion HP as [|? ? Py Pl]; subst.
constructor; [apply IH; exact Pl|].
rewrite List.Forall_forall in Hy, Pl |- *.
intros z Hz. apply HR; auto.
Qed.


Lemma evaluate_one_end_time (env : Env) (l : Listing) :
end_time_ts (listing (evaluate_one env l)) = end_time_ts l.
Proof.
unfold evaluate_one.
destruct (numismatic_rules.check_numismatic_override _) as [o|];
  [destruct (resolve_fmv env _ _ _) as [f s]|]; reflexivity.
Qed.


End HitEngineOrder.

Section ScenarioD.
Import hit_engine HitOrder Scenarios.


End ScenarioD.
(* ===================================================================== *)
(** * The price file: what [save_store] writes and [load_store] reads     *)
(* ===================================================================== *)

(** X1: a normalised store (floats for the two prices, ints for samples,
    time stamp and observers), each of whose floats is written as a text that
    reads back as the same float, is read by [load_store] from the text
    [save_store] wrote exactly as it was. *)
Theorem X1_load_store_returns_saved_store (s : price_store.Store) :
  JsonText.numeric_lists (price_store.as_lists s) = true ->
  price_store.load_store (Some (price_store.save_store (price_store.as_lists s)))
  = price_store.Loaded s.
Proof.
  intros Hnum.
  rewrite (PriceFileFacts.load_save_store _ Hnum).
  rewrite PriceFileFacts.normalise_as_lists. reflexivity.
Qed.

(** The store of the docstring, with a second key, comes back. *)
Lemma X1_documented_store_returns :
  JsonText.numeric_lists (price_store.as_lists PriceFileScenario.documented_store) = true
  /\ price_store.load_store
       (Some (price_store.save_store (price_store.as_lists PriceFileScenario.documented_store)))
     = price_store.Loaded PriceFileScenario.documented_store.
Proof.
  assert (JsonText.numeric_lists (price_store.as_lists PriceFileScenario.documented_store)
          = true) as Hnum by (vm_compute; reflexivity).
  split; [exact Hnum|].
  exact (X1_load_store_returns_saved_store PriceFileScenario.documented_store Hnum).
Defined.

(** X2: for any store of lists of numbers, of any lengths, [load_store]
    reads from the saved text the store of the normalised lists: a key
    whose list has fewer than five cells, or a cell that [float] or [int]
    rejects, is left out; cells after the fifth are dropped; an int cell in
    a price position becomes a float and a float cell in a count position
    is cut to an int. *)
Theorem X2_load_store_normalises_saved_lists (x : price_store.Lists) :
  JsonText.numeric_lists x = true ->
  price_store.load_store (Some (price_store.save_store x))
  = price_store.Loaded (omap (fun cells => price_store.normalise (json.JArray cells)) x).
Proof. apply PriceFileFacts.load_save_store. Qed.

(** A short list is left out, a long one is cut, and numbers change type. *)
Lemma X2_mixed_lists_normalised :
  JsonText.numeric_lists PriceFileScenario.mixed_lists = true
  /\ price_store.load_store (Some (price_store.save_store PriceFileScenario.mixed_lists))
     = price_store.Loaded
         (omap (fun cells => price_store.normalise (json.JArray cells))
               PriceFileScenario.mixed_lists)
  /\ omap (fun cells => price_store.normalise (json.JArray cells))
          PriceFileScenario.mixed_lists !! "short" = None
  /\ omap (fun cells => price_store.normalise (json.JArray cells))
          PriceFileScenario.mixed_lists !! "long"
     = Some {| price_store.ema_price := 7.0; price_store.samples := 2;
               price_store.last_total_price := 7.5; price_store.last_updated := 3;
               price_store.observers_total := 4 |}.
Proof.
  assert (JsonText.numeric_lists PriceFileScenario.mixed_lists = true) as Hnum
    by (vm_compute; reflexivity).
  split; [exact Hnum|].
  split; [exact (X2_load_store_normalises_saved_lists _ Hnum)|].
  split; vm_compute; reflexivity.
Defined.

(** X3: the saved text is a line with the opening brace, then one line for
    each key of the store, then a line with the closing brace, each ended by
    a newline; a key's line is two blanks, the key as a JSON string, a colon
    and a blank, the list with its cells separated by a comma and a blank,
    and a comma unless the line is the last; no such line holds a newline
    of its own. *)
Theorem X3_save_store_one_key_per_line (x : price_store.Lists) :
  JsonText.numeric_lists x = true ->
  price_store.save_store x
  = "{" +:+ String "010" "" +:+ PriceFile.unlines (PriceFile.lines (PriceFile.items_of x))
        +:+ "}" +:+ String "010" ""
  /\ length (PriceFile.lines (PriceFile.items_of x)) = size x
  /\ Forall (fun l => PriceFile.single_line l = true) (PriceFile.lines (PriceFile.items_of x)).
Proof.
  intros Hnum.
  split; [apply PriceFileFacts.save_store_lines|].
  split.
  - rewrite PriceFileFacts.lines_length.
    rewrite <- (PriceFileFacts.sorted_keys_length x), <- PriceFileFacts.items_of_keys.
    rewrite length_map. reflexivity.
  - apply PriceFileFacts.lines_single, PriceFileFacts.items_of_numeric. exact Hnum.
Qed.

(** The two lines of the documented store. *)
Lemma X3_documented_store_lines :
  JsonText.numeric_lists (price_store.as_lists PriceFileScenario.documented_store) = true
  /\ length (PriceFile.lines
               (PriceFile.items_of (price_store.as_lists PriceFileScenario.documented_store)))
     = 2%nat
  /\ Forall (fun l => PriceFile.single_line l = true)
       (PriceFile.lines
          (PriceFile.items_of (price_store.as_lists PriceFileScenario.documented_store))).
Proof.
  assert (JsonText.numeric_lists (price_store.as_lists PriceFileScenario.documented_store)
          = true) as Hnum by (vm_compute; reflexivity).
  split; [exact Hnum|].
  destruct (X3_save_store_one_key_per_line _ Hnum) as (_ & Hlen & Hsingle).
  split; [|exact Hsingle].
  rewrite Hlen. vm_compute. reflexivity.
Defined.

(** X4: the keys [save_store] writes are the keys of the store, each once,
    in strictly increasing order of [str]. *)
Theorem X4_save_store_keys_sorted {V : Type} (x : gmap string V) :
  PriceFile.increasing (price_store.sorted_keys x)
  /\ (forall k, In k (price_store.sorted_keys x) <-> is_Some (x !! k))
  /\ length (price_store.sorted_keys x) = size x.
Proof.
  split; [apply PriceFileFacts.sorted_keys_increasing|].
  split; [|apply PriceFileFacts.sorted_keys_length].
  intros k. rewrite <- list_elem_of_In. apply PriceFileFacts.sorted_keys_lookup.
Qed.

(** X5: the saved text is a JSON document: the decoder reads it as an
    object whose members are the keys of the store in sorted order, each
    with its list. *)
Theorem X5_saved_text_is_json_object (x : price_store.Lists) :
  JsonText.numeric_lists x = true ->
  json.loads (price_store.save_store x)
  = Some (json.JObject (map PriceFile.as_member (PriceFile.items_of x)))
  /\ map fst (PriceFile.items_of x) = price_store.sorted_keys x
  /\ Forall (fun kv => x !! fst kv = Some (snd kv)) (PriceFile.items_of x).
Proof.
  intros Hnum.
  split; [apply PriceFileFacts.loads_save_store; exact Hnum|].
  split; [apply PriceFileFacts.items_of_keys | apply PriceFileFacts.items_of_entries].
Qed.

(** The documented store is decoded as an object of two members. *)
Lemma X5_documented_store_decodes :
  JsonText.numeric_lists (price_store.as_lists PriceFileScenario.documented_store) = true
  /\ json.loads (price_store.save_store (price_store.as_lists PriceFileScenario.documented_store))
     = Some (json.JObject
               (map PriceFile.as_member
                  (PriceFile.items_of (price_store.as_lists PriceFileScenario.documented_store)))).
Proof.
  assert (JsonText.numeric_lists (price_store.as_lists PriceFileScenario.documented_store)
          = true) as Hnum by (vm_compute; reflexivity).
  split; [exact Hnum|].
  exact (proj1 (X5_saved_text_is_json_object _ Hnum)).
Defined.

(** X6: a price file that holds a JSON document other than an object makes
    [load_store] raise (the [items()] call is outside the [try]): so it is
    for every JSON string and for every list of numbers; a missing file
    gives the empty store. *)
Theorem X6_load_store_raises_on_other_documents :
  (forall s : string,
     price_store.load_store (Some (json.dumps (json.JString s))) = price_store.Raised)
  /\ (forall cells : list json.value,
        forallb JsonText.numeric cells = true ->
        price_store.load_store (Some (json.dumps (json.JArray cells))) = price_store.Raised)
  /\ price_store.load_store None = price_store.Loaded ∅.
Proof.
  split; [|split; [|reflexivity]].
  - intros s. unfold price_store.load_store.
    rewrite JsonFacts.loads_string. reflexivity.
  - intros cells Hnum. unfold price_store.load_store.
    rewrite (JsonFacts.loads_numbers cells Hnum). reflexivity.
Qed.

(** A list of two numbers in the price file. *)
Lemma X6_list_document_raises :
  forallb JsonText.numeric [json.JInt 1; json.JFloat 2.5] = true
  /\ price_store.load_store (Some (json.dumps (json.JArray [json.JInt 1; json.JFloat 2.5])))
     = price_store.Raised.
Proof.
  assert (forallb JsonText.numeric [json.JInt 1; json.JFloat 2.5] = true) as Hnum
    by (vm_compute; reflexivity).
  split; [exact Hnum|].
  exact (proj1 (proj2 X6_load_store_raises_on_other_documents) _ Hnum).
Defined.
#[local] Set Warnings "-clear-no-such-hyp".

(* ===================================================================== *)
(** * The price store in memory                                           *)
(* ===================================================================== *)

Section PriceUpdates.
Import price_store.

Lemma update_price_other_key (cfg : Config) (ts : Z) (store : Store) (key : string)
    (total_price : option float) (bid_count : Z) (k : string) :
  k <> key ->
  snd (update_price cfg ts store key total_price bid_count) !! k = store !! k.
Proof.
  intros Hk. unfold update_price.
  destruct (negb (PyStr.nonempty key)); [reflexivity|].
  destruct (PRICE_CAPTURE_ONLY_IF_BIDS cfg && (bid_count <? 1)); [reflexivity|].
  destruct total_price as [p|]; [|reflexivity].
  destruct (p <=? 0)%float; [reflexivity|].
  simpl. apply lookup_insert_ne. congruence.
Qed.

Lemma update_price_keeps_keys (cfg : Config) (ts : Z) (store : Store) (key : string)
    (total_price : option float) (bid_count : Z) (k : string) :
  is_Some (store !! k) ->
  is_Some (snd (update_price cfg ts store key total_price bid_count) !! k).
Proof.
  intros Hk. destruct (decide (k = key)) as [->|Hne].
  - unfold update_price.
    destruct (negb (PyStr.nonempty key)); [exact Hk|].
    destruct (PRICE_CAPTURE_ONLY_IF_BIDS cfg && (bid_count <? 1)); [exact Hk|].
    destruct total_price as [p|]; [|exact Hk].
    destruct (p <=? 0)%float; [exact Hk|].
    simpl. rewrite lookup_insert_eq. eauto.
  - rewrite update_price_other_key by exact Hne. exact Hk.
Qed.

Lemma update_price_new_keys (cfg : Config) (ts : Z) (store : Store) (key : string)
    (total_price : option float) (bid_count : Z) (k : string) :
  is_Some (snd (update_price cfg ts store key total_price bid_count) !! k) ->
  is_Some (store !! k) \/ k = key.
Proof.
  intros Hk. destruct (decide (k = key)) as [->|Hne]; [right; reflexivity|].
  left. rewrite update_price_other_key in Hk by exact Hne. exact Hk.
Qed.

(** X7: [update_price] leaves every other key of the store as it was and
    removes none; its result is [True] exactly when the key is not empty,
    the bid gate (when enabled) has at least one bid, and a price is given
    that is not [<= 0]; then the key is in the store with the observer total
    raised by the bid count (from 0 for a new key), and otherwise the store
    is unchanged. *)
Theorem X7_update_price_touches_only_its_key (cfg : Config) (ts : Z) (store : Store)
    (key : string) (total_price : option float) (bid_count : Z) :
  let r := update_price cfg ts store key total_price bid_count in
  (forall k, k <> key -> snd r !! k = store !! k)
  /\ (forall k, is_Some (store !! k) -> is_Some (snd r !! k))
  /\ (fst r = true <->
      PyStr.nonempty key = true
      /\ (PRICE_CAPTURE_ONLY_IF_BIDS cfg = true -> 1 <= bid_count)
      /\ exists p, total_price = Some p /\ (p <=? 0)%float = false)
  /\ (fst r = true ->
      is_Some (lookup_ema (snd r) key)
      /\ lookup_observers (snd r) key
         = Some (default 0 (lookup_observers store key) + bid_count))
  /\ (fst r = false -> snd r = store).
Proof.
  intros r. subst r.
  split; [intros k Hk; apply update_price_other_key; exact Hk|].
  split; [intros k Hk; apply update_price_keeps_keys; exact Hk|].
  unfold update_price, lookup_ema, lookup_observers.
  destruct (PyStr.nonempty key) eqn:Ek; simpl.
  2:{ split; [split; [discriminate | intros (H & _); discriminate]|].
      split; [discriminate | reflexivity]. }
  destruct (PRICE_CAPTURE_ONLY_IF_BIDS cfg) eqn:Ef; simpl.
  - destruct (Z.ltb_spec bid_count 1) as [Hb|Hb]; simpl.
    { split; [split; [discriminate | intros (_ & H & _); specialize (H eq_refl); lia]|].
      split; [discriminate | reflexivity]. }
    destruct total_price as [p|]; simpl.
    2:{ split; [split; [discriminate | intros (_ & _ & p & H & _); discriminate]|].
        split; [discriminate | reflexivity]. }
    destruct (p <=? 0)%float eqn:Ep; simpl.
    { split; [split; [discriminate | intros (_ & _ & q & H & Hq); congruence]|].
      split; [discriminate | reflexivity]. }
    split; [split; [intros _; repeat split; eauto | reflexivity]|].
    split; [|discriminate].
    intros _. rewrite lookup_insert_eq. split; [eauto|].
    destruct (store !! key) as [e|]; simpl; f_equal; lia.
  - destruct total_price as [p|]; simpl.
    2:{ split; [split; [discriminate | intros (_ & _ & p & H & _); discriminate]|].
        split; [discriminate | reflexivity]. }
    destruct (p <=? 0)%float eqn:Ep; simpl.
    { split; [split; [discriminate | intros (_ & _ & q & H & Hq); congruence]|].
      split; [discriminate | reflexivity]. }
    split; [split; [intros _; repeat split; [discriminate | eauto] | reflexivity]|].
    split; [|discriminate].
    intros _. rewrite lookup_insert_eq. split; [eauto|].
    destruct (store !! key) as [e|]; simpl; f_equal; lia.
Qed.

(** X8: [capture_updates] returns a count between 0 and the number of
    updates; it removes no key of the store, and every key of the store
    after the call was in the store before or is a key of the updates. *)
Theorem X8_capture_updates_count_and_keys (cfg : Config) (ts : Z) (store : Store)
    (updates : list (string * (float * Z))) :
  let r := capture_updates cfg ts store updates in
  0 <= fst r <= Z.of_nat (length updates)
  /\ (forall k, is_Some (store !! k) -> is_Some (snd r !! k))
  /\ (forall k, is_Some (snd r !! k) -> is_Some (store !! k) \/ In k (map fst updates)).
Proof.
  revert store. induction updates as [|[k [p b]] updates IH]; intros store.
  - simpl. repeat split; auto; lia.
  - cbn [capture_updates].
    pose proof (update_price_keeps_keys cfg ts store k (Some p) b) as Hkeep.
    pose proof (update_price_new_keys cfg ts store k (Some p) b) as Hnew.
    destruct (update_price cfg ts store k (Some p) b) as [ok store1].
    specialize (IH store1).
    destruct (capture_updates cfg ts store1 updates) as [n store2].
    simpl in IH, Hkeep, Hnew |- *. destruct IH as (Hn & Hk1 & Hk2).
    split; [destruct ok; lia|].
    split; [intros k' Hk'; apply Hk1, Hkeep, Hk'|].
    intros k' Hk'. destruct (Hk2 k' Hk') as [H|H]; [|right; right; exact H].
    destruct (Hnew k' H) as [H'|H']; [left; exact H' | right; left; congruence].
Qed.

End PriceUpdates.

(* ===================================================================== *)
(** * Quantities and weights read from a title                            *)
(* ===================================================================== *)

Section SilverMath.
Import silver_math.

Lemma first_quantity_bounds (pats : list Re.pattern) (t : string) :
  first_quantity pats t = 1 \/ 2 <= first_quantity pats t <= 600.
Proof.
  induction pats as [|pat pats IH]; [left; reflexivity|].
  cbn [first_quantity].
  destruct (Re.search_group1 pat t) as [g|]; [|exact IH].
  cbv zeta.
  destruct (Z.ltb_spec 1 (PyStr.int_of_digits g 0)) as [H1|H1]; [|exact IH].
  destruct (Z.leb_spec (PyStr.int_of_digits g 0) 600) as [H2|H2]; [|exact IH].
  simpl. right. lia.
Qed.

Lemma extract_quantity_bounds (title : string) :
  extract_quantity_from_title title = 1 \/ 2 <= extract_quantity_from_title title <= 600.
Proof.
  unfold extract_quantity_from_title.
  destruct (negb (PyStr.nonempty title)); [left; reflexivity|].
  apply first_quantity_bounds.
Qed.

(** X9: the quantity read from a title is 1 or lies between 2 and 600;
    an empty title gives 1. *)
Theorem X9_extract_quantity_between_1_and_600 (title : string) :
  (extract_quantity_from_title title = 1
   \/ 2 <= extract_quantity_from_title title <= 600)
  /\ extract_quantity_from_title "" = 1.
Proof. split; [apply extract_quantity_bounds | reflexivity]. Qed.

Lemma detect_oz_cases (title : string) :
  detect_oz_per_coin_from_title title = ASW_HALF_DOLLAR
  \/ detect_oz_per_coin_from_title title = ASW_SILVER_EAGLE
  \/ detect_oz_per_coin_from_title title = ASW_SILVER_DOLLAR.
Proof.
  unfold detect_oz_per_coin_from_title. cbv zeta.
  destruct (existsb _ ["half dollar"; _; _; _; _; _]); [left; reflexivity|].
  destruct (PyStr.contains "silver eagle" _ || PyStr.contains "american eagle" _);
    [right; left; reflexivity|].
  destruct (existsb _ ["$1"; _; _; _]); [right; right; reflexivity|].
  destruct (PyStr.contains "seated" _); left; reflexivity.
Qed.

Lemma detect_oz_positive (title : string) :
  (0 <? detect_oz_per_coin_from_title title)%float = true.
Proof.
  destruct (detect_oz_cases title) as [E|[E|E]]; rewrite E; vm_compute; reflexivity.
Qed.

(** X10: the weight read from a title is one of the three silver weights
    of the module, hence above zero; a title that names a half dollar gets
    the half-dollar weight even when it also names a dollar series. *)
Theorem X10_detect_oz_is_a_known_weight (title : string) :
  (detect_oz_per_coin_from_title title = ASW_HALF_DOLLAR
   \/ detect_oz_per_coin_from_title title = ASW_SILVER_EAGLE
   \/ detect_oz_per_coin_from_title title = ASW_SILVER_DOLLAR)
  /\ (0 <? detect_oz_per_coin_from_title title)%float = true
  /\ (PyStr.contains "half dollar" (PyStr.lower title) = true ->
      detect_oz_per_coin_from_title title = ASW_HALF_DOLLAR).
Proof.
  split; [apply detect_oz_cases|]. split; [apply detect_oz_positive|].
  intros H. unfold detect_oz_per_coin_from_title. cbv zeta.
  cbn [existsb]. rewrite H. reflexivity.
Qed.

Lemma enrich_quantity_positive (l : Listing) :
  1 <= quantity (enrich_listing_silver_fields l).
Proof.
  unfold enrich_listing_silver_fields. cbn [quantity].
  destruct (Z.eqb_spec (quantity l) 0) as [E|E]; simpl.
  - destruct (extract_quantity_bounds (title l)); lia.
  - destruct (Z.ltb_spec (quantity l) 1) as [H|H]; [|lia].
    destruct (extract_quantity_bounds (title l)); lia.
Qed.

Lemma enrich_oz_usable (l : Listing) :
  PyFloat.truthy (oz_per_coin (enrich_listing_silver_fields l)) = true
  /\ (oz_per_coin (enrich_listing_silver_fields l) <=? 0)%float = false.
Proof.
  unfold enrich_listing_silver_fields. cbn [oz_per_coin].
  destruct (negb (PyFloat.truthy (oz_per_coin l)) || (oz_per_coin l <=? 0)%float) eqn:E.
  - pose proof (detect_oz_positive (title l)) as P.
    split; [apply positive_truthy; exact P | apply positive_not_le_zero; exact P].
  - apply orb_false_elim in E as [E1 E2]. apply negb_false_iff in E1. split; assumption.
Qed.

Lemma enrich_fixed (l : Listing) :
  1 <= quantity l -> PyFloat.truthy (oz_per_coin l) = true ->
  (oz_per_coin l <=? 0)%float = false ->
  enrich_listing_silver_fields l = l.
Proof.
  intros Hq Ht Hz. unfold enrich_listing_silver_fields.
  replace (quantity l =? 0) with false by (symmetry; apply Z.eqb_neq; lia).
  replace (quantity l <? 1) with false by (symmetry; apply Z.ltb_ge; lia).
  rewrite Ht, Hz. destruct l; reflexivity.
Qed.

Lemma enrich_idempotent (l : Listing) :
  enrich_listing_silver_fields (enrich_listing_silver_fields l)
  = enrich_listing_silver_fields l.
Proof.
  apply enrich_fixed; [apply enrich_quantity_positive | apply enrich_oz_usable..].
Qed.

(** X11: enriching a listing fills a quantity of at least 1 and a weight
    that is not zero and not below zero, changes no other field, and is
    idempotent; so [calc_silver], which enriches its argument in place, gives
    the same figures when it is called again on the enriched listing. *)
Theorem X11_enrich_is_idempotent (cfg : Config) (l : Listing)
    (spot_price payout_pct bid_offset : option float) :
  let l' := enrich_listing_silver_fields l in
  enrich_listing_silver_fields l' = l'
  /\ 1 <= quantity l'
  /\ PyFloat.truthy (oz_per_coin l') = true /\ (oz_per_coin l' <=? 0)%float = false
  /\ (title l', link l', item_price l', shipping l', total_price l', bids l',
      time_left l', item_id l', end_time_ts l')
     = (title l, link l, item_price l, shipping l, total_price l, bids l,
        time_left l, item_id l, end_time_ts l)
  /\ calc_silver cfg l' spot_price payout_pct bid_offset
     = calc_silver cfg l spot_price payout_pct bid_offset.
Proof.
  intros l'. subst l'.
  split; [apply enrich_idempotent|].
  split; [apply enrich_quantity_positive|].
  split; [apply enrich_oz_usable|]. split; [apply enrich_oz_usable|].
  split; [reflexivity|].
  unfold calc_silver. rewrite enrich_idempotent. reflexivity.
Qed.

End SilverMath.

(* ===================================================================== *)
(** * The hit engine: selection and the FMV anchor                        *)
(* ===================================================================== *)

Section HitEngineSelection.
Import hit_engine HitOrder HitOrderFacts.

Lemma StronglySorted_filter {A : Type} (R : A -> A -> Prop) (P : A -> Prop)
    `{forall x, Decision (P x)} (l : list A) :
  StronglySorted R l -> StronglySorted R (filter P l).
Proof.
  intros Hs. induction Hs as [|x l Hs IH Hx]; [constructor|].
  rewrite filter_cons. destruct (decide (P x)); [|exact IH].
  constructor; [exact IH|].
  rewrite List.Forall_forall in Hx |- *. intros z Hz.
  apply Hx. apply list_elem_of_In. apply list_elem_of_In in Hz.
  apply list_elem_of_filter in Hz. tauto.
Qed.

Lemma evaluate_one_flags_agree (env : Env) (lst : Listing) :
  c_is_prospect (silver_calc (evaluate_one env lst)) = is_prospect (evaluate_one env lst).
Proof.
  unfold evaluate_one.
  destruct (numismatic_rules.check_numismatic_override _) as [o|];
    [destruct (resolve_fmv env _ _ _) as [f s]|]; reflexivity.
Qed.

(** X12: [select_hits] keeps exactly the records that are a melt hit or a
    prospect (by the flag of the record or by the flag in its calc dict),
    in the order they had; selecting again changes nothing; and for the
    records [evaluate_listings] builds the two prospect flags agree. *)
Theorem X12_select_hits_keeps_hits_and_prospects (l : list Evaluated) :
  (forall e, In e (select_hits l) <->
             In e l /\ (is_hit e = true \/ is_prospect e = true
                        \/ c_is_prospect (silver_calc e) = true))
  /\ select_hits l `sublist_of` l
  /\ select_hits (select_hits l) = select_hits l
  /\ (forall env lst,
        c_is_prospect (silver_calc (evaluate_one env lst))
        = is_prospect (evaluate_one env lst)).
Proof.
  split; [|split; [apply sublist_filter | split; [|apply evaluate_one_flags_agree]]].
  - intros e. unfold select_hits. rewrite <- !list_elem_of_In, list_elem_of_filter.
    rewrite Is_true_true, !orb_true_iff. tauto.
  - unfold select_hits. apply list_filter_filter_l. tauto.
Qed.

Lemma evaluate_listings_sorted (env : Env) (ls : list Listing) :
  (forall l ts, In l ls -> end_time_ts l = Some ts ->
     key_lt (KFloat ts) (KInt SENTINEL) = true) ->
  StronglySorted (fun a b => key_lt (sort_key b) (sort_key a) = false)
    (evaluate_listings env ls).
Proof.
  intros Hts.
  assert (Hgood : Forall (fun e => good_key (sort_key e)) (map (evaluate_one env) ls)).
  { rewrite List.Forall_forall. intros e He.
    apply List.in_map_iff in He as (l & <- & Hl).
    unfold sort_key. rewrite evaluate_one_end_time.
    destruct (end_time_ts l) as [ts|] eqn:E; simpl; [eauto | reflexivity]. }
  assert (Hgood' : Forall (fun e => good_key (sort_key e)) (evaluate_listings env ls)).
  { unfold evaluate_listings, sort_by_end_time.
    rewrite <- (sort_by_perm sort_key key_lt). exact Hgood. }
  eapply StronglySorted_impl; [|exact Hgood'|].
  2:{ apply (sort_by_sorted sort_key key_lt krank good_key key_lt_rank). exact Hgood. }
  intros a b Ga Gb Hab. cbn beta in *. rewrite key_lt_rank by assumption.
  apply Z.ltb_ge. exact Hab.
Qed.

(** X13: when every known end time is below the sentinel 10**18, the
    records selected from the output of [evaluate_listings] are still in
    ascending order of end time, so the first selected record ends first. *)
Theorem X13_selected_hits_stay_sorted (env : Env) (ls : list Listing) :
  (forall l ts, In l ls -> end_time_ts l = Some ts ->
     key_lt (KFloat ts) (KInt SENTINEL) = true) ->
  StronglySorted (fun a b => key_lt (sort_key b) (sort_key a) = false)
    (select_hits (evaluate_listings env ls))
  /\ (forall first others e,
        select_hits (evaluate_listings env ls) = first :: others ->
        In e others -> key_lt (sort_key e) (sort_key first) = false).
Proof.
  intros Hts.
  assert (Hs : StronglySorted (fun a b => key_lt (sort_key b) (sort_key a) = false)
                 (select_hits (evaluate_listings env ls))).
  { unfold select_hits. apply StronglySorted_filter.
    apply evaluate_listings_sorted. exact Hts. }
  split; [exact Hs|].
  intros first others e E He. rewrite E in Hs.
  apply StronglySorted_inv in Hs as [_ Hf].
  rewrite List.Forall_forall in Hf. apply Hf. exact He.
Qed.

End HitEngineSelection.

Section SelectionScenario.
Import hit_engine Scenarios.

(** Two cheap coins are melt hits and are listed by end time. *)
Lemma X13_cheap_coins_listed_by_end_time :
  (forall l ts, In l CycleScenario.cheap_coins -> end_time_ts l = Some ts ->
     key_lt (KFloat ts) (KInt SENTINEL) = true)
  /\ map (fun e => title (listing e))
         (select_hits (evaluate_listings fresh_env CycleScenario.cheap_coins))
     = ["1922 Peace Dollar"; "1921 Morgan Dollar"]
  /\ StronglySorted (fun a b => key_lt (sort_key b) (sort_key a) = false)
       (select_hits (evaluate_listings fresh_env CycleScenario.cheap_coins)).
Proof.
  assert (H : forall l ts, In l CycleScenario.cheap_coins -> end_time_ts l = Some ts ->
                key_lt (KFloat ts) (KInt SENTINEL) = true).
  { intros l ts Hin E. simpl in Hin.
    destruct Hin as [<-|[<-|[<-|[]]]]; simpl in E; try discriminate E;
      injection E as <-; vm_compute; reflexivity. }
  split; [exact H|]. split; [vm_compute; reflexivity|].
  exact (proj1 (X13_selected_hits_stay_sorted fresh_env CycleScenario.cheap_coins H)).
Defined.

End SelectionScenario.

Section FmvAnchor.
Import hit_engine numismatic_defaults.

Lemma dict_get_tuple_keys (table : list (PyKey * option float)) (k : string) :
  Forall (fun kv => exists parts, fst kv = KTuple parts) table ->
  dict_get table (KStr k) = None.
Proof.
  induction 1 as [|[key v] table [parts E] _ IH]; [reflexivity|].
  simpl in E. subst key. cbn [dict_get PyKey_eqb]. exact IH.
Qed.

Lemma static_floors_tuple_keys :
  Forall (fun kv => exists parts, fst kv = KTuple parts) STATIC_FLOORS.
Proof. unfold STATIC_FLOORS. repeat constructor; eexists; reflexivity. Qed.

(** X14: with the shipped table of static defaults, which is keyed by
    4-tuples while [_resolve_fmv] asks with the key string, the FMV floor of
    the hit engine is the EMA of the price file and nothing else: a key of
    the file gives its EMA with the source "Offline EMA o.N", a key not in
    the file gives no floor and no source, whatever the table holds. *)
Theorem X14_static_defaults_never_resolve (c : Config) (s : gmap string price_store.Entry)
    (t : float) (coin_type : string) (year : Z) (mint : string) :
  let env := {| cfg := c; store := s; static_defaults := STATIC_NUMISMATIC_DEFAULTS;
                now := t |} in
  resolve_fmv env coin_type year mint
  = match s !! make_key coin_type year mint with
    | Some e =>
        (Some (price_store.ema_price e),
         Some ("Offline EMA o." +:+ PyStr.str_of_int (price_store.observers_total e)))
    | None => (None, None)
    end.
Proof.
  intros env. unfold resolve_fmv, price_store.get_ema_value_and_observers,
    price_store.lookup_ema, price_store.lookup_observers. cbn [store static_defaults env].
  destruct (s !! make_key coin_type year mint) as [e|]; [reflexivity|].
  unfold STATIC_NUMISMATIC_DEFAULTS.
  rewrite (dict_get_tuple_keys _ _ static_floors_tuple_keys). reflexivity.
Qed.

(** X15: [get_static_floor] knows one floor only: the 1881-CC Morgan dollar
    in grade G at 443.00; every other identity, also one listed in the table
    with the value [None], has no static floor. *)
Theorem X15_static_floor_only_for_1881_cc (coin_type year mint grade : string)
    (sf : StaticFloor) :
  get_static_floor coin_type year mint grade = Some sf <->
  (coin_type = "Morgan Dollar" /\ year = "1881" /\ mint = "CC" /\ grade = "G")
  /\ sf = {| sf_coin_type := "Morgan Dollar"; sf_year := "1881"; sf_mint := "CC";
             sf_grade := "G"; floor := 443.00 |}.
Proof.
  unfold get_static_floor, STATIC_FLOORS, floor_key. cbn [dict_get PyKey_eqb].
  split.
  - repeat match goal with
           | |- context [bool_decide (?a = ?b)] =>
               let E := fresh "E" in
               destruct (bool_decide (a = b)) eqn:E;
               [apply bool_decide_eq_true in E; try discriminate;
                try (injection E as <- <- <- <-; intros [= <-]; repeat split; reflexivity)|]
           end.
    discriminate.
  - intros ((-> & -> & -> & ->) & ->). vm_compute. reflexivity.
Qed.

End FmvAnchor.
(* ===================================================================== *)
(** * The CoinBook link of a detected coin                                *)
(* ===================================================================== *)

Section CoinBook.
Import hit_engine numismatic_rules.

Lemma detect_coin_identity_parts (title ct : string) (y : Z) (m : string) :
  detect_coin_identity title = Some (ct, y, m) ->
  In ct (map snd COIN_PATTERNS) /\ in_window ct y = true
  /\ m = norm_mint (default DEFAULT_MINT (Re.search_group1 MINT_RE (PyStr.strip title))).
Proof.
  unfold detect_coin_identity. cbv zeta.
  destruct (negb (PyStr.nonempty (PyStr.strip title))); [discriminate|].
  destruct (first_coin_type COIN_PATTERNS (PyStr.strip title)) as [c|] eqn:Ec; [|discriminate].
  destruct (Re.search_group1 YEAR_RE (PyStr.strip title)) as [ym|]; [|discriminate].
  destruct (PyStr.contains "proof" _ || PyStr.contains "replica" _ || PyStr.contains "copy" _);
    [discriminate|].
  destruct (in_window c (PyStr.int_of_digits ym 0)) eqn:Ew; [|discriminate].
  intros [= <- <- <-].
  split; [eapply first_coin_type_known; exact Ec|]. split; [exact Ew | reflexivity].
Qed.

Lemma override_parts (title : string) (o : NumismaticOverride) :
  check_numismatic_override title = Some o ->
  detect_coin_identity title = Some (coin_type o, year o, mint o)
  /\ display_name o
     = coin_type o +:+ " " +:+ PyStr.str_of_int (year o) +:+ "-" +:+ mint o.
Proof.
  unfold check_numismatic_override.
  destruct (detect_coin_identity title) as [[[ct y] m]|]; [|discriminate].
  intros [= <-]. split; reflexivity.
Qed.

(** X16: every coin type that [check_numismatic_override] can return has a
    CoinBook address: the five types of the mapping get their mapped
    denomination and slug, and "Walking Liberty Half", which the mapping
    does not list, gets half-dollars/walking-liberty from the fallback; an
    empty label has no address. *)
Theorem X16_detected_coin_has_coinbook_url (title : string) (o : NumismaticOverride) :
  check_numismatic_override title = Some o ->
  exists denom slug,
    coinbook_url (coin_type o)
    = Some ("https://www.usacoinbook.com/coins/" +:+ denom +:+ "/" +:+ slug +:+ "/")
    /\ In (coin_type o, (denom, slug))
         [ ("Morgan Dollar", ("dollars", "morgan"));
           ("Peace Dollar", ("dollars", "peace"));
           ("Barber Half", ("half-dollars", "barber"));
           ("Seated Liberty Half", ("half-dollars", "seated-liberty"));
           ("Seated Liberty Dollar", ("dollars", "seated-liberty"));
           ("Walking Liberty Half", ("half-dollars", "walking-liberty")) ].
Proof.
  intros H. apply override_parts in H as [H _].
  apply detect_coin_identity_parts in H as [H _].
  cbn in H. destruct H as [<-|[<-|[<-|[<-|[<-|[<-|[]]]]]]].
  - exists "dollars", "morgan". split; [vm_compute; reflexivity | cbn; tauto].
  - exists "dollars", "peace". split; [vm_compute; reflexivity | cbn; tauto].
  - exists "half-dollars", "barber". split; [vm_compute; reflexivity | cbn; tauto].
  - exists "half-dollars", "seated-liberty". split; [vm_compute; reflexivity | cbn; tauto].
  - exists "dollars", "seated-liberty". split; [vm_compute; reflexivity | cbn; tauto].
  - exists "half-dollars", "walking-liberty". split; [vm_compute; reflexivity | cbn; tauto].
Qed.

(** A 1943 walker. *)
Lemma X16_walker_link :
  check_numismatic_override "1943 Walking Liberty Half"
  = Some {| coin_type := "Walking Liberty Half"; year := 1943; mint := "P";
            display_name := "Walking Liberty Half 1943-P" |}
  /\ exists denom slug,
       coinbook_url "Walking Liberty Half"
       = Some ("https://www.usacoinbook.com/coins/" +:+ denom +:+ "/" +:+ slug +:+ "/")
       /\ In ("Walking Liberty Half", (denom, slug))
            [ ("Morgan Dollar", ("dollars", "morgan"));
              ("Peace Dollar", ("dollars", "peace"));
              ("Barber Half", ("half-dollars", "barber"));
              ("Seated Liberty Half", ("half-dollars", "seated-liberty"));
              ("Seated Liberty Dollar", ("dollars", "seated-liberty"));
              ("Walking Liberty Half", ("half-dollars", "walking-liberty")) ].
Proof.
  assert (H : check_numismatic_override "1943 Walking Liberty Half"
              = Some {| coin_type := "Walking Liberty Half"; year := 1943; mint := "P";
                        display_name := "Walking Liberty Half 1943-P" |})
    by (vm_compute; reflexivity).
  split; [exact H|].
  exact (X16_detected_coin_has_coinbook_url _ _ H).
Defined.

End CoinBook.

(* ===================================================================== *)
(** * One cycle of the monitor                                            *)
(* ===================================================================== *)

Section Dedupe.
Import silver_monitor.

Local Abbreviation key := dedupe_key_from_listing.

Lemma dedupe_from_sublist (seen : gset string) (l : list Listing) :
  dedupe_from seen l `sublist_of` l.
Proof.
  revert seen. induction l as [|x l IH]; intros seen; [constructor|].
  cbn [dedupe_from]. destruct (bool_decide (key x ∈ seen)).
  - apply sublist_cons. apply IH.
  - apply sublist_skip. apply IH.
Qed.

Lemma dedupe_from_keys (seen : gset string) (l : list Listing) (k : string) :
  In k (map key (dedupe_from seen l)) <-> In k (map key l) /\ k ∉ seen.
Proof.
  revert seen. induction l as [|x l IH]; intros seen; [simpl; tauto|].
  cbn [dedupe_from]. destruct (bool_decide (key x ∈ seen)) eqn:E.
  - apply bool_decide_eq_true in E. rewrite IH. simpl. split.
    + intros [H1 H2]. tauto.
    + intros [[<-|H1] H2]; [contradiction | tauto].
  - apply bool_decide_eq_false in E. simpl. rewrite IH. split.
    + intros [<-|[H1 H2]]; [tauto|]. split; [tauto|set_solver].
    + intros [[<-|H1] H2]; [tauto|].
      destruct (decide (k = key x)) as [->|N]; [tauto|].
      right. split; [exact H1 | set_solver].
Qed.

Lemma dedupe_from_NoDup (seen : gset string) (l : list Listing) :
  NoDup (map key (dedupe_from seen l)).
Proof.
  revert seen. induction l as [|x l IH]; intros seen; [constructor|].
  cbn [dedupe_from]. destruct (bool_decide (key x ∈ seen)); [apply IH|].
  simpl. constructor; [|apply IH].
  rewrite list_elem_of_In, dedupe_from_keys. set_solver.
Qed.

Lemma dedupe_from_fixed (seen : gset string) (l : list Listing) :
  NoDup (map key l) -> (forall k, In k (map key l) -> k ∉ seen) ->
  dedupe_from seen l = l.
Proof.
  revert seen. induction l as [|x l IH]; intros seen Hn Hs; [reflexivity|].
  cbn [dedupe_from]. simpl in Hn. apply NoDup_cons in Hn as [Hx Hn].
  rewrite bool_decide_eq_false_2 by (apply Hs; left; reflexivity).
  f_equal. apply IH; [exact Hn|].
  intros k Hk. specialize (Hs k (or_intror Hk)).
  assert (k <> key x) by (intros ->; apply Hx, list_elem_of_In, Hk).
  set_solver.
Qed.

(** X17: the in-run dedupe keeps a sub-list of the listings in their
    order, with every dedupe key of the input once and no other key; a
    second pass changes nothing. *)
Theorem X17_dedupe_keeps_each_key_once (l : list Listing) :
  dedupe_listings_in_run l `sublist_of` l
  /\ NoDup (map dedupe_key_from_listing (dedupe_listings_in_run l))
  /\ (forall k, In k (map dedupe_key_from_listing (dedupe_listings_in_run l))
                <-> In k (map dedupe_key_from_listing l))
  /\ dedupe_listings_in_run (dedupe_listings_in_run l) = dedupe_listings_in_run l.
Proof.
  unfold dedupe_listings_in_run.
  split; [apply dedupe_from_sublist|]. split; [apply dedupe_from_NoDup|].
  split.
  - intros k. rewrite dedupe_from_keys. set_solver.
  - apply dedupe_from_fixed; [apply dedupe_from_NoDup | set_solver].
Qed.

End Dedupe.

Section SeenKeys.
Import state_store silver_monitor hit_engine.

Lemma filter_none {A : Type} (P : A -> Prop) `{forall x, Decision (P x)} (l : list A) :
  (forall x, In x l -> ~ P x) -> filter P l = [].
Proof.
  induction l as [|x l IH]; intros Hn; [reflexivity|].
  rewrite filter_cons. destruct (decide (P x)) as [Hp|_].
  - exfalso. apply (Hn x); [left; reflexivity | exact Hp].
  - apply IH. intros y Hy. apply Hn. right. exact Hy.
Qed.

(** X18: [split_new_hits] returns as new exactly the candidates not seen
    before, and as merged the union of both sets; splitting the same
    candidates against the merged set gives no new key, and the merged set
    does not change. *)
Theorem X18_split_new_hits_partitions (candidates seen : gset string) :
  let '(new_keys, merged) := split_new_hits candidates seen in
  (forall k, k ∈ new_keys <-> k ∈ candidates /\ k ∉ seen)
  /\ (forall k, k ∈ merged <-> k ∈ seen \/ k ∈ candidates)
  /\ split_new_hits candidates merged = (∅, merged).
Proof.
  unfold split_new_hits.
  split; [intros k; rewrite elem_of_filter; tauto|].
  split; [intros k; set_solver|].
  f_equal.
  - apply set_eq. intros k. rewrite elem_of_filter. set_solver.
  - set_solver.
Qed.

Lemma split_hits_spec (hits : list Evaluated) (seen : gset string)
    (new : list Evaluated) (merged : gset string) :
  split_hits hits seen = (new, merged) ->
  (forall e, In e new <-> In e hits /\ dedupe_key_from_listing (listing e) ∉ seen)
  /\ new `sublist_of` hits
  /\ (forall k, k ∈ merged <->
                k ∈ seen \/ In k (map (fun e => dedupe_key_from_listing (listing e)) hits))
  /\ fst (split_hits hits merged) = [].
Proof.
  unfold split_hits, split_new_hits.
  set (keys := list_to_set (map (fun e => dedupe_key_from_listing (listing e)) hits)
               : gset string).
  assert (Hkeys : forall e, In e hits -> dedupe_key_from_listing (listing e) ∈ keys).
  { intros e He. unfold keys. apply elem_of_list_to_set, list_elem_of_In.
    apply List.in_map_iff. eauto. }
  intros [= <- <-].
  split.
  { intros e. rewrite <- !list_elem_of_In, list_elem_of_filter.
    rewrite bool_decide_spec, elem_of_filter. rewrite list_elem_of_In.
    split; [tauto|]. intros [H1 H2]. split; [split; [exact H2 | apply Hkeys, H1] | exact H1]. }
  split; [apply sublist_filter|].
  split.
  { intros k. unfold keys. rewrite elem_of_union, elem_of_list_to_set, list_elem_of_In.
    tauto. }
  cbn [fst]. apply filter_none. intros e He Hp.
  apply bool_decide_spec in Hp. apply elem_of_filter in Hp as [Hp _].
  apply Hp. apply elem_of_union. right. apply Hkeys. exact He.
Qed.

(** X19: of the selected records, the cycle reports as new exactly those
    whose dedupe key was not seen before, in their order; the set of seen
    keys grows by the keys of all selected records; and with the set it
    leaves behind the same records give no new hit. *)
Theorem X19_new_hits_are_the_unseen_hits (hits : list Evaluated) (seen : gset string) :
  (forall e, In e (fst (split_hits hits seen)) <->
             In e hits /\ dedupe_key_from_listing (listing e) ∉ seen)
  /\ fst (split_hits hits seen) `sublist_of` hits
  /\ (forall k, k ∈ snd (split_hits hits seen) <->
                k ∈ seen \/ In k (map (fun e => dedupe_key_from_listing (listing e)) hits))
  /\ fst (split_hits hits (snd (split_hits hits seen))) = [].
Proof.
  destruct (split_hits hits seen) as [new merged] eqn:E.
  exact (split_hits_spec hits seen new merged E).
Qed.

End SeenKeys.

Section Cycle.
Import silver_monitor hit_engine price_store.

Lemma evaluate_one_listing (env : Env) (lst : Listing) :
  listing (evaluate_one env lst) = silver_math.enrich_listing_silver_fields lst.
Proof.
  unfold evaluate_one.
  destruct (numismatic_rules.check_numismatic_override _) as [o|];
    [destruct (resolve_fmv env _ _ _) as [f s]|]; reflexivity.
Qed.

Lemma enrich_dedupe_key (lst : Listing) :
  dedupe_key_from_listing (silver_math.enrich_listing_silver_fields lst)
  = dedupe_key_from_listing lst.
Proof. reflexivity. Qed.

Lemma evaluate_listings_perm (env : Env) (ls : list Listing) :
  Permutation (map (evaluate_one env) ls) (evaluate_listings env ls).
Proof. apply sort_by_perm. Qed.

(** The decoder never takes a text that starts with a brace for anything
    but an object. *)
Lemma parse_value_brace (depth : nat) (s1 : string) :
  match json.parse_value depth (String "{" s1) with
  | Some (json.JObject _, _) | None => True
  | Some _ => False
  end.
Proof.
  destruct depth as [|depth]; [exact I|].
  cbn [json.parse_value].
  destruct (json.skip_ws s1) as [|c s2] eqn:E.
  - destruct (json.parse_members _ _ _) as [[ms r]|]; exact I.
  - destruct (Ascii.eqb c "}") eqn:Ec.
    + apply Ascii.eqb_eq in Ec. subst c. exact I.
    + assert (Hc : c <> "}"%char) by (intros ->; rewrite Ascii.eqb_refl in Ec; discriminate).
      clear Ec.
      destruct c as [[] [] [] [] [] [] [] []]; try congruence;
        destruct (json.parse_members _ _ _) as [[ms r]|]; exact I.
Qed.

Lemma load_store_saved_text (x : Lists) : load_store (Some (save_store x)) <> Raised.
Proof.
  unfold load_store, json.loads.
  change (json.skip_ws (save_store x)) with (save_store x).
  unfold save_store at 2.
  change ("{" +:+ ?t) with (String "{" t).
  pose proof (parse_value_brace (String.length (save_store x))
                (String "010" "" +:+ write_lines x (length (sorted_keys x)) 0 (sorted_keys x)
                 +:+ "}" +:+ String "010" "")) as H.
  destruct (json.parse_value _ _) as [[v r]|]; [|discriminate].
  destruct v; try contradiction.
  destruct (json.skip_ws r); discriminate.
Qed.

(** X20: a cycle ends with an exception exactly when reading the price
    file raises, that is when the file holds a JSON document that is not an
    object; otherwise the price file it leaves is the one it found or a text
    written by [save_store] for a normalised store. *)
Theorem X20_cycle_raises_only_on_a_bad_price_file (cfg : Config) (now : float) (ts : Z)
    (max_time_hours : option float)
    (static_defaults : list (numismatic_defaults.PyKey * option float))
    (file : option string) (seen : gset string) (min_qty : option Z)
    (blacklist : list string) (listings_all : list Listing) :
  let r := run_cycle cfg now ts max_time_hours static_defaults file seen min_qty
             blacklist listings_all in
  (r = None <-> load_store file = Raised)
  /\ (forall c, r = Some c ->
        file_after c = file
        \/ exists store1 : Store, file_after c = Some (save_store (as_lists store1))).
Proof.
  intros r. subst r. unfold run_cycle. cbv zeta.
  destruct (load_store file) as [store|] eqn:Ef.
  2:{ split; [split; reflexivity | discriminate]. }
  destruct (capture_phase cfg now ts store _) as [[n store1] saved].
  destruct saved.
  - pose proof (load_store_saved_text (as_lists store1)) as Hs.
    destruct (load_store (Some (save_store (as_lists store1)))) as [on_disk|];
      [|congruence].
    destruct (split_hits _ seen) as [new merged].
    split; [split; discriminate|].
    intros c [= <-]. right. exists store1. reflexivity.
  - rewrite Ef. destruct (split_hits _ seen) as [new merged].
    split; [split; discriminate|].
    intros c [= <-]. left. reflexivity.
Qed.

Lemma passes_filters_title (now : float) (max_time_hours : option float)
    (min_qty : option Z) (blacklist : list string) (lst : Listing) :
  passes_filters now max_time_hours min_qty blacklist lst = true ->
  Re.found HARD_DISQUALIFY_RE (title lst) = false
  /\ passes_blacklist (title lst) blacklist = true
  /\ (forall mq, min_qty = Some mq ->
        mq <= silver_math.extract_quantity_from_title (title lst)).
Proof.
  unfold passes_filters.
  destruct (Re.found HARD_DISQUALIFY_RE (title lst)); [discriminate|].
  destruct min_qty as [mq|].
  - destruct (Z.ltb_spec (silver_math.extract_quantity_from_title (title lst)) mq);
      [discriminate|].
    destruct (passes_blacklist (title lst) blacklist); [|discriminate].
    intros _. repeat split. intros ? [= <-]. lia.
  - destruct (passes_blacklist (title lst) blacklist); [|discriminate].
    intros _. repeat split. discriminate.
Qed.

(** X21: every record a cycle evaluates comes from a listing of the input
    that passed the filter loop, so none has a hard-disqualify word or a
    blacklisted word in its title; no two records share a dedupe key; the
    hits are the selection of the evaluated records, the new hits are hits
    whose key was not seen, and the seen keys only grow. *)
Theorem X21_cycle_reports_filtered_listings_once (cfg : Config) (now : float) (ts : Z)
    (max_time_hours : option float)
    (static_defaults : list (numismatic_defaults.PyKey * option float))
    (file : option string) (seen : gset string) (min_qty : option Z)
    (blacklist : list string) (listings_all : list Listing) (c : Cycle) :
  run_cycle cfg now ts max_time_hours static_defaults file seen min_qty blacklist
    listings_all = Some c ->
  (forall e, In e (evaluated c) ->
     exists lst, In lst listings_all
       /\ passes_filters now max_time_hours min_qty blacklist lst = true
       /\ listing e = silver_math.enrich_listing_silver_fields lst
       /\ Re.found HARD_DISQUALIFY_RE (title (listing e)) = false
       /\ passes_blacklist (title (listing e)) blacklist = true)
  /\ NoDup (map (fun e => dedupe_key_from_listing (listing e)) (evaluated c))
  /\ hits c = select_hits (evaluated c)
  /\ new_hits c `sublist_of` hits c
  /\ (forall e, In e (new_hits c) -> dedupe_key_from_listing (listing e) ∉ seen)
  /\ seen ⊆ seen_after c.
Proof.
  unfold run_cycle. cbv zeta.
  destruct (load_store file) as [store|]; [|discriminate].
  destruct (capture_phase cfg now ts store _) as [[n store1] saved].
  set (filtered := filter (passes_filters now max_time_hours min_qty blacklist)
                     (dedupe_listings_in_run listings_all)).
  destruct (load_store (if saved then _ else file)) as [on_disk|]; [|discriminate].
  set (env := {| cfg := cfg; store := on_disk; static_defaults := static_defaults;
                 now := now |}).
  destruct (split_hits (select_hits (evaluate_listings env (dedupe_listings_in_run filtered)))
              seen) as [new merged] eqn:Es.
  intros [= <-]. cbn [evaluated hits new_hits seen_after].
  destruct (split_hits_spec _ _ _ _ Es) as (Hnew & Hsub & Hmerged & _).
  pose proof (evaluate_listings_perm env (dedupe_listings_in_run filtered)) as Hperm.
  split.
  { intros e He. apply (Permutation_in _ (Permutation_sym Hperm)) in He.
    apply List.in_map_iff in He as (lst & <- & Hl).
    apply list_elem_of_In in Hl.
    apply (fun H => elem_of_sublist _ _ _ H (dedupe_from_sublist _ _)) in Hl.
    unfold filtered in Hl. apply list_elem_of_filter in Hl as [Hp Hl].
    apply Is_true_true in Hp.
    apply (fun H => elem_of_sublist _ _ _ H (dedupe_from_sublist _ _)) in Hl.
    destruct (passes_filters_title _ _ _ _ _ Hp) as (Hh & Hb & _).
    exists lst. rewrite evaluate_one_listing.
    split; [apply list_elem_of_In; exact Hl|]. split; [exact Hp|].
    split; [reflexivity|]. split; [exact Hh | exact Hb]. }
  split.
  { rewrite <- (Permutation_map _ Hperm), List.map_map.
    rewrite (List.map_ext _ dedupe_key_from_listing)
      by (intros lst; rewrite evaluate_one_listing; reflexivity).
    apply dedupe_from_NoDup. }
  split; [reflexivity|]. split; [exact Hsub|].
  split; [intros e He; apply Hnew in He; tauto|].
  intros k Hk. apply Hmerged. left. exact Hk.
Qed.

(** The Morgan dollar of the scenarios listed twice on a page: the cycle
    evaluates it once. *)
Lemma X21_twice_listed_morgan_reported_once :
  exists c,
    run_cycle ConfigValues.config 0.0 1765618492 (Some 3.0%float)
      numismatic_defaults.STATIC_NUMISMATIC_DEFAULTS None ∅ None []
      [Scenarios.morgan_40; Scenarios.morgan_40] = Some c
    /\ length (evaluated c) = 1%nat
    /\ NoDup (map (fun e => dedupe_key_from_listing (listing e)) (evaluated c)).
Proof.
  assert (H : exists c,
            run_cycle ConfigValues.config 0.0 1765618492 (Some 3.0%float)
              numismatic_defaults.STATIC_NUMISMATIC_DEFAULTS None ∅ None []
              [Scenarios.morgan_40; Scenarios.morgan_40] = Some c
            /\ length (evaluated c) = 1%nat).
  { eexists. split; vm_compute; reflexivity. }
  destruct H as (c & Hc & Hl). exists c. split; [exact Hc|]. split; [exact Hl|].
  exact (proj1 (proj2 (X21_cycle_reports_filtered_listings_once _ _ _ _ _ _ _ _ _ _ c Hc))).
Defined.

End Cycle.
Section MintMark.
Import Re ReSem ReFacts ReGroups ReGroupFacts numismatic_rules.

Lemma lit_c_cases (x : ascii) :
  lit_eq true "c" x = true -> x = "c"%char \/ x = "C"%char.
Proof.
  intros H. destruct x as [[] [] [] [] [] [] [] []]; try (cbv in H; discriminate H); auto.
Qed.

Lemma mint_letter_cases (x : ascii) :
  in_cls true [CChar "d"; CChar "s"; CChar "o"] x = true ->
  In x ["d"; "D"; "s"; "S"; "o"; "O"]%char.
Proof.
  intros H. destruct x as [[] [] [] [] [] [] [] []]; try (cbv in H; discriminate H);
    cbn; tauto.
Qed.

(** The first group of a match of the mint pattern is "cc" or one of the
    letters d, s, o, in any case. *)
Lemma mint_group (t g : string) :
  search_group1 MINT_RE t = Some g ->
  In g ["cc"; "cC"; "Cc"; "CC"; "d"; "D"; "s"; "S"; "o"; "O"].
Proof.
  unfold search_group1. destruct (search MINT_RE t) as [res|] eqn:E; [|discriminate].
  apply search_sound in E as (c & c' & D).
  cbn [MINT_RE ignore_case expr Seqs denotes] in D.
  destruct D as (m1 & D1 & m2 & D2 & m3 & D3 & _ & D4).
  assert (S1 : snd m1 = []).
  { destruct D1 as [[_ <-]|D1]; [reflexivity | apply reads_captures in D1; exact D1]. }
  assert (S2 : snd m2 = []).
  { destruct D2 as [n D2]. rewrite <- S1. eapply iterate_captures; [|exact D2].
    intros a b. apply reads_captures. }
  destruct D3 as (m & D3 & ->). injection D4 as <- <-.
  assert (Sm : snd m = []).
  { rewrite <- S2. apply (group_free_captures true
              (Alt (Str "cc") (Cls [CChar "d"; CChar "s"; CChar "o"])));
      [reflexivity|].
    exact D3. }
  rewrite Sm. cbn [set_group group Nat.eqb]. intros [= <-].
  destruct D3 as [D3|D3]; cbn [Str denotes] in D3.
  - destruct D3 as (m' & R1 & R2).
    apply reads_rest in R1 as (x & Hx & E1). apply reads_rest in R2 as (y & Hy & E2).
    rewrite (cursor_eta (fst m2)), (cursor_eta (fst m)), E1, E2.
    rewrite (consumed_prefix (String x (String y "")) (rest (fst m)) _ _).
    destruct (lit_c_cases x Hx) as [-> | ->], (lit_c_cases y Hy) as [-> | ->]; cbn; tauto.
  - apply reads_rest in D3 as (x & Hx & E1).
    rewrite (cursor_eta (fst m2)), (cursor_eta (fst m)), E1.
    rewrite (consumed_prefix (String x "") (rest (fst m)) _ _).
    apply mint_letter_cases in Hx. cbn in Hx |- *.
    repeat (destruct Hx as [<-|Hx]; [tauto|]). contradiction.
Qed.

Lemma detected_mint (title ct : string) (y : Z) (m : string) :
  detect_coin_identity title = Some (ct, y, m) ->
  In m ["P"; "D"; "S"; "O"; "CC"] /\ norm_mint m = m.
Proof.
  intros H. apply detect_coin_identity_parts in H as (_ & _ & ->).
  destruct (search_group1 MINT_RE (PyStr.strip title)) as [g|] eqn:E.
  - apply mint_group in E. cbn [default]. cbn in E.
    repeat (destruct E as [<-|E]; [split; [vm_compute; tauto | vm_compute; reflexivity]|]).
    contradiction.
  - cbn [default]. split; [vm_compute; tauto | vm_compute; reflexivity].
Qed.

End MintMark.
Section CaptureKey.
Import numismatic_rules silver_monitor.

Lemma detected_key (title ct : string) (y : Z) (m : string) :
  detect_coin_identity title = Some (ct, y, m) ->
  make_benchmark_key ct y m = hit_engine.make_key ct y m.
Proof.
  intros H. destruct (detected_mint _ _ _ _ H) as [_ Hn].
  unfold make_benchmark_key, hit_engine.make_key. rewrite Hn. reflexivity.
Qed.

(** X22: the mint mark of a detected identity is one of P, D, S, O, CC and
    is its own normal form, so the key under which the capture loop stores a
    price ([make_benchmark_key], which normalises the mint again) is the key
    the hit engine builds for the lookup ([_make_key], which does not). *)
Theorem X22_detected_mint_is_normal (title ct : string) (y : Z) (m : string) :
  detect_coin_identity title = Some (ct, y, m) ->
  In m ["P"; "D"; "S"; "O"; "CC"]
  /\ norm_mint m = m
  /\ make_benchmark_key ct y m = hit_engine.make_key ct y m.
Proof.
  intros H. destruct (detected_mint _ _ _ _ H) as [Hin Hn].
  split; [exact Hin|]. split; [exact Hn|].
  apply (detected_key _ _ _ _ H).
Qed.

(** A Carson City dollar with a lower-case mint mark. *)
Lemma X22_carson_city_key :
  detect_coin_identity "1881 morgan dollar -cc" = Some ("Morgan Dollar", 1881, "CC")
  /\ make_benchmark_key "Morgan Dollar" 1881 "CC" = hit_engine.make_key "Morgan Dollar" 1881 "CC".
Proof.
  assert (H : detect_coin_identity "1881 morgan dollar -cc"
              = Some ("Morgan Dollar", 1881, "CC")) by (vm_compute; reflexivity).
  split; [exact H|].
  exact (proj2 (proj2 (X22_detected_mint_is_normal _ _ _ _ H))).
Defined.

Lemma capture_candidate_parts (cfg : Config) (now : float) (lst : Listing)
    (key : string) (p : float) (b : Z) :
  capture_candidate cfg now lst = Some (key, (p, b)) ->
  exists ct y m,
    detect_coin_identity (title lst) = Some (ct, y, m)
    /\ key = make_benchmark_key ct y m
    /\ p = item_price lst /\ b = bids lst
    /\ silver_math.extract_quantity_from_title (title lst) = 1
    /\ Re.found HARD_DISQUALIFY_RE (title lst) = false
    /\ capture_disqualified cfg (title lst) = false
    /\ in_capture_window cfg now lst = true
    /\ (PRICE_CAPTURE_ONLY_IF_BIDS cfg = true -> 1 <= bids lst).
Proof.
  unfold capture_candidate. cbv zeta.
  destruct (Re.found HARD_DISQUALIFY_RE (title lst)); [discriminate|].
  destruct (existsb _ ACCESSORY_WORDS); [discriminate|].
  destruct (capture_disqualified cfg (title lst)); [discriminate|].
  destruct (Z.eqb_spec (silver_math.extract_quantity_from_title (title lst)) 1) as [Eq|];
    [|discriminate]. cbn [negb].
  destruct (in_capture_window cfg now lst); [|discriminate]. cbn [negb].
  destruct (PRICE_CAPTURE_ONLY_IF_BIDS cfg && (bids lst <? 1)) eqn:Eb; [discriminate|].
  destruct (detect_coin_identity (title lst)) as [[[ct y] m]|]; [|discriminate].
  intros [= <- <- <-]. exists ct, y, m. repeat split; try assumption.
  intros Hflag. rewrite Hflag in Eb. cbn in Eb. apply Z.ltb_ge in Eb. exact Eb.
Qed.

(** X23: when the capture loop offers a listing's price for the EMA, the
    listing is a single coin with a detected identity, inside the capture
    window, with at least one bid when the bid gate is on, its title has no
    hard-disqualify word and no capture-disqualify word; the price offered
    is the item price without shipping, and the key is the very key under
    which [evaluate_listings] looks up the FMV floor of that listing. *)
Theorem X23_captured_price_is_found_at_evaluation (cfg : Config) (now : float) (lst : Listing)
    (key : string) (p : float) (b : Z) :
  capture_candidate cfg now lst = Some (key, (p, b)) ->
  (exists o, check_numismatic_override (title lst) = Some o
             /\ hit_engine.make_key (coin_type o) (year o) (mint o) = key)
  /\ p = item_price lst /\ b = bids lst
  /\ silver_math.extract_quantity_from_title (title lst) = 1
  /\ Re.found HARD_DISQUALIFY_RE (title lst) = false
  /\ capture_disqualified cfg (title lst) = false
  /\ in_capture_window cfg now lst = true
  /\ (PRICE_CAPTURE_ONLY_IF_BIDS cfg = true -> 1 <= bids lst).
Proof.
  intros H. apply capture_candidate_parts in H
    as (ct & y & m & Hd & -> & Hp & Hb & Hq & Hh & Hc & Hw & Hbid).
  split; [|repeat split; assumption].
  unfold check_numismatic_override. rewrite Hd. eexists. split; [reflexivity|].
  cbn [coin_type year mint]. symmetry.
  apply (detected_key _ _ _ _ Hd).
Qed.

(** A raw 1921 Morgan dollar with one bid, ten minutes before its end. *)
Lemma X23_morgan_40_captured :
  capture_candidate ConfigValues.config 0.0 Scenarios.morgan_40
  = Some ("Morgan Dollar|1921|P", (35.0%float, 1))
  /\ exists o, check_numismatic_override (title Scenarios.morgan_40) = Some o
               /\ hit_engine.make_key (coin_type o) (year o) (mint o)
                  = "Morgan Dollar|1921|P".
Proof.
  assert (H : capture_candidate ConfigValues.config 0.0 Scenarios.morgan_40
              = Some ("Morgan Dollar|1921|P", (35.0%float, 1))) by (vm_compute; reflexivity).
  split; [exact H|].
  exact (proj1 (X23_captured_price_is_found_at_evaluation _ _ _ _ _ _ H)).
Defined.

End CaptureKey.
#[local] Set Warnings "-clear-no-such-hyp".

Section CaptureOnce.
Import price_store silver_monitor.

Lemma updates_set_keys (updates : Updates) (key : string) (v : float * Z) (k : string) :
  In k (map fst (updates_set updates key v)) <-> In k (map fst updates) \/ k = key.
Proof.
  induction updates as [|[k0 w] updates IH]; cbn [updates_set map fst In].
  - split; [intros [<- | []]; auto | intros [[] | ->]; auto].
  - destruct (String.eqb_spec k0 key) as [->|N]; cbn [map fst In];
      [intuition congruence|].
    rewrite IH. tauto.
Qed.

Lemma updates_set_NoDup (updates : Updates) (key : string) (v : float * Z) :
  NoDup (map fst updates) -> NoDup (map fst (updates_set updates key v)).
Proof.
  induction updates as [|[k0 w] updates IH]; cbn [updates_set map fst]; intros Hn.
  - constructor; [apply not_elem_of_nil | constructor].
  - apply NoDup_cons in Hn as [Hk Hn].
    destruct (String.eqb_spec k0 key) as [->|N]; cbn [map fst].
    + constructor; assumption.
    + constructor; [|apply IH; exact Hn].
      rewrite list_elem_of_In, updates_set_keys. rewrite list_elem_of_In in Hk.
      intros [H | ->]; [apply Hk, H | apply N; reflexivity].
Qed.

Lemma capture_step_NoDup (cfg : Config) (now : float) (st : Updates * gset string)
    (lst : Listing) :
  NoDup (map fst (fst st)) -> NoDup (map fst (fst (capture_step cfg now st lst))).
Proof.
  destruct st as [updates seen]. unfold capture_step. cbn [fst]. intros Hn.
  destruct (bool_decide _); [exact Hn|].
  destruct (capture_candidate cfg now lst) as [[key [total b]]|]; [|exact Hn].
  destruct (updates_get updates key) as [[pt pb]|].
  - destruct ((pb <? b) || ((b =? pb) && (total <? pt)%float));
      [apply updates_set_NoDup|]; exact Hn.
  - apply updates_set_NoDup. exact Hn.
Qed.

Lemma collect_updates_NoDup (cfg : Config) (now : float) (filtered : list Listing) :
  NoDup (map fst (fst (collect_updates cfg now filtered))).
Proof.
  unfold collect_updates.
  assert (H : forall st, NoDup (map fst (fst st)) ->
                NoDup (map fst (fst (fold_left (capture_step cfg now) filtered st)))).
  { induction filtered as [|lst filtered IH]; intros st Hn; [exact Hn|].
    cbn [fold_left]. apply IH. apply capture_step_NoDup. exact Hn. }
  apply H. constructor.
Qed.

Lemma update_price_local (cfg : Config) (ts : Z) (s1 s2 : Store) (key : string)
    (total_price : option float) (bid_count : Z) :
  s1 !! key = s2 !! key ->
  snd (update_price cfg ts s1 key total_price bid_count) !! key
  = snd (update_price cfg ts s2 key total_price bid_count) !! key.
Proof.
  intros E. unfold update_price.
  destruct (negb (PyStr.nonempty key)); [exact E|].
  destruct (PRICE_CAPTURE_ONLY_IF_BIDS cfg && (bid_count <? 1)); [exact E|].
  destruct total_price as [p|]; [|exact E].
  destruct (p <=? 0)%float; [exact E|].
  cbn [snd]. rewrite !lookup_insert_eq, E. reflexivity.
Qed.

Lemma capture_updates_once (cfg : Config) (ts : Z) (updates : list (string * (float * Z))) :
  NoDup (map fst updates) ->
  forall (store : Store) (k : string),
    snd (capture_updates cfg ts store updates) !! k = store !! k
    \/ exists p b, In (k, (p, b)) updates
                   /\ snd (capture_updates cfg ts store updates) !! k
                      = snd (update_price cfg ts store k (Some p) b) !! k.
Proof.
  induction updates as [|[k0 [p0 b0]] updates IH]; intros Hn store k; [left; reflexivity|].
  cbn [map fst] in Hn. apply NoDup_cons in Hn as [Hk0 Hn].
  cbn [capture_updates].
  pose proof (update_price_other_key cfg ts store k0 (Some p0) b0) as Hframe.
  destruct (update_price cfg ts store k0 (Some p0) b0) as [ok store1] eqn:E1.
  specialize (IH Hn store1 k).
  destruct (capture_updates cfg ts store1 updates) as [n store2]. cbn [snd] in *.
  destruct IH as [IH|(p & b & Hin & IH)].
  - destruct (decide (k = k0)) as [->|N].
    + right. exists p0, b0. split; [left; reflexivity|]. rewrite IH, E1. reflexivity.
    + left. rewrite IH. apply Hframe. exact N.
  - assert (N : k <> k0).
    { intros ->. apply Hk0. apply list_elem_of_In, List.in_map_iff.
      exists (k0, (p, b)). split; [reflexivity | exact Hin]. }
    right. exists p, b. split; [right; exact Hin|].
    rewrite IH. apply update_price_local. apply Hframe. exact N.
Qed.

Lemma update_price_at_key (cfg : Config) (ts : Z) (store : Store) (key : string)
    (p : float) (b : Z) :
  snd (update_price cfg ts store key (Some p) b) !! key = store !! key
  \/ exists e1, snd (update_price cfg ts store key (Some p) b) !! key = Some e1
                /\ samples e1 = 1 + default 0 (samples <$> store !! key)
                /\ last_updated e1 = ts.
Proof.
  unfold update_price.
  destruct (negb (PyStr.nonempty key)); [left; reflexivity|].
  destruct (PRICE_CAPTURE_ONLY_IF_BIDS cfg && (b <? 1)); [left; reflexivity|].
  destruct (p <=? 0)%float; [left; reflexivity|].
  right. cbn [snd]. rewrite lookup_insert_eq. eexists. split; [reflexivity|].
  destruct (store !! key) as [e|]; cbn; split; try reflexivity; lia.
Qed.

(** X24: one scan gives every benchmark key at most one new sample: after
    the capture phase each key either has the entry it had, or an entry
    stamped with the time of the scan whose sample count is the old count
    plus one (1 for a new key); when nothing was offered the store is the
    same and is not saved. *)
Theorem X24_one_sample_per_key_per_scan (cfg : Config) (now : float) (ts : Z)
    (store : Store) (filtered : list Listing) :
  let r := capture_phase cfg now ts store filtered in
  (forall k,
     snd (fst r) !! k = store !! k
     \/ exists e1, snd (fst r) !! k = Some e1
                   /\ samples e1 = 1 + default 0 (samples <$> store !! k)
                   /\ last_updated e1 = ts)
  /\ (snd r = false -> snd (fst r) = store /\ fst (fst r) = 0)
  /\ (snd r = true <-> fst (collect_updates cfg now filtered) <> []).
Proof.
  intros r. subst r. unfold capture_phase. cbv zeta.
  pose proof (collect_updates_NoDup cfg now filtered) as Hn.
  destruct (fst (collect_updates cfg now filtered)) as [|u updates] eqn:E.
  - cbn [fst snd]. split; [intros k; left; reflexivity|].
    split; [auto|]. split; [discriminate | congruence].
  - cbn [fst snd].
    split; [|split; [discriminate | split; [discriminate | reflexivity]]].
    intros k.
    destruct (capture_updates_once cfg ts (u :: updates) Hn store k)
      as [H|(p & b & _ & H)]; [left; exact H|].
    rewrite H. apply update_price_at_key.
Qed.

End CaptureOnce.
Section CycleStore.
Import silver_monitor hit_engine price_store.

Lemma capture_phase_unsaved (cfg : Config) (now : float) (ts : Z) (store : Store)
    (filtered : list Listing) :
  snd (capture_phase cfg now ts store filtered) = false ->
  snd (fst (capture_phase cfg now ts store filtered)) = store.
Proof.
  unfold capture_phase. cbv zeta.
  destruct (fst (collect_updates cfg now filtered)); [reflexivity | discriminate].
Qed.

(** X25: in a cycle the FMV lookups of the evaluation read the prices
    captured a moment before: when the price file loads and the store after
    the capture is written as texts that read back, the records are
    evaluated against exactly that store, and the file left behind is its
    saved text (the file as found when nothing was captured). *)
Theorem X25_evaluation_reads_the_captured_prices (cfg : Config) (now : float) (ts : Z)
    (max_time_hours : option float)
    (static_defaults : list (numismatic_defaults.PyKey * option float))
    (file : option string) (seen : gset string) (min_qty : option Z)
    (blacklist : list string) (listings_all : list Listing) (store : Store) :
  let filtered := filter (passes_filters now max_time_hours min_qty blacklist)
                    (dedupe_listings_in_run listings_all) in
  let r := capture_phase cfg now ts store filtered in
  load_store file = Loaded store ->
  (snd r = true -> JsonText.numeric_lists (as_lists (snd (fst r))) = true) ->
  exists c,
    run_cycle cfg now ts max_time_hours static_defaults file seen min_qty blacklist
      listings_all = Some c
    /\ evaluated c
       = evaluate_listings
           {| cfg := cfg; store := snd (fst r); static_defaults := static_defaults;
              now := now |}
           (dedupe_listings_in_run filtered)
    /\ file_after c
       = if snd r then Some (save_store (as_lists (snd (fst r)))) else file.
Proof.
  intros filtered r Hload Hnum. subst r. unfold run_cycle. cbv zeta.
  rewrite Hload. fold filtered.
  pose proof (capture_phase_unsaved cfg now ts store filtered) as Hun.
  destruct (capture_phase cfg now ts store filtered) as [[n store1] saved].
  cbn [fst snd] in *. destruct saved.
  - rewrite (PriceFileFacts.load_save_store _ (Hnum eq_refl)).
    rewrite PriceFileFacts.normalise_as_lists.
    destruct (split_hits _ seen) as [new merged].
    eexists. split; [reflexivity|]. split; reflexivity.
  - rewrite (Hun eq_refl), Hload.
    destruct (split_hits _ seen) as [new merged].
    eexists. split; [reflexivity|]. split; reflexivity.
Qed.

(** A first cycle on an empty folder of prices: the Morgan dollar is
    captured at 37.80 and evaluated against that price. *)
Lemma X25_first_cycle :
  load_store None = Loaded ∅
  /\ capture_phase ConfigValues.config 0.0 1765618492 ∅ [Scenarios.morgan_40]
     = (1, CycleScenario.first_capture, true)
  /\ JsonText.numeric_lists (as_lists CycleScenario.first_capture) = true
  /\ exists c,
       run_cycle ConfigValues.config 0.0 1765618492 (Some 3.0%float)
         numismatic_defaults.STATIC_NUMISMATIC_DEFAULTS None ∅ None []
         [Scenarios.morgan_40] = Some c
       /\ evaluated c
          = evaluate_listings
              {| cfg := ConfigValues.config; store := CycleScenario.first_capture;
                 static_defaults := numismatic_defaults.STATIC_NUMISMATIC_DEFAULTS;
                 now := 0.0 |}
              [Scenarios.morgan_40]
       /\ file_after c = Some (save_store (as_lists CycleScenario.first_capture)).
Proof.
  assert (Hc : capture_phase ConfigValues.config 0.0 1765618492 ∅ [Scenarios.morgan_40]
               = (1, CycleScenario.first_capture, true)) by (vm_compute; reflexivity).
  assert (Hn : JsonText.numeric_lists (as_lists CycleScenario.first_capture) = true)
    by (vm_compute; reflexivity).
  split; [reflexivity|]. split; [exact Hc|]. split; [exact Hn|].
  pose proof (X25_evaluation_reads_the_captured_prices ConfigValues.config 0.0 1765618492
                (Some 3.0%float) numismatic_defaults.STATIC_NUMISMATIC_DEFAULTS None ∅ None []
                [Scenarios.morgan_40] ∅ eq_refl) as H.
  cbv zeta in H.
  change (filter _ (dedupe_listings_in_run [Scenarios.morgan_40]))
    with [Scenarios.morgan_40] in H.
  rewrite Hc in H. cbn [fst snd] in H.
  exact (H (fun _ => Hn)).
Defined.

End CycleStore.
Section ProspectSignals.
Import prospect_score.

Lemma floordiv60_nonneg (x : float) (m : Z) : PyFloat.floordiv60_int x = Some m -> 0 <= m.
Proof.
  unfold PyFloat.floordiv60_int.
  destruct (Prim2SF x) as [s|s| |s mant e]; try discriminate.
  - intros [= <-]. lia.
  - destruct s; [discriminate|]. intros [= <-].
    destruct (0 <=? e) eqn:E.
    + apply Z.div_pos; [|lia]. apply Z.mul_nonneg_nonneg; [lia|].
      apply Z.pow_nonneg. lia.
    + apply Z.div_pos; [lia|]. apply Z.mul_pos_pos; [lia|].
      apply Z.pow_pos_nonneg; lia.
Qed.

Lemma minutes_text_nonneg (ic : bool) (r tail : Re.regex) (s g : string) :
  ReGroups.digit_run r = true -> ReGroups.group_free tail = true ->
  Re.search_group1 (Re.Pattern ic (Re.Seq (Re.Group 1 r) tail)) s = Some g ->
  0 <= PyStr.int_of_digits g 0.
Proof.
  intros Gr Gt H. apply ReGroupFacts.int_of_digits_nonneg; [|lia].
  eapply ReGroupFacts.leading_digit_group; eassumption.
Qed.

(** X26: the minutes left of a listing, when there are any, are never
    negative: an end time in the past is not used (the text of the time left
    is read instead), and the number read from the text is a number of
    digits. *)
Theorem X26_minutes_left_is_not_negative (now : float) (lst : Listing) (m : Z) :
  minutes_left now lst = Some m -> 0 <= m.
Proof.
  unfold minutes_left. cbv zeta.
  set (s := PyStr.lower (time_left lst)).
  assert (Htext : match Re.search_group1 minutes_m s with
                  | Some g => Some (PyStr.int_of_digits g 0)
                  | None =>
                      match Re.search_group1 minutes_min s with
                      | Some g => Some (PyStr.int_of_digits g 0)
                      | None => None
                      end
                  end = Some m -> 0 <= m).
  { destruct (Re.search_group1 minutes_m s) as [g|] eqn:E1.
    - intros [= <-]. eapply (minutes_text_nonneg false); [| |exact E1]; reflexivity.
    - destruct (Re.search_group1 minutes_min s) as [g|] eqn:E2; [|discriminate].
      intros [= <-]. eapply (minutes_text_nonneg false); [| |exact E2]; reflexivity. }
  destruct (end_time_ts lst) as [end_ts|]; [|exact Htext].
  destruct (0 <=? end_ts - now)%float; [|exact Htext].
  destruct (PyFloat.floordiv60_int (end_ts - now)) as [mins|] eqn:E; [|exact Htext].
  intros [= <-]. eapply floordiv60_nonneg. exact E.
Qed.

(** A listing whose end time has passed, with "5m left" in its text. *)
Lemma X26_five_minutes_left :
  minutes_left 1000.0
    {| title := "1921 Morgan Dollar"; link := ""; item_price := 10.0; shipping := 0.0;
       total_price := 10.0; bids := 0; time_left := "5m left"; item_id := None;
       quantity := 1; oz_per_coin := 0.0; end_time_ts := Some 900.0%float |} = Some 5
  /\ 0 <= 5.
Proof.
  assert (H : minutes_left 1000.0
    {| title := "1921 Morgan Dollar"; link := ""; item_price := 10.0; shipping := 0.0;
       total_price := 10.0; bids := 0; time_left := "5m left"; item_id := None;
       quantity := 1; oz_per_coin := 0.0; end_time_ts := Some 900.0%float |} = Some 5)
    by (vm_compute; reflexivity).
  split; [exact H|].
  exact (X26_minutes_left_is_not_negative _ _ _ H).
Defined.

(** X27: every score comes with at least one reason; a score cut short by
    a gate (missing anchors, a hard-disqualify keyword or pattern) is 0 with
    the name of the gate as its only reason, and these names stand in no
    other result; and the reason "premium-terms-priced-like-raw" never comes
    without the reason "high-grade-signals", so its bonus is always paid
    together with the high-grade penalty of 14 points. *)
Theorem X27_score_reasons (cfg : Config) (now : float) (lst : Listing)
    (fmv_floor dealer_value : option float) :
  let ps := score_prospect cfg now lst fmv_floor dealer_value in
  reasons ps <> []
  /\ (In "premium-terms-priced-like-raw" (reasons ps) ->
      In "high-grade-signals" (reasons ps))
  /\ (forall g, In g ScoreSteps.gate_tags -> In g (reasons ps) ->
      score ps = 0 /\ reasons ps = [g])
  /\ (fmv_floor = None \/ dealer_value = None -> reasons ps = ["missing-anchors"]).
Proof.
  intros ps. subst ps.
  assert (Hshort : forall tag, In tag ScoreSteps.gate_tags ->
            [tag] <> []
            /\ (In "premium-terms-priced-like-raw" [tag] -> In "high-grade-signals" [tag])
            /\ (forall g, In g ScoreSteps.gate_tags -> In g [tag] -> 0 = 0 /\ [tag] = [g])).
  { intros tag Htag. split; [discriminate|]. split.
    - intros [H|[]]. cbn in Htag. destruct Htag as [<-|[<-|[<-|[]]]]; discriminate H.
    - intros g _ [->|[]]. auto. }
  unfold score_prospect. cbv zeta.
  destruct fmv_floor as [fmv|].
  2:{ destruct (Hshort "missing-anchors") as (H1 & H2 & H3); [cbn; tauto|].
      destruct dealer_value; cbn [reasons score];
        (split; [exact H1|]; split; [exact H2|]; split; [exact H3 | reflexivity]). }
  destruct dealer_value as [dv|].
  2:{ destruct (Hshort "missing-anchors") as (H1 & H2 & H3); [cbn; tauto|].
      cbn [reasons score].
      split; [exact H1|]. split; [exact H2|]. split; [exact H3 | reflexivity]. }
  destruct (PyFloat.or_default (total_price lst) 0.0 <=? 0)%float.
  { destruct (Hshort "missing-anchors") as (H1 & H2 & H3); [cbn; tauto|].
    cbn [reasons score].
    split; [exact H1|]. split; [exact H2|].
    split; [exact H3 | intros [H|H]; discriminate H]. }
  destruct (has_any (title lst) _).
  { destruct (Hshort "pros-hard-disqualify-keyword") as (H1 & H2 & H3); [cbn; tauto|].
    cbn [reasons score].
    split; [exact H1|]. split; [exact H2|].
    split; [exact H3 | intros [H|H]; discriminate H]. }
  destruct (matches_any_regex (title lst) _).
  { destruct (Hshort "pros-hard-disqualify-regex") as (H1 & H2 & H3); [cbn; tauto|].
    cbn [reasons score].
    split; [exact H1|]. split; [exact H2|].
    split; [exact H3 | intros [H|H]; discriminate H]. }
  cbn [reasons score].
  destruct (ScoreStepFacts.additive_reasons cfg now lst fmv dv
              (PyFloat.or_default (total_price lst) 0.0)) as (A1 & A2 & A3).
  cbv zeta in A1, A2, A3.
  split; [exact A1|]. split; [exact A2|].
  split; [|intros [H|H]; discriminate H].
  intros g Hg H. exfalso. exact (A3 g Hg H).
Qed.

End ProspectSignals.


(* ===================================================================== *)
(** * Titles of several coins and the price capture                     *)
(* ===================================================================== *)

Section MultiCoinTitles.
Import silver_math silver_monitor.

(** X28: with the shipped configuration, a title that
    [has_multi_coin_semantics] flags (one that holds "lot", "group",
    "collection", "estate", "hoard", "mixed", "bundle", "set", "roll", "bag"
    or "coins", also inside a longer word) is disqualified from the price
    capture, so no listing with such a title is offered to the EMA. *)
Theorem X28_multi_coin_titles_are_not_captured (now : float) (lst : Listing) :
  has_multi_coin_semantics (title lst) = true ->
  capture_disqualified ConfigValues.config (title lst) = true
  /\ capture_candidate ConfigValues.config now lst = None.
Proof.
  intros H.
  assert (Hd : capture_disqualified ConfigValues.config (title lst) = true).
  { unfold has_multi_coin_semantics in H. cbv zeta in H.
    apply existsb_exists in H as (tok & Hin & Hc).
    unfold capture_disqualified. cbv zeta. apply orb_true_iff. left.
    apply existsb_exists.
    exists (PyStr.strip tok). split.
    - cbn in Hin.
      repeat (destruct Hin as [<-|Hin]; [vm_compute; tauto|]). contradiction.
    - apply andb_true_iff. split.
      + cbn in Hin.
        repeat (destruct Hin as [<-|Hin]; [vm_compute; reflexivity|]). contradiction.
      + cbn in Hin.
        repeat (destruct Hin as [<-|Hin];
                [exact Hc|]). contradiction. }
  split; [exact Hd|].
  unfold capture_candidate. cbv zeta.
  destruct (Re.found HARD_DISQUALIFY_RE (title lst)); [reflexivity|].
  destruct (existsb _ ACCESSORY_WORDS); [reflexivity|].
  rewrite Hd. reflexivity.
Qed.

(** A pilot's medal: "lot" inside a word. *)
Lemma X28_word_inside_a_word :
  has_multi_coin_semantics "1921 Morgan Dollar pilot medal" = true
  /\ capture_candidate ConfigValues.config 0.0
       (Scenarios.parsed "1921 Morgan Dollar pilot medal" 40.0 5.0 1 1 (Some 600.0%float))
     = None.
Proof.
  assert (H : has_multi_coin_semantics "1921 Morgan Dollar pilot medal" = true)
    by (vm_compute; reflexivity).
  split; [exact H|].
  exact (proj2 (X28_multi_coin_titles_are_not_captured 0.0
                  (Scenarios.parsed "1921 Morgan Dollar pilot medal" 40.0 5.0 1 1
                     (Some 600.0%float)) H)).
Defined.

End MultiCoinTitles.

(* ===================================================================== *)
(** * Console table rows and item ids                                   *)
(* ===================================================================== *)

Section TableCells.
Import console_tables.

Lemma substring_length (k : nat) (s : string) :
  String.length (String.substring 0 k s) = Nat.min k (String.length s).
Proof.
  revert k. induction s as [|c s IH]; intros k.
  - destruct k; reflexivity.
  - destruct k as [|k]; [reflexivity|]. cbn [String.substring String.length].
    rewrite IH. reflexivity.
Qed.

Lemma blanks_length (n : nat) : String.length (blanks n) = n.
Proof. induction n as [|n IH]; [reflexivity|]. cbn. rewrite IH. reflexivity. Qed.

Lemma truncate_length (text : string) (width : Z) :
  3 <= width -> Z.of_nat (String.length (truncate text width)) <= width.
Proof.
  intros Hw. unfold truncate.
  destruct (Z.leb_spec (Z.of_nat (String.length text)) width) as [H|H]; [exact H|].
  rewrite JsonFacts.length_append, substring_length. cbn [String.length]. lia.
Qed.

Lemma cell_length (text : string) (width : Z) :
  3 <= width -> Z.of_nat (String.length (ljust (truncate text width) width)) = width.
Proof.
  intros Hw. pose proof (truncate_length text width Hw) as Ht.
  unfold ljust. rewrite JsonFacts.length_append, blanks_length. lia.
Qed.

Lemma join_cells_length (cells : list string) (widths : list Z) :
  cells <> [] ->
  Forall2 (fun c w => Z.of_nat (String.length c) = w) cells widths ->
  Z.of_nat (String.length (join " | " cells))
  = fold_right Z.add 0 widths + 3 * (Z.of_nat (length cells) - 1).
Proof.
  intros Hne H. induction H as [|c w cells widths Hc H IH]; [congruence|].
  destruct cells as [|c2 cells].
  - inversion H; subst. cbn [join fold_right length]. lia.
  - specialize (IH ltac:(discriminate)).
    change (join " | " (c :: c2 :: cells)) with (c +:+ " | " +:+ join " | " (c2 :: cells)).
    rewrite !JsonFacts.length_append. cbn [fold_right]. cbn [String.length].
    cbn [length] in IH |- *. lia.
Qed.

(** X29: a row of the console table has a fixed length: when every column
    is at least 3 wide and there is a value for each column, each cell is
    exactly as wide as its column (a longer text is cut and ends in three
    dots, a shorter one is padded with blanks), so the row is as long as the
    widths and the separators together; a text that fits is shown whole. *)
Theorem X29_table_rows_have_fixed_length (values : list string) (widths : list Z) :
  Forall (fun w => 3 <= w) widths -> length values = length widths -> widths <> [] ->
  Z.of_nat (String.length (fmt_row values widths))
  = fold_right Z.add 0 widths + 3 * (Z.of_nat (length widths) - 1)
  /\ (forall text w, Z.of_nat (String.length text) <= w -> truncate text w = text)
  /\ (forall text w, 3 <= w -> w < Z.of_nat (String.length text) ->
        truncate text w = String.substring 0 (Z.to_nat (w - 3)) text +:+ "..."
        /\ Z.of_nat (String.length (truncate text w)) = w).
Proof.
  intros Hw Hlen Hne. split; [|split].
  - unfold fmt_row.
    assert (H2 : Forall2 (fun c w => Z.of_nat (String.length c) = w)
                   (map (fun vw => ljust (truncate (fst vw) (snd vw)) (snd vw))
                      (zip values widths)) widths).
    { clear Hne. revert values Hlen. induction Hw as [|w widths Hw0 Hw IH]; intros values Hlen.
      - destruct values; [constructor | discriminate].
      - destruct values as [|v values]; [discriminate|].
        cbn [zip map fst snd]. constructor; [apply cell_length; exact Hw0|].
        apply IH. simpl in Hlen. lia. }
    rewrite (join_cells_length _ widths); [|intros E; rewrite E in H2; inversion H2; congruence
                                           | exact H2].
    rewrite (Forall2_length _ _ _ H2). reflexivity.
  - intros text w H. unfold truncate.
    destruct (Z.leb_spec (Z.of_nat (String.length text)) w); [reflexivity | lia].
  - intros text w H3 H. unfold truncate.
    destruct (Z.leb_spec (Z.of_nat (String.length text)) w) as [H'|H']; [lia|].
    rewrite Z.max_r by lia. split; [reflexivity|].
    rewrite JsonFacts.length_append, substring_length. cbn [String.length]. lia.
Qed.

(** A row of three columns. *)
Lemma X29_three_columns :
  Forall (fun w => 3 <= w) [5; 3; 8]
  /\ fmt_row ["Hit!"; "1921 Morgan Dollar"; "12.50"] [5; 3; 8] = "Hit!  | ... | 12.50   "
  /\ Z.of_nat (String.length (fmt_row ["Hit!"; "1921 Morgan Dollar"; "12.50"] [5; 3; 8]))
     = fold_right Z.add 0 [5; 3; 8] + 3 * (Z.of_nat (length [5; 3; 8]) - 1).
Proof.
  assert (H : Forall (fun w => 3 <= w) [5; 3; 8]) by (repeat constructor; lia).
  split; [exact H|]. split; [vm_compute; reflexivity|].
  exact (proj1 (X29_table_rows_have_fixed_length
                  ["Hit!"; "1921 Morgan Dollar"; "12.50"] [5; 3; 8] H eq_refl
                  ltac:(discriminate))).
Defined.

End TableCells.

Section ItemId.
Import Re ReSem ReFacts ReGroups ReGroupFacts ebay_search_parser silver_monitor.

Lemma iterate_digits (ic : bool) (n : nat) :
  forall a b, iterate (denotes ic digit) n a b ->
    exists p, rest (fst a) = p +:+ rest (fst b)
              /\ JsonText.all_chars PyStr.is_digit p = true /\ snd b = snd a.
Proof.
  induction n as [|n IH]; intros a b H; cbn [iterate] in H.
  - subst b. exists "". repeat split.
  - destruct H as (m & H1 & H2).
    pose proof (reads_captures _ _ _ H1) as S1.
    apply reads_rest in H1 as (x & Hx & E1).
    destruct (IH _ _ H2) as (p & E2 & D & S2).
    exists (String x p). split; [rewrite E1, E2; reflexivity|].
    split; [|congruence].
    cbn [JsonText.all_chars]. rewrite (in_cls_digit ic x Hx), D. reflexivity.
Qed.

(** The first group of a match of the item pattern: digits, at least one. *)
Lemma item_group (link g : string) :
  search_group1 ITM_RE link = Some g ->
  g <> "" /\ JsonText.all_chars PyStr.is_digit g = true.
Proof.
  unfold search_group1. destruct (search ITM_RE link) as [res|] eqn:E; [|discriminate].
  apply search_sound in E as (c & c' & D).
  cbn [ITM_RE ignore_case expr denotes] in D.
  destruct D as (m1 & D1 & m & D2 & D3).
  pose proof (group_free_captures false (Str "/itm/") eq_refl _ _ D1) as S1.
  cbn [snd] in S1.
  unfold Plus in D2. cbn [denotes] in D2. destruct D2 as (m2 & R1 & n & D2).
  pose proof (reads_captures _ _ _ R1) as S2.
  apply reads_rest in R1 as (x & Hx & E1).
  destruct (iterate_digits false n _ _ D2) as (p & E2 & Dp & S3).
  injection D3 as _ Hres. subst res.
  rewrite S3, S2, S1. cbn [set_group group Nat.eqb]. intros [= <-].
  rewrite (cursor_eta (fst m1)), (cursor_eta (fst m)), E1, E2.
  rewrite (consumed_prefix (String x p) (rest (fst m)) _ _).
  split; [discriminate|].
  cbn [JsonText.all_chars]. rewrite (in_cls_digit false x Hx), Dp. reflexivity.
Qed.

(** X30: the item id read from a link is a non-empty text of digits that
    is none of the four placeholder ids; an empty link has none.  So the
    dedupe key of a listing with such an id is "itm:" and these digits. *)
Theorem X30_item_id_is_digits (link id : string) :
  extract_item_id_from_link link = Some id ->
  id <> "" /\ JsonText.all_chars PyStr.is_digit id = true
  /\ ~ In id INVALID_ITM_IDS
  /\ link <> ""
  /\ (forall lst, item_id lst = Some id -> dedupe_key_from_listing lst = "itm:" +:+ id).
Proof.
  unfold extract_item_id_from_link.
  destruct link as [|c link]; [discriminate|]. cbn [PyStr.nonempty negb].
  destruct (search_group1 ITM_RE (String c link)) as [g|] eqn:E; [|discriminate].
  destruct (existsb (String.eqb g) INVALID_ITM_IDS) eqn:Ei; [discriminate|].
  intros [= <-]. destruct (item_group _ _ E) as [Hne Hd].
  split; [exact Hne|]. split; [exact Hd|]. split; [|split; [discriminate|]].
  - intros Hin.
    assert (Ht : existsb (String.eqb g) INVALID_ITM_IDS = true).
    { apply existsb_exists. exists g. split; [exact Hin | apply String.eqb_refl]. }
    congruence.
  - intros lst Hid. unfold dedupe_key_from_listing. rewrite Hid.
    destruct g; [congruence | reflexivity].
Qed.

(** A link of a saved page. *)
Lemma X30_saved_link :
  extract_item_id_from_link "https://www.ebay.com/itm/256789012345?hash=item3b" 
  = Some "256789012345"
  /\ JsonText.all_chars PyStr.is_digit "256789012345" = true.
Proof.
  assert (H : extract_item_id_from_link "https://www.ebay.com/itm/256789012345?hash=item3b"
              = Some "256789012345") by (vm_compute; reflexivity).
  split; [exact H|].
  exact (proj1 (proj2 (X30_item_id_is_digits _ _ H))).
Defined.

End ItemId.
